(** * Evidence pipeline of edu-video-factory: segmenter, reading map,
      index build and evidence-packet assembly

    Shallow embedding of
      - [cfa_factory/tools/chunker.py]
      - [cfa_factory/tools/reading_map_builder.py]
      - [cfa_factory/tools/index_store.py]
      - [cfa_factory/tools/retrieval.py]
    and, for the further properties, of the field constraints of
    [cfa_factory/schemas/models.py], the reading-id normalization and the
    [packet] and [vision extract] commands of [cfa_factory/cli/main.py], the
    asset extraction of [cfa_factory/tools/vision_extract.py], and the two
    agents of [cfa_factory/agents/framework.py].

    Conventions.  A Python [str] is a [string]; on ASCII text its length and
    offsets are the ones Python computes (a character outside ASCII is
    represented by its UTF-8 bytes, which is also what [encode("utf-8")]
    hands to the hash).  A Python [int] is a [Z].  A raised exception is the
    [Raise] case of [result].  External collaborators (the block classifier,
    the embedding service, the similarity index engine) are function
    arguments; every call that touches the index engine is recorded in a
    trace. *)

From Stdlib Require Import ZArith List String Ascii Bool Lia QArith Qminmax Sorted.
From stdpp Require Import base option list strings pretty gmap.

Local Open Scope string_scope.
Local Open Scope list_scope.
Local Open Scope Z_scope.

(** ** Python built-ins used by the sources *)

Module Py.

(** Exceptions, by class and message. *)
Inductive exn : Type :=
| ValueError (msg : string)
| FileNotFoundError (msg : string)
| Exception (msg : string).

Definition exn_msg (e : exn) : string :=
  match e with
  | ValueError m | FileNotFoundError m | Exception m => m
  end.

Inductive result (A : Type) : Type :=
| Ok (a : A)
| Raise (e : exn).
Arguments Ok {A} a.
Arguments Raise {A} e.

Definition bind {A B} (m : result A) (k : A -> result B) : result B :=
  match m with
  | Ok a => k a
  | Raise e => Raise e
  end.

Definition is_ok {A} (m : result A) : bool :=
  match m with Ok _ => true | Raise _ => false end.

(** [len(s)] *)
Definition len (s : string) : Z := Z.of_nat (String.length s).

Fixpoint str_take (n : nat) (s : string) : string :=
  match n, s with
  | S n', String c s' => String c (str_take n' s')
  | _, _ => EmptyString
  end.

Fixpoint str_drop (n : nat) (s : string) : string :=
  match n, s with
  | S n', String _ s' => str_drop n' s'
  | _, _ => s
  end.

(** An index of a slice, clamped the way Python does it. *)
Definition clamp (n k : Z) : Z :=
  if k <? 0 then Z.max 0 (k + n) else Z.min k n.

(** [s[i:j]] *)
Definition slice (s : string) (i j : Z) : string :=
  let a := clamp (len s) i in
  let b := clamp (len s) j in
  str_take (Z.to_nat (b - a)) (str_drop (Z.to_nat a) s).

(** [s.rfind(sub)]: the highest index where [sub] starts, [-1] if none.
    [off] is the offset of the suffix [s] in the whole string. *)
Fixpoint rfind_from (sub s : string) (off : Z) : Z :=
  let later :=
    match s with
    | EmptyString => -1
    | String _ s' => rfind_from sub s' (off + 1)
    end in
  if 0 <=? later then later
  else if String.prefix sub s then off else -1.

Definition rfind (s sub : string) : Z := rfind_from sub s 0.

(** [sub in s] *)
Fixpoint contains (sub s : string) : bool :=
  String.prefix sub s ||
  match s with
  | EmptyString => false
  | String _ s' => contains sub s'
  end.

(** [str.isspace] on one ASCII character: TAB, LF, VT, FF, CR, FS, GS,
    RS, US and the space. *)
Definition is_space (c : ascii) : bool :=
  let n := Z.of_N (N_of_ascii c) in
  ((9 <=? n) && (n <=? 13)) || ((28 <=? n) && (n <=? 32)).

Fixpoint lstrip (s : string) : string :=
  match s with
  | EmptyString => EmptyString
  | String c s' => if is_space c then lstrip s' else s
  end.

Fixpoint rstrip (s : string) : string :=
  match s with
  | EmptyString => EmptyString
  | String c s' =>
      match rstrip s' with
      | EmptyString => if is_space c then EmptyString else String c EmptyString
      | r => String c r
      end
  end.

(** [s.strip()] *)
Definition strip (s : string) : string := rstrip (lstrip s).

Definition lower_char (c : ascii) : ascii :=
  let n := N_of_ascii c in
  if ((65 <=? n) && (n <=? 90))%N then ascii_of_N (n + 32) else c.

(** [s.lower()], on ASCII letters *)
Fixpoint lower (s : string) : string :=
  match s with
  | EmptyString => EmptyString
  | String c s' => String (lower_char c) (lower s')
  end.

(** [s.endswith(suffix)] *)
Definition endswith (s suffix : string) : bool :=
  let n := String.length s in
  let k := String.length suffix in
  (k <=? n)%nat && String.eqb (str_drop (n - k) s) suffix.

(** [sep.join(parts)] *)
Fixpoint join (sep : string) (parts : list string) : string :=
  match parts with
  | [] => EmptyString
  | [p] => p
  | p :: rest => p +:+ sep +:+ join sep rest
  end.

(** [str(n)] for an [int] *)
Definition str (n : Z) : string := pretty n.

(** Truthiness of a [str] *)
Definition truthy (s : string) : bool := negb (String.eqb s EmptyString).

Definition is_digit (c : ascii) : bool :=
  let n := N_of_ascii c in ((48 <=? n) && (n <=? 57))%N.

(** [s.isdigit()] *)
Definition isdigit (s : string) : bool :=
  truthy s && forallb is_digit (list_ascii_of_string s).

(** Decimal digits, single underscores allowed between two digits. *)
Fixpoint digits_value (s : string) (acc : Z) (after_digit : bool) : option Z :=
  match s with
  | EmptyString => if after_digit then Some acc else None
  | String c s' =>
      if is_digit c
      then digits_value s' (10 * acc + (Z.of_N (N_of_ascii c) - 48)) true
      else if Ascii.eqb c "_" && after_digit then digits_value s' acc false
      else None
  end.

(** [int(s)] for a [str]; [None] is [ValueError]. *)
Definition int (s : string) : option Z :=
  match strip s with
  | String "-" ds => Z.opp <$> digits_value ds 0 false
  | String "+" ds => digits_value ds 0 false
  | ds => digits_value ds 0 false
  end.

(** [re.search(pattern, s, flags=re.IGNORECASE)], an external library:
    the groups of the leftmost match, [group(0)] first, or [None]. *)
Definition Regex : Type := string -> string -> option (list string).

Definition group (m : list string) (i : nat) : string := nth i m EmptyString.

End Py.

(** ** [hashlib.sha1] (FIPS 180-4), on the UTF-8 bytes of a [str] *)

Module Sha1.

Definition mask32 : Z := 4294967295.
Definition add32 (a b : Z) : Z := Z.land (a + b) mask32.
Definition rotl32 (n a : Z) : Z :=
  Z.land (Z.lor (Z.shiftl a n) (Z.shiftr a (32 - n))) mask32.
Definition not32 (a : Z) : Z := Z.lxor a mask32.

Definition bytes_of (s : string) : list Z :=
  List.map (fun c => Z.of_N (N_of_ascii c)) (list_ascii_of_string s).

(** Big-endian bytes of [v], [n] of them. *)
Fixpoint be_bytes (n : nat) (v : Z) : list Z :=
  match n with
  | O => []
  | S n' => Z.land (Z.shiftr v (8 * Z.of_nat n')) 255 :: be_bytes n' v
  end.

(** Message padding: a [0x80] byte, zeros up to 56 mod 64, the bit length
    on 8 bytes. *)
Definition pad (msg : list Z) : list Z :=
  let l := Z.of_nat (List.length msg) in
  let k := Z.to_nat ((55 - l) mod 64) in
  msg ++ 128 :: List.repeat 0 k ++ be_bytes 8 (8 * l).

Fixpoint words_of (fuel : nat) (bs : list Z) : list Z :=
  match fuel, bs with
  | S f, a :: b :: c :: d :: rest =>
      (Z.shiftl a 24 + Z.shiftl b 16 + Z.shiftl c 8 + d) :: words_of f rest
  | _, _ => []
  end.

(** The message schedule, most recent word first: [w16 ws] is the next
    word from the sixteen latest ones. *)
Definition w16 (ws : list Z) : Z :=
  rotl32 1 (Z.lxor (Z.lxor (nth 2 ws 0) (nth 7 ws 0))
                   (Z.lxor (nth 13 ws 0) (nth 15 ws 0))).

Fixpoint extend (n : nat) (ws : list Z) : list Z :=
  match n with
  | O => ws
  | S n' => extend n' (w16 ws :: ws)
  end.

Definition schedule (block : list Z) : list Z :=
  rev (extend 64 (rev block)).

Definition f_k (t : Z) (b c d : Z) : Z * Z :=
  if t <? 20 then (Z.lor (Z.land b c) (Z.land (not32 b) d), 1518500249)
  else if t <? 40 then (Z.lxor (Z.lxor b c) d, 1859775393)
  else if t <? 60 then
    (Z.lor (Z.lor (Z.land b c) (Z.land b d)) (Z.land c d), 2400959708)
  else (Z.lxor (Z.lxor b c) d, 3395469782).

Record state := St { ha : Z; hb : Z; hc : Z; hd : Z; he : Z }.

Definition round (t : Z) (w : Z) (s : state) : state :=
  let '(f, k) := f_k t (hb s) (hc s) (hd s) in
  let tmp := add32 (add32 (add32 (add32 (rotl32 5 (ha s)) f) (he s)) k) w in
  St tmp (ha s) (rotl32 30 (hb s)) (hc s) (hd s).

Fixpoint rounds (t : Z) (ws : list Z) (s : state) : state :=
  match ws with
  | [] => s
  | w :: ws' => rounds (t + 1) ws' (round t w s)
  end.

Definition compress (h : state) (block : list Z) : state :=
  let s := rounds 0 (schedule block) h in
  St (add32 (ha h) (ha s)) (add32 (hb h) (hb s)) (add32 (hc h) (hc s))
     (add32 (hd h) (hd s)) (add32 (he h) (he s)).

Fixpoint blocks (fuel : nat) (ws : list Z) (h : state) : state :=
  match fuel, ws with
  | S f, _ :: _ => blocks f (skipn 16 ws) (compress h (firstn 16 ws))
  | _, _ => h
  end.

Definition init : state :=
  St 1732584193 4023233417 2562383102 271733878 3285377520.

Definition digest (msg : list Z) : list Z :=
  let p := pad msg in
  let ws := words_of (List.length p) p in
  let h := blocks (List.length ws) ws init in
  be_bytes 4 (ha h) ++ be_bytes 4 (hb h) ++ be_bytes 4 (hc h)
    ++ be_bytes 4 (hd h) ++ be_bytes 4 (he h).

Definition hex_digit (n : Z) : ascii :=
  if n <? 10 then ascii_of_N (Z.to_N (48 + n))
  else ascii_of_N (Z.to_N (87 + n)).

Fixpoint hex (bs : list Z) : string :=
  match bs with
  | [] => EmptyString
  | b :: bs' =>
      String (hex_digit (Z.shiftr b 4)) (String (hex_digit (Z.land b 15)) (hex bs'))
  end.

(** [hashlib.sha1(text.encode("utf-8")).hexdigest()] *)
Definition hexdigest (text : string) : string := hex (digest (bytes_of text)).

End Sha1.

(** ** Data model: [cfa_factory/schemas/models.py] *)

Module Models.

Inductive ContentType : Type := Text | Table | Formula | Figure.

Definition ContentType_eqb (a b : ContentType) : bool :=
  match a, b with
  | Text, Text | Table, Table | Formula, Formula | Figure, Figure => true
  | _, _ => false
  end.

(** Page coordinates are floats in the sources, which only copy and
    compare them; rationals stand for them here. *)
Definition BBox : Type := Q * Q * Q * Q.

Record Span := { start_char : Z; end_char : Z }.

(** [Chunk], without the fields the segmenter leaves at their defaults
    ([schema_version], [image_ref], [extracted_struct], [quiz_ref]). *)
Record Chunk := {
  chunk_id : string;
  doc_id : string;
  kind : string;
  page : Z;
  reading_id : option string;
  section_path : list string;
  content_type : ContentType;
  content : string;
  span : Span;
  content_hash : string;
  source_path : option string;
  no_cut : bool;
  bbox : option BBox;
  page_size : option (list Q);
  block_ids : option (list Z);
  image_block_ids : option (list Z);
  image_bboxes : option (list BBox)
}.

Record RetrievalHit := {
  hit_chunk_id : string;
  hit_doc_id : string;
  hit_page : Z;
  hit_score : Q;
  hit_snippet : string
}.

Record TopKQuery := { query : string; k : Z; hits : list RetrievalHit }.

(** One entry of [reading_map.json]. *)
Record ReadingInterval := {
  ri_reading_id : string;
  ri_reading_title : string;
  page_start : Z;
  page_end : Z
}.

End Models.

(** ** The segmenter: [cfa_factory/tools/chunker.py] *)

Module Chunker.
Import Py Models.

Definition _sha1 (text : string) : string := Sha1.hexdigest text.

(** [f"{doc_id}|p{page}|{start_char}-{end_char}|{content_hash}"] *)
Definition _stable_chunk_id (doc_id : string) (page start_char end_char : Z)
    (content_hash : string) : string :=
  let raw := doc_id +:+ "|p" +:+ str page +:+ "|" +:+ str start_char +:+ "-"
             +:+ str end_char +:+ "|" +:+ content_hash in
  Sha1.hexdigest raw.

Definition _find_reading_id (reading_map : gmap string (list ReadingInterval))
    (doc_id : string) (page : Z) : option string :=
  let items := default [] (reading_map !! doc_id) in
  ri_reading_id <$>
    List.find (fun it => (page_start it <=? page) && (page <=? page_end it)) items.

Record LlmChunkSpec := {
  spec_block_ids : list Z;
  spec_image_block_ids : list Z;
  spec_content_type : ContentType;
  spec_section_path : list string;
  spec_no_cut : bool
}.

Record LlmPageSpec := { chunks : list LlmChunkSpec }.

(** A block of the page dictionary: [type == 0] carries lines of span
    texts, [type == 1] is an image, anything else is ignored. *)
Inductive Block : Type :=
| TextBlock (bbox : option BBox) (lines : list (list string))
| ImageBlock (bbox : option BBox)
| OtherBlock.

Definition _extract_text_from_block (lines : list (list string)) : string :=
  let texts :=
    List.filter truthy (List.map strip (List.concat lines)) in
  strip (join " " texts).

Definition _compute_bbox_union (bboxes : list BBox) : option BBox :=
  match bboxes with
  | [] => None
  | b :: rest =>
      Some (fold_left
              (fun acc b' =>
                 let '(x0, y0, x1, y1) := acc in
                 let '(u0, v0, u1, v1) := b' in
                 (Qmin x0 u0, Qmin y0 v0, Qmax x1 u1, Qmax y1 v1))
              rest b)
  end.

(** [f"{doc_id}|p{page}|blocks:{','.join(str(i) for i in block_ids)}|{content_hash}"] *)
Definition _stable_chunk_id_blocks (doc_id : string) (page : Z)
    (block_ids : list Z) (content_hash : string) : string :=
  let raw := doc_id +:+ "|p" +:+ str page +:+ "|blocks:"
             +:+ join "," (List.map str block_ids) +:+ "|" +:+ content_hash in
  Sha1.hexdigest raw.

(** The two block lists built at the head of [_page_to_chunks_llm]; a
    block's id is its position in its list. *)
Definition text_blocks_of (blocks : list Block) : list (option BBox * string) :=
  flat_map
    (fun b =>
       match b with
       | TextBlock bbox lines =>
           let t := _extract_text_from_block lines in
           if truthy t then [(bbox, t)] else []
       | _ => []
       end)
    blocks.

Definition image_blocks_of (blocks : list Block) : list (option BBox) :=
  flat_map
    (fun b => match b with ImageBlock bbox => [bbox] | _ => [] end)
    blocks.

(** What the prompt is built from. *)
Record Prompt := {
  pr_reading_id : option string;
  pr_page : Z;
  pr_page_size : list Q;
  pr_text_blocks : list (option BBox * string);
  pr_image_blocks : list (option BBox)
}.

(** The block classifier: [client.models.generate_content] followed by
    [resp.parsed]; [None] is an exception or an empty response, both of
    which the caller turns into "no chunks". *)
Definition Classifier : Type := string -> Prompt -> option LlmPageSpec.

Definition in_range {A} (l : list A) (i : Z) : bool :=
  (0 <=? i) && (i <? Z.of_nat (List.length l)).

(** [[l[i] for i in ids]], for ids already filtered by [in_range]. *)
Definition pick {A} (l : list A) (ids : list Z) : list A :=
  flat_map (fun i => option_list (l !! Z.to_nat i)) ids.

Definition section_path_of (reading_id : option string) (items : list string)
    : list string :=
  let rid := default "" reading_id in
  (if truthy rid then [rid] else [])
    ++ List.filter
         (fun item => truthy item && negb (bool_decide (Some item = reading_id)))
         items.

Definition is_atomic_type (ct : ContentType) : bool :=
  match ct with
  | Table | Formula | Figure => true
  | Text => false
  end.

(** The body of the loop over [parsed.chunks]: one proposal gives one
    chunk or is skipped. *)
Definition chunk_of_spec (doc_id kind source_path : string) (page_num : Z)
    (page_size : list Q) (reading_id : option string) (min_chunk_chars : Z)
    (text_blocks : list (option BBox * string))
    (image_blocks : list (option BBox)) (spec : LlmChunkSpec) : option Chunk :=
  let block_ids := List.filter (in_range text_blocks) (spec_block_ids spec) in
  match block_ids with
  | [] => None
  | _ =>
      let text_parts := List.map snd (pick text_blocks block_ids) in
      let content := strip (join (String "010" "") (List.filter truthy text_parts)) in
      if negb (truthy content) || (len content <? min_chunk_chars) then None
      else
        let content_hash := _sha1 content in
        let chunk_id :=
          _stable_chunk_id_blocks doc_id page_num block_ids content_hash in
        let text_bboxes :=
          flat_map (fun b => option_list (fst b)) (pick text_blocks block_ids) in
        let image_ids :=
          List.filter (in_range image_blocks) (spec_image_block_ids spec) in
        let image_bboxes :=
          flat_map option_list (pick image_blocks image_ids) in
        let bbox := _compute_bbox_union (text_bboxes ++ image_bboxes) in
        let section_path := section_path_of reading_id (spec_section_path spec) in
        let content_type := spec_content_type spec in
        let no_cut := spec_no_cut spec || is_atomic_type content_type in
        Some {| chunk_id := chunk_id;
                doc_id := doc_id;
                kind := kind;
                page := page_num;
                reading_id := reading_id;
                section_path := section_path;
                content_type := content_type;
                content := content;
                span := {| start_char := 0; end_char := len content |};
                content_hash := content_hash;
                source_path := Some source_path;
                no_cut := no_cut;
                bbox := bbox;
                page_size := Some page_size;
                block_ids := Some block_ids;
                image_block_ids := Some image_ids;
                image_bboxes :=
                  match image_bboxes with [] => None | _ => Some image_bboxes end |}
  end.

(** [_page_to_chunks_llm]: the models the classifier was called with, and
    the chunks. *)
Definition _page_to_chunks_llm (client : Classifier) (model : string)
    (doc_id kind source_path : string) (page_num_1based : Z)
    (page_dict : list Block) (page_size : list Q)
    (reading_id : option string) (min_chunk_chars : Z)
    : list string * list Chunk :=
  let text_blocks := text_blocks_of page_dict in
  let image_blocks := image_blocks_of page_dict in
  match text_blocks, image_blocks with
  | [], [] => ([], [])
  | _, _ =>
      let prompt :=
        {| pr_reading_id := reading_id; pr_page := page_num_1based;
           pr_page_size := page_size; pr_text_blocks := text_blocks;
           pr_image_blocks := image_blocks |} in
      match client model prompt with
      | None => ([model], [])
      | Some parsed =>
          ([model],
           flat_map
             (fun spec =>
                option_list
                  (chunk_of_spec doc_id kind source_path page_num_1based page_size
                     reading_id min_chunk_chars text_blocks image_blocks spec))
             (chunks parsed))
      end
  end.

(** *** The heuristic strategy *)

Definition NL : string := String "010" EmptyString.
(** U+3002, the ideographic full stop, in UTF-8. *)
Definition IDEOGRAPHIC_STOP : string :=
  String "227" (String "128" (String "130" EmptyString)).

(** [max(window.rfind("\n"), window.rfind(". "), window.rfind("。"),
    window.rfind("; "))] *)
Definition window_cut (window : string) : Z :=
  Z.max (Z.max (Z.max (rfind window NL) (rfind window ". "))
               (rfind window IDEOGRAPHIC_STOP))
        (rfind window "; ").

(** The first four statements of the loop body: where the window that
    starts at [start] is closed. *)
Definition window_end (text : string) (target_chunk_chars start : Z) : Z :=
  let end_ := Z.min (len text) (start + target_chunk_chars) in
  let window := slice text start end_ in
  let cut := window_cut window in
  if 500 <? cut then start + cut else end_.

Definition marker_patterns : list (string * string) :=
  [ ("\bLOS\s+\d+(?:\.[a-z])?\b", "LOS");
    ("\bLearning Outcome Statement(?:s)?\b", "LOS");
    ("\bExample\s+\d+\b", "Example");
    ("\bExhibit\s+\d+\b", "Exhibit");
    ("\bSummary\b", "Summary");
    ("\bKey Concepts\b", "Key Concepts") ].

Definition triggers : list string :=
  [ "exhibit"; "table "; "figure ";
    "question"; "solution"; "example";
    "step 1"; "step 2"; "therefore"; "derive" ].

Section WithRegex.

Variable re_search : Regex.

Fixpoint find_marker (patterns : list (string * string)) (content : string)
    : option string :=
  match patterns with
  | [] => None
  | (pattern, label) :: rest =>
      match re_search pattern content with
      | Some m =>
          if existsb (String.eqb label) ["Example"; "Exhibit"; "LOS"]
          then Some (group m 0) else Some label
      | None => find_marker rest content
      end
  end.

(** The rest of the loop body: the chunk cut out of [text[start:end_]],
    if it is long enough. *)
Definition chunk_at (doc_id kind source_path : string) (page_num : Z)
    (reading_id : option string) (min_chunk_chars : Z)
    (text : string) (start end_ : Z) : list Chunk :=
  let content := strip (slice text start end_) in
  if len content <? min_chunk_chars then []
  else if negb (truthy content) then []
  else
    let section_marker := find_marker marker_patterns content in
    let lower_content := lower content in
    let is_no_cut :=
      existsb (fun t => contains t lower_content) triggers
      || (endswith content ":" && (len content <? 200)) in
    let content_hash := _sha1 content in
    let chunk_id := _stable_chunk_id doc_id page_num start end_ content_hash in
    let rid := default "" reading_id in
    let section_path :=
      (if truthy rid then [rid] else [])
        ++ (if truthy (default "" section_marker)
            then [default "" section_marker] else []) in
    [ {| chunk_id := chunk_id;
         doc_id := doc_id;
         kind := kind;
         page := page_num;
         reading_id := reading_id;
         section_path := section_path;
         content_type := Text;
         content := content;
         span := {| start_char := start; end_char := end_ |};
         content_hash := content_hash;
         source_path := Some source_path;
         no_cut := is_no_cut;
         bbox := None;
         page_size := None;
         block_ids := None;
         image_block_ids := None;
         image_bboxes := None |} ].

(** [while start < len(text)]: one unit of fuel per iteration, [None]
    when the fuel runs out before the loop exits. *)
Fixpoint chunk_loop (fuel : nat) (doc_id kind source_path : string)
    (page_num : Z) (reading_id : option string)
    (target_chunk_chars min_chunk_chars : Z) (text : string) (start : Z)
    : option (list Chunk) :=
  if start <? len text then
    match fuel with
    | O => None
    | S fuel' =>
        let end_ := window_end text target_chunk_chars start in
        let here :=
          chunk_at doc_id kind source_path page_num reading_id
            min_chunk_chars text start end_ in
        app here <$>
          chunk_loop fuel' doc_id kind source_path page_num reading_id
            target_chunk_chars min_chunk_chars text end_
    end
  else Some [].

Definition _page_to_chunks (fuel : nat) (doc_id kind source_path : string)
    (page_num_1based : Z) (page_text : string) (reading_id : option string)
    (target_chunk_chars min_chunk_chars : Z) : option (list Chunk) :=
  let text := strip page_text in
  if negb (truthy text) then Some []
  else chunk_loop fuel doc_id kind source_path page_num_1based reading_id
         target_chunk_chars min_chunk_chars text 0.

(** *** [build_chunks_for_doc] *)

Record PdfPage := {
  pg_text : string;
  pg_dict : list Block;
  pg_size : list Q;
  pg_drawings : Z;
  pg_images : Z
}.

Record Payload := {
  page_num : Z;
  pl_text : string;
  pl_reading_id : option string;
  page_dict : list Block;
  pl_page_size : list Q;
  needs_vision : bool;
  complex_page : bool
}.

Record Config := {
  target_chunk_chars : Z;
  min_chunk_chars : Z;
  use_llm : bool;
  llm_model : string;
  llm_model_complex : option string;
  llm_mode : string
}.

Definition default_config : Config :=
  {| target_chunk_chars := 1800; min_chunk_chars := 50; use_llm := true;
     llm_model := "gemini-2.5-flash-lite";
     llm_model_complex := Some "gemini-3-flash-preview";
     llm_mode := "all" |}.

Definition payload_of (reading_map : gmap string (list ReadingInterval))
    (doc_id : string) (i : nat) (pg : PdfPage) : Payload :=
  let page_num := Z.of_nat i + 1 in
  let text := pg_text pg in
  let needs_vision :=
    (10 <? pg_drawings pg) || (0 <? pg_images pg)
    || ((0 <? len text) && (len text <? 200)) in
  let complex_page :=
    needs_vision
    || bool_decide
         (is_Some
            (re_search
               "\b(Exhibit|Table|Figure|Equation|Formula|Derivation|Step\\s+1)\\b"
               text)) in
  {| page_num := page_num; pl_text := text;
     pl_reading_id := _find_reading_id reading_map doc_id page_num;
     page_dict := pg_dict pg; pl_page_size := pg_size pg;
     needs_vision := needs_vision; complex_page := complex_page |}.

(** What a page's processing does besides returning chunks. *)
Inductive Event : Type :=
| Classify (model : string)
| WarnFallback (model_from model_to : string).

Definition _process_page (fuel : nat) (client : Classifier) (cfg : Config)
    (doc_id kind pdf_path : string) (payload : Payload)
    : list Event * option (list Chunk) :=
  let has_blocks := match page_dict payload with [] => false | _ => true end in
  let llm page_model :=
    _page_to_chunks_llm client page_model doc_id kind pdf_path
      (page_num payload) (page_dict payload) (pl_page_size payload)
      (pl_reading_id payload) (min_chunk_chars cfg) in
  let use_llm_page :=
    use_llm cfg
    && (String.eqb (llm_mode cfg) "all"
        || (String.eqb (llm_mode cfg) "vision-only" && needs_vision payload)) in
  let '(events, page_chunks) :=
    if use_llm_page then
      let complex := default "" (llm_model_complex cfg) in
      let model_for_page :=
        if truthy complex && complex_page payload then complex
        else llm_model cfg in
      let '(calls1, chunks1) := llm model_for_page in
      match chunks1 with
      | [] =>
          if has_blocks && negb (String.eqb model_for_page (llm_model cfg))
          then
            let '(calls2, chunks2) := llm (llm_model cfg) in
            (List.map Classify calls1
               ++ WarnFallback model_for_page (llm_model cfg)
               :: List.map Classify calls2,
             chunks2)
          else (List.map Classify calls1, chunks1)
      | _ => (List.map Classify calls1, chunks1)
      end
    else ([], [])
  in
  match page_chunks with
  | [] =>
      (events,
       _page_to_chunks fuel doc_id kind pdf_path (page_num payload)
         (pl_text payload) (pl_reading_id payload)
         (target_chunk_chars cfg) (min_chunk_chars cfg))
  | _ => (events, Some page_chunks)
  end.

(** The chunk stream written for the document, pages in order; the
    worker-pool branch collects the same per-page lists and writes them
    sorted by page number. *)
Fixpoint write_pages (fuel : nat) (client : Classifier) (cfg : Config)
    (doc_id kind pdf_path : string) (payloads : list Payload)
    : option (list Chunk) :=
  match payloads with
  | [] => Some []
  | payload :: rest =>
      match snd (_process_page fuel client cfg doc_id kind pdf_path payload),
            write_pages fuel client cfg doc_id kind pdf_path rest with
      | Some page_chunks, Some more => Some (page_chunks ++ more)
      | _, _ => None
      end
  end.

Definition build_chunks_for_doc (fuel : nat) (client : Classifier)
    (cfg : Config) (pdf_path : string) (pages : list PdfPage)
    (doc_id kind : string)
    (reading_map : gmap string (list ReadingInterval))
    : option (list Chunk) :=
  write_pages fuel client cfg doc_id kind pdf_path
    (imap (payload_of reading_map doc_id) pages).

End WithRegex.

End Chunker.

(** ** The reading boundary mapper: [cfa_factory/tools/reading_map_builder.py] *)

Module ReadingMapBuilder.
Import Py Models.

Record ReadingStartSchema := {
  is_reading_start : bool;
  rs_reading_id : option string;
  rs_reading_title : option string
}.

Record TocMapEntry := {
  toc_reading_id : option string;
  toc_reading_title : string;
  toc_page_start : option Z
}.

Record TocMapSchema := { entries : list TocMapEntry }.

(** A manifest line ([manifest.Document]). *)
Record Document := { doc_id : string; doc_kind : string; path : string; title : string }.

(** An element of [reading_starts] before [page_end] is set. *)
Record ReadingStart := {
  reading_id : string;
  reading_title : string;
  start_page : Z
}.

Section WithCollaborators.

Variable re_search : Regex.
(** [_extract_toc_map_from_pages]: [None] is any exception, an empty
    response included. *)
Variable extract_toc : string -> list (Z * string) -> option TocMapSchema.
(** [_confirm_reading_start], same convention. *)
Variable confirm_reading_start : string -> string -> option ReadingStartSchema.

Definition matches (pattern s : string) : bool :=
  bool_decide (is_Some (re_search pattern s)).

Definition _is_candidate_page (text : string) : bool :=
  let head := slice text 0 2000 in
  if matches "\bContents\b" head then false
  else if matches "\bLearning\s+Module\s+Overview\b" head then true
  else if matches "\bLearning\s+Outcomes\b" head then true
  else if negb (matches "\b(Reading|Learning\s+Module)\s+\d+\b" head) then false
  else if negb (matches "\b(Introduction|LOS|Learning\s+Outcomes)\b" head) then false
  else true.

(** [str(int(match.group(1)))] *)
Definition renumber (m : list string) : result string :=
  match int (group m 1) with
  | Some n => Ok (str n)
  | None => Raise (ValueError "invalid literal for int()")
  end.

Definition _normalize_reading_id (value : option string) (fallback_idx : Z)
    : result string :=
  let v := default "" value in
  if truthy v then
    let raw := strip v in
    match re_search "\bR\s*(\d+)\b" raw with
    | Some m => renumber m
    | None =>
        match re_search "\bLearning\s+Module\s*(\d+)\b" raw with
        | Some m => renumber m
        | None =>
            match re_search "\bReading\s*(\d+)\b" raw with
            | Some m => renumber m
            | None =>
                if isdigit raw then renumber [raw; raw]
                else Ok (str fallback_idx)
            end
        end
    end
  else Ok (str fallback_idx).

(** The loop of [_normalize_toc_entries]; the accumulator still holds the
    entries whose page was out of range, with [None] for the page. *)
Fixpoint toc_loop (n_pages : Z) (entries : list TocMapEntry)
    (reading_starts : list (string * string * option Z))
    : result (list (string * string * option Z)) :=
  match entries with
  | [] => Ok reading_starts
  | entry :: rest =>
      let title := strip (toc_reading_title entry) in
      if negb (truthy title) then toc_loop n_pages rest reading_starts
      else
        let page_start :=
          match toc_page_start entry with
          | Some p => if (p <? 1) || (n_pages <? p) then None else Some p
          | None => None
          end in
        bind (_normalize_reading_id (toc_reading_id entry)
                (Z.of_nat (List.length reading_starts) + 1))
          (fun rid =>
             toc_loop n_pages rest (reading_starts ++ [(rid, title, page_start)]))
  end.

Definition keep_paged (r : string * string * option Z) : list ReadingStart :=
  match r with
  | (rid, title, Some p) =>
      if p =? 0 then []
      else [ {| reading_id := rid; reading_title := title; start_page := p |} ]
  | (_, _, None) => []
  end.

Definition _normalize_toc_entries (entries : list TocMapEntry) (n_pages : Z)
    : result (list ReadingStart) :=
  bind (toc_loop n_pages entries [])
    (fun reading_starts => Ok (flat_map keep_paged reading_starts)).

(** The page scan; [i] is the 0-based index of the first page of [pages]. *)
Fixpoint scan_loop (use_llm : bool) (llm_model : string) (i : Z)
    (pages : list string) (reading_starts : list ReadingStart)
    : result (list ReadingStart) :=
  match pages with
  | [] => Ok reading_starts
  | text :: rest =>
      let next_page := scan_loop use_llm llm_model (i + 1) rest in
      if negb (truthy text) then next_page reading_starts
      else if negb (_is_candidate_page text) then next_page reading_starts
      else
        let page_num := i + 1 in
        let fallback := Z.of_nat (List.length reading_starts) + 1 in
        if use_llm then
          match confirm_reading_start llm_model text with
          | None => next_page reading_starts
          | Some parsed =>
              if negb (is_reading_start parsed) then next_page reading_starts
              else
                bind (_normalize_reading_id (rs_reading_id parsed) fallback)
                  (fun rid =>
                     next_page
                       (reading_starts ++
                          [ {| reading_id := rid;
                               reading_title :=
                                 strip (default "" (rs_reading_title parsed));
                               start_page := page_num |} ]))
          end
        else
          next_page
            (reading_starts ++
               [ {| reading_id := str fallback; reading_title := "";
                    start_page := page_num |} ])
  end.

(** De-duplication through a dictionary keyed by
    [f"{reading_id}|{page_start}"]: the first entry of each key stays, in
    insertion order. *)
Definition dedup_key (r : ReadingStart) : string :=
  reading_id r +:+ "|" +:+ str (start_page r).

Definition dedup (reading_starts : list ReadingStart)
    : list (string * ReadingStart) :=
  fold_left
    (fun d r =>
       if existsb (String.eqb (dedup_key r)) (List.map fst d) then d
       else d ++ [(dedup_key r, r)])
    reading_starts [].

(** [sorted(..., key=lambda x: x["page_start"])], which is stable. *)
Fixpoint insert_by_start (r : ReadingStart) (l : list ReadingStart)
    : list ReadingStart :=
  match l with
  | [] => [r]
  | r' :: l' =>
      if start_page r' <? start_page r then r' :: insert_by_start r l'
      else r :: l
  end.

Definition sorted_by_start (l : list ReadingStart) : list ReadingStart :=
  fold_right insert_by_start [] l.

(** The loop that drops a start page not above the last one kept. *)
Fixpoint clean (last_start : Z) (reading_starts : list ReadingStart)
    : list ReadingStart :=
  match reading_starts with
  | [] => []
  | r :: rest =>
      let start := start_page r in
      if start <=? last_start then clean last_start rest
      else r :: clean start rest
  end.

(** The loop that sets [page_end]. *)
Fixpoint close_intervals (n_pages : Z) (reading_starts : list ReadingStart)
    : list ReadingInterval :=
  match reading_starts with
  | [] => []
  | r :: rest =>
      {| ri_reading_id := reading_id r;
         ri_reading_title := reading_title r;
         page_start := start_page r;
         page_end :=
           match rest with
           | next :: _ => start_page next - 1
           | [] => n_pages
           end |}
      :: close_intervals n_pages rest
  end.

(** Lines 253 to 281: from the collected starts to the interval list. *)
Definition intervals_of (doc_id : string) (n_pages : Z)
    (reading_starts : list ReadingStart) : result (list ReadingInterval) :=
  let reading_starts := sorted_by_start (List.map snd (dedup reading_starts)) in
  let reading_starts := clean 0 reading_starts in
  match reading_starts with
  | [] => Raise (ValueError ("No reading starts detected for " +:+ doc_id))
  | _ => Ok (close_intervals n_pages reading_starts)
  end.

(** Lines 283 to 291: [data[doc_id] = reading_starts] on the map read
    from [out_path], or on the empty map when the file is absent. *)
Definition merge_into (persisted : option (gmap string (list ReadingInterval)))
    (doc_id : string) (intervals : list ReadingInterval)
    : gmap string (list ReadingInterval) :=
  <[doc_id := intervals]> (default ∅ persisted).

(** [[{"page_num": i + 1, "text": text[:4000]} ...]] over the first pages
    that have text; [i] as in [scan_loop]. *)
Fixpoint toc_payload (i : Z) (pages : list string) : list (Z * string) :=
  match pages with
  | [] => []
  | text :: rest =>
      (if truthy text then [(i + 1, slice text 0 4000)] else [])
        ++ toc_payload (i + 1) rest
  end.

Definition py_min (a b : Z) : Z := Z.min a b.

(** [build_reading_map_for_doc]. [pdf] gives the page texts of the file
    at a manifest path, [None] when there is no such file; [persisted]
    is what [out_path] holds.  The result is the map that is written
    back to [out_path] and returned. *)
Definition build_reading_map_for_doc (manifest : list Document)
    (pdf : string -> option (list string))
    (persisted : option (gmap string (list ReadingInterval)))
    (doc_id : string) (use_llm : bool) (llm_model : string)
    (max_pages : option Z) (toc_pages : Z)
    : result (gmap string (list ReadingInterval)) :=
  match List.find (fun d => String.eqb (ReadingMapBuilder.doc_id d) doc_id) manifest with
  | None => Raise (ValueError ("doc_id=" +:+ doc_id +:+ " not in manifest"))
  | Some doc_entry =>
      match pdf (path doc_entry) with
      | None => Raise (FileNotFoundError ("PDF not found: " +:+ path doc_entry))
      | Some pages =>
          let n_pages := Z.of_nat (List.length pages) in
          let scan_pages :=
            match max_pages with
            | Some m => if m =? 0 then n_pages else py_min n_pages m
            | None => n_pages
            end in
          let from_toc :=
            if use_llm then
              let payload :=
                toc_payload 0 (firstn (Z.to_nat (py_min toc_pages scan_pages)) pages) in
              match extract_toc llm_model payload with
              | Some toc_parsed =>
                  match entries toc_parsed with
                  | [] => []
                  | es =>
                      match _normalize_toc_entries es n_pages with
                      | Ok rs => rs
                      | Raise _ => []
                      end
                  end
              | None => []
              end
            else [] in
          bind
            (match from_toc with
             | [] =>
                 scan_loop use_llm llm_model 0
                   (firstn (Z.to_nat scan_pages) pages) []
             | _ => Ok from_toc
             end)
            (fun reading_starts =>
               bind (intervals_of doc_id n_pages reading_starts)
                 (fun intervals => Ok (merge_into persisted doc_id intervals)))
      end
  end.

End WithCollaborators.

End ReadingMapBuilder.

(** ** The index builder: [cfa_factory/tools/index_store.py] *)

Module IndexStore.
Import Py.

(** A parsed line of a chunk stream, with the keys the builder reads. *)
Record Row := {
  chunk_id : string;
  content : string;
  doc_id : string;
  kind : string;
  page : Z;
  reading_id : option string;
  no_cut : option bool
}.

Record Meta := {
  m_doc_id : string;
  m_kind : string;
  m_page : Z;
  m_reading_id : string;
  m_no_cut : string
}.

(** A call on the index engine. *)
Inductive EngineCall : Type :=
| DeleteCollection (name : string)
| CreateCollection (name : string)
| Add (ids docs : list string) (metadatas : list Meta) (embeddings : list (list Q)).

Definition is_add (c : EngineCall) : bool :=
  match c with Add _ _ _ _ => true | _ => false end.

(** [l[i:j]] for [0 <= i <= j] *)
Definition lslice {A} (l : list A) (i j : Z) : list A :=
  firstn (Z.to_nat (j - i)) (skipn (Z.to_nat i) l).

(** [range(0, n, step)] *)
Definition range_step (n step : Z) : list Z :=
  List.map (fun q => step * Z.of_nat q) (seq 0 (Z.to_nat ((n + step - 1) / step))).

Definition BATCH_SIZE : Z := 50.
Definition CHROMA_BATCH_SIZE : Z := 5000.
Definition DIM : Z := 768.

Section WithServices.

(** [client.models.embed_content(model=..., contents=batch, ...)]: the
    [values] of each returned embedding.  The offset of the batch
    identifies the call. *)
Variable embed_content : Z -> string -> list string -> result (list (list Q)).
(** Whether the engine accepts an insert. *)
Variable col_add : EngineCall -> result unit.

(** The inner loop over [resp.embeddings]. *)
Fixpoint check_dims (vectors : list (list Q)) (embeddings : list (list Q))
    : result (list (list Q)) :=
  match vectors with
  | [] => Ok embeddings
  | vals :: rest =>
      if negb (Z.of_nat (List.length vals) =? DIM)
      then Raise (ValueError ("Wrong dim: " +:+ str (Z.of_nat (List.length vals))))
      else check_dims rest (embeddings ++ [vals])
  end.

Fixpoint embed_batches (model : string) (texts : list string)
    (offsets : list Z) (embeddings : list (list Q)) : result (list (list Q)) :=
  match offsets with
  | [] => Ok embeddings
  | i :: rest =>
      let batch := lslice texts i (i + BATCH_SIZE) in
      bind (bind (embed_content i model batch)
              (fun vectors => check_dims vectors embeddings))
        (embed_batches model texts rest)
  end.

Definition compute_embeddings_in_batches (model : string) (texts : list string)
    : result (list (list Q)) :=
  embed_batches model texts
    (range_step (Z.of_nat (List.length texts)) BATCH_SIZE) [].

Definition py_str_bool (b : bool) : string := if b then "True" else "False".

Definition meta_of (r : Row) : Meta :=
  {| m_doc_id := doc_id r; m_kind := kind r; m_page := page r;
     m_reading_id := default "" (reading_id r);
     m_no_cut := py_str_bool (default false (no_cut r)) |}.

(** The loops over the files and their rows: ids, documents and metadata
    of the chunks seen for the first time. *)
Fixpoint collect (rows : list Row) (seen : gset string)
    (acc : list string * list string * list Meta)
    : gset string * (list string * list string * list Meta) :=
  match rows with
  | [] => (seen, acc)
  | r :: rest =>
      let cid := chunk_id r in
      if decide (cid ∈ seen) then collect rest seen acc
      else
        let '(ids, docs, metas) := acc in
        collect rest ({[cid]} ∪ seen)
          (ids ++ [cid], docs ++ [content r], metas ++ [meta_of r])
  end.

(** The insert loop: the calls issued, and an engine error if one
    occurred (no call follows it). *)
Fixpoint add_batches (ids docs : list string) (metas : list Meta)
    (embeddings : list (list Q)) (total : Z) (offsets : list Z)
    : list EngineCall * result unit :=
  match offsets with
  | [] => ([], Ok tt)
  | i :: rest =>
      let end_ := Z.min (i + CHROMA_BATCH_SIZE) total in
      let call :=
        Add (lslice ids i end_) (lslice docs i end_) (lslice metas i end_)
            (lslice embeddings i end_) in
      match col_add call with
      | Ok _ =>
          let '(calls, r) := add_batches ids docs metas embeddings total rest in
          (call :: calls, r)
      | Raise e => ([call], Raise e)
      end
  end.

(** [build_chroma_index]: the calls issued on the index engine, in
    order, and how the build ended. *)
Definition build_chroma_index (jsonl_files : list (list Row))
    : list EngineCall * result unit :=
  let start := [DeleteCollection "cfa_chunks"; CreateCollection "cfa_chunks"] in
  let '(to_add_ids, to_add_docs, to_add_meta) :=
    snd (collect (List.concat jsonl_files) ∅ ([], [], [])) in
  match to_add_ids with
  | [] => (start, Ok tt)
  | _ =>
      match compute_embeddings_in_batches "text-embedding-004" to_add_docs with
      | Raise e => (start, Raise e)
      | Ok embeddings =>
          let total := Z.of_nat (List.length to_add_ids) in
          let '(calls, r) :=
            add_batches to_add_ids to_add_docs to_add_meta embeddings total
              (range_step total CHROMA_BATCH_SIZE) in
          (start ++ calls, r)
      end
  end.

End WithServices.

End IndexStore.

(** ** Retrieval and the evidence packet: [cfa_factory/tools/retrieval.py] *)

Module Retrieval.
Import Py Models.

Definition BACKSLASH : ascii := "092".

Fixpoint leading_ds (s : string) : string :=
  match s with
  | String "d" s' => String "d" (leading_ds s')
  | _ => EmptyString
  end.

(** [re.search(r"(\\d+)", raw)], giving [group(1)].  The literal is a raw
    string, so the regex engine receives both backslashes: the pattern is
    one backslash character followed by one or more letters [d]. *)
Fixpoint search_backslash_ds (raw : string) : option string :=
  match raw with
  | EmptyString => None
  | String c rest =>
      if Ascii.eqb c BACKSLASH then
        match leading_ds rest with
        | EmptyString => search_backslash_ds rest
        | ds => Some (String BACKSLASH ds)
        end
      else search_backslash_ds rest
  end.

Definition _reading_id_aliases (reading_id : string) : result (list string) :=
  let raw := strip reading_id in
  let ids : gset string := {[raw]} in
  match search_backslash_ds raw with
  | Some g =>
      match int g with
      | None => Raise (ValueError "invalid literal for int() with base 10")
      | Some n =>
          Ok (elements
                (ids ∪ {[str n]} ∪ {["R" +:+ str n]} ∪ {["Reading " +:+ str n]}
                     ∪ {["Learning Module " +:+ str n]}))
      end
  | None => Ok (elements ids)
  end.

(** [chunks_file] is the chunk stream, one [Chunk] per line. *)
Definition load_chunks_for_reading (chunks_file : list Chunk) (reading_id : string)
    : result (list Chunk) :=
  bind (_reading_id_aliases reading_id)
    (fun ids =>
       let aliases : gset string := list_to_set (lower <$> ids) in
       Ok (List.filter
             (fun r =>
                let rid := lower (strip (default "" (Models.reading_id r))) in
                truthy rid && bool_decide (rid ∈ aliases))
             chunks_file)).

(** What [col.query] returns for the single query vector. *)
Record QueryResult := {
  ids : list string;
  distances : list Q;
  metadatas : list IndexStore.Meta;
  documents : list string
}.

(** U+2026 in UTF-8. *)
Definition ELLIPSIS : string :=
  String "226" (String "128" (String "166" EmptyString)).

Definition hit_of (cid : string) (dist : Q) (meta : IndexStore.Meta) (doc : string)
    : RetrievalHit :=
  {| hit_chunk_id := cid;
     hit_doc_id := IndexStore.m_doc_id meta;
     hit_page := IndexStore.m_page meta;
     hit_score := (1 - dist)%Q;
     hit_snippet := if 240 <? len doc then slice doc 0 240 +:+ ELLIPSIS else doc |}.

(** [zip(ids, dists, metas, docs)] mapped to hits. *)
Fixpoint hits_of (ids : list string) (dists : list Q)
    (metas : list IndexStore.Meta) (docs : list string) : list RetrievalHit :=
  match ids, dists, metas, docs with
  | cid :: ids', dist :: dists', meta :: metas', doc :: docs' =>
      hit_of cid dist meta doc :: hits_of ids' dists' metas' docs'
  | _, _, _, _ => []
  end.

Record PacketMeta := {
  built_at : string;
  queries : list string;
  cross_ref_enabled : bool;
  notes : string
}.

Record EvidencePacket := {
  doc_id : string;
  reading_id : string;
  run_id : string;
  reading_fulltext : list Chunk;
  top_k : list TopKQuery;
  conflicts : list unit;
  meta : PacketMeta
}.

Section WithEngine.

(** The similarity index engine and the embedding service. *)
Variable Collection : Type.
(** [client.get_collection(name=..., ...)] on the store at a directory. *)
Variable get_collection : string -> string -> result Collection.
(** [client.list_collections()], as names. *)
Variable list_collections : string -> result (list string).
(** [col.query(query_embeddings=[q_vec], n_results=k, where=where)];
    [where] is the document id filter, if any. *)
Variable col_query : Collection -> list Q -> Z -> option string -> result QueryResult.
(** [client.models.embed_content] on one query string. *)
Variable embed_content : string -> result (list Q).
(** [Path.exists] *)
Variable path_exists : string -> bool.

Definition _collection_exists (chroma_dir name : string) : bool :=
  match list_collections chroma_dir with
  | Ok cols => existsb (String.eqb name) cols
  | Raise _ => false
  end.

Definition compute_query_embedding (query : string) : result (list Q) :=
  bind (embed_content query)
    (fun val =>
       if negb (Z.of_nat (List.length val) =? 768)
       then Raise (ValueError ("Query embedding dim "
                               +:+ str (Z.of_nat (List.length val)) +:+ " != 768"))
       else Ok val).

Definition chroma_query (chroma_dir query : string) (k : Z)
    (where_ : option string) : result (list RetrievalHit) :=
  bind (get_collection chroma_dir "cfa_chunks")
    (fun col =>
       bind (compute_query_embedding query)
         (fun q_vec =>
            bind (col_query col q_vec k where_)
              (fun res =>
                 Ok (hits_of (ids res) (distances res) (metadatas res)
                       (documents res))))).

(** Is the optional unified directory given and present? *)
Definition unified_present (unified_chroma_dir : option string) : bool :=
  match unified_chroma_dir with
  | Some d => truthy d && path_exists d
  | None => false
  end.

(** The body of the loop over [default_queries]: the [try] and its
    handler. *)
Definition query_with_fallback (doc_id chroma_dir : string)
    (unified_chroma_dir : option string) (q : string)
    : result (list RetrievalHit) :=
  match chroma_query chroma_dir q 12 None with
  | Ok hits => Ok hits
  | Raise e =>
      let msg := exn_msg e in
      if (contains "does not exist" msg || contains "NotFound" msg)
         && unified_present unified_chroma_dir
      then chroma_query (default "" unified_chroma_dir) q 12 (Some doc_id)
      else Raise e
  end.

Fixpoint same_book_queries (doc_id chroma_dir : string)
    (unified_chroma_dir : option string) (qs : list string) (top_k : list TopKQuery)
    : result (list TopKQuery) :=
  match qs with
  | [] => Ok top_k
  | q :: rest =>
      bind (query_with_fallback doc_id chroma_dir unified_chroma_dir q)
        (fun hits =>
           same_book_queries doc_id chroma_dir unified_chroma_dir rest
             (top_k ++ [ {| query := q; k := 12; hits := hits |} ]))
  end.

Definition cross_book_queries (reading_id : string) (cross_ref : bool)
    (unified_chroma_dir : option string) : list TopKQuery :=
  if cross_ref && unified_present unified_chroma_dir then
    let unified := default "" unified_chroma_dir in
    if negb (_collection_exists unified "cfa_chunks") then []
    else
      List.map
        (fun q =>
           {| query := q; k := 8;
              hits :=
                match chroma_query unified q 8 None with
                | Ok hits => hits
                | Raise _ => []
                end |})
        [ reading_id +:+ " related concepts from other CFA volumes";
          reading_id +:+ " Schweser explanation simplified version";
          reading_id +:+ " prerequisite knowledge foundation from V1 Quant";
          reading_id +:+ " practical application real world examples" ]
  else [].

(** [build_evidence_packet]; [chunks_file] is [None] when the file does
    not exist; [now] stands for the two clock readings. *)
Definition build_evidence_packet (now : string) (doc_id reading_id : string)
    (chunks_file : option (list Chunk)) (chroma_dir : string)
    (cross_ref : bool) (unified_chroma_dir : option string)
    : result EvidencePacket :=
  match chunks_file with
  | None => Raise (FileNotFoundError "Missing chunks file")
  | Some lines =>
      bind (load_chunks_for_reading lines reading_id)
        (fun reading_fulltext =>
           match reading_fulltext with
           | [] => Raise (ValueError ("No chunks found for reading_id=" +:+ reading_id))
           | _ =>
               let default_queries :=
                 [ doc_id +:+ " " +:+ reading_id +:+ " key concepts";
                   reading_id +:+ " exam traps common mistakes";
                   reading_id +:+ " formula intuition example" ] in
               bind (same_book_queries doc_id chroma_dir unified_chroma_dir
                       default_queries [])
                 (fun top_k =>
                    let cross_ref_queries :=
                      cross_book_queries reading_id cross_ref unified_chroma_dir in
                    Ok {| doc_id := doc_id;
                          reading_id := reading_id;
                          run_id := now;
                          reading_fulltext := reading_fulltext;
                          top_k := top_k ++ cross_ref_queries;
                          conflicts := [];
                          meta :=
                            {| built_at := now;
                               queries :=
                                 default_queries ++ List.map query cross_ref_queries;
                               cross_ref_enabled := cross_ref;
                               notes := "Evidence packet with optional cross-book RAG from unified index." |} |})
           end)
  end.

End WithEngine.

End Retrieval.

(** ** Field constraints of the data model: [cfa_factory/schemas/models.py]

    The constructors [Chunk(...)] and [Span(...)] raise when a constraint
    fails.  The chunkers above build the records without the check: what
    they return is what the code returns whenever the code returns, and
    [Chunk_valid] states the check itself. *)

Module Schema.
Import Models.

(** [Span]: [start_char] and [end_char] are [Field(..., ge=0)]. *)
Definition Span_valid (s : Span) : bool :=
  (0 <=? start_char s) && (0 <=? end_char s).

(** [Chunk]: [kind] is [Literal["official", "schweser"]], [page] is
    [Field(..., ge=1)], [span] is a valid [Span]; the content type is one of
    the four literals by its type. *)
Definition Chunk_valid (c : Chunk) : bool :=
  (String.eqb (kind c) "official" || String.eqb (kind c) "schweser")
  && (1 <=? page c) && Span_valid (span c).

End Schema.

(** ** The command line: [cfa_factory/cli/main.py] *)

Module Cli.
Import Py Models.

Fixpoint leading_digits (s : string) : string :=
  match s with
  | EmptyString => EmptyString
  | String c s' => if is_digit c then String c (leading_digits s') else EmptyString
  end.

(** [re.search(r"(\d+)", raw)], giving [group(1)]: the leftmost digit and
    the digits that follow it. *)
Fixpoint search_digits (raw : string) : option string :=
  match raw with
  | EmptyString => None
  | String c rest =>
      if is_digit c then Some (String c (leading_digits rest))
      else search_digits rest
  end.

Definition _normalize_reading_id (value : string) : result string :=
  let raw := strip value in
  match search_digits raw with
  | Some g =>
      match int g with
      | Some n => Ok (str n)
      | None => Raise (ValueError "invalid literal for int() with base 10")
      end
  | None => Ok raw
  end.

Section WithEngine.

Variable Collection : Type.
Variable get_collection : string -> string -> result Collection.
Variable list_collections : string -> result (list string).
Variable col_query : Collection -> list Q -> Z -> option string
                     -> result Retrieval.QueryResult.
Variable embed_content : string -> result (list Q).
Variable path_exists : string -> bool.
(** The chunk stream at a path, [None] when there is no such file. *)
Variable read_chunks : string -> option (list Chunk).

(** The [packet] command; paths are relative to the repository root. *)
Definition packet (now doc reading : string) (cross_ref : bool)
    : result Retrieval.EvidencePacket :=
  bind (_normalize_reading_id reading)
    (fun reading_norm =>
       let chunks_file := "output/index/chunks/" +:+ doc +:+ ".jsonl" in
       let db_path := "output/index/chroma/" +:+ doc in
       let unified_db := "output/index/chroma/unified" in
       Retrieval.build_evidence_packet Collection get_collection list_collections
         col_query embed_content path_exists now doc reading_norm
         (read_chunks chunks_file) db_path cross_ref
         (if cross_ref then Some unified_db else None)).

End WithEngine.

End Cli.

(** ** Extraction of page assets: [cfa_factory/tools/vision_extract.py] and
       [cfa_factory/schemas/vision_models.py] *)

Module Vision.
Import Py Models.

Inductive Asset : Type :=
| FormulaAsset (display_latex spoken_en meaning_en : string) (page : Z)
| FigureAsset (caption_en blind_description_en : string) (key_points : list string)
    (page : Z)
| TableAsset (title_en : option string) (headers : list string)
    (rows : list (list string)) (notes_en : option string) (page : Z).

(** The [type] field, fixed by the class. *)
Definition asset_type (a : Asset) : string :=
  match a with
  | FormulaAsset _ _ _ _ => "formula"
  | FigureAsset _ _ _ _ => "figure"
  | TableAsset _ _ _ _ _ => "table"
  end.

Record VisionExtractResult := {
  doc_id : string;
  reading_id : string;
  page : Z;
  assets : list Asset
}.

(** What the retry loop does besides returning: the calls of the model, by
    attempt number, and the pauses. *)
Inductive Step : Type :=
| Generate (attempt : Z)
| SleepBackoff (attempt : Z)
| SleepOneSecond.

Definition rate_limited (e : exn) : bool :=
  contains "429" (exn_msg e) || contains "RESOURCE_EXHAUSTED" (exn_msg e).

Definition keep_formulas (parsed : VisionExtractResult) : VisionExtractResult :=
  {| doc_id := doc_id parsed; reading_id := reading_id parsed; page := page parsed;
     assets := List.filter (fun a => String.eqb (asset_type a) "formula")
                 (assets parsed) |}.

(** The body of the [try]: the awaited call, [resp.parsed], and the filter
    on formulas. *)
Definition attempt_once (generate : Z -> result (option VisionExtractResult))
    (formula_only : bool) (attempt : Z) : result VisionExtractResult :=
  match generate attempt with
  | Ok (Some parsed) => Ok (if formula_only then keep_formulas parsed else parsed)
  | Ok None => Raise (ValueError "Empty response from Gemini")
  | Raise e => Raise e
  end.

(** [for attempt in range(retries)], over the attempts that are left. *)
Fixpoint retry_loop (generate : Z -> result (option VisionExtractResult))
    (formula_only : bool) (retries : Z) (page_1based : Z) (attempts : list Z)
    : list Step * result VisionExtractResult :=
  match attempts with
  | [] =>
      ([], Raise (ValueError ("Failed after " +:+ str retries
                              +:+ " retries for page " +:+ str page_1based)))
  | attempt :: rest =>
      match attempt_once generate formula_only attempt with
      | Ok parsed => ([Generate attempt], Ok parsed)
      | Raise e =>
          if rate_limited e then
            let '(steps, r) := retry_loop generate formula_only retries page_1based rest in
            (Generate attempt :: SleepBackoff attempt :: steps, r)
          else if attempt =? retries - 1 then ([Generate attempt], Raise e)
          else
            let '(steps, r) := retry_loop generate formula_only retries page_1based rest in
            (Generate attempt :: SleepOneSecond :: steps, r)
      end
  end.

(** [range(n)] *)
Definition range (n : Z) : list Z := List.map Z.of_nat (seq 0 (Z.to_nat n)).

(** [extract_page_assets_async], as the sequence of its awaited steps;
    [generate] is the model call of each attempt followed by [resp.parsed],
    [None] for an empty one. *)
Definition extract_page_assets_async
    (generate : Z -> result (option VisionExtractResult))
    (page_1based : Z) (retries : Z) (formula_only : bool)
    : list Step * result VisionExtractResult :=
  retry_loop generate formula_only retries page_1based (range retries).

End Vision.

(** ** Asset chunks: [cfa_factory/tools/vision_extract.py] and the
       [vision extract] command of [cfa_factory/cli/main.py] *)

Module VisionChunks.
Import Py Models Vision.

(** A [Chunk] together with the two fields that only the asset extraction
    sets ([None] in every chunk of the chunkers). *)
Record AssetChunk := {
  chunk : Chunk;
  image_ref : option string;
  extracted_struct : option Asset
}.

(** [asset.type] as the content type of the chunk. *)
Definition asset_content_type (a : Asset) : ContentType :=
  match a with
  | FormulaAsset _ _ _ _ => Formula
  | FigureAsset _ _ _ _ => Figure
  | TableAsset _ _ _ _ _ => Table
  end.

(** The searchable text of an asset. *)
Definition asset_content (a : Asset) : string :=
  match a with
  | FormulaAsset display_latex _ meaning_en _ =>
      "Formula: " +:+ meaning_en +:+ " " +:+ display_latex
  | FigureAsset caption_en blind_description_en key_points _ =>
      "Figure: " +:+ caption_en +:+ " " +:+ blind_description_en +:+ " "
      +:+ join " " key_points
  | TableAsset title_en headers rows _ _ =>
      "Table: " +:+ default "" title_en +:+ " " +:+ join " " headers +:+ " "
      +:+ join " | " (List.map (join " ") rows)
  end.

Section WithServices.

(** [json.dumps(asset.model_dump(), sort_keys=True)] *)
Variable asset_json : Asset -> string.
(** [render_page_to_png] of a page of a PDF to a path. *)
Variable render_page_to_png : string -> Z -> string -> result unit.
(** The model call of an attempt on a page image, followed by
    [resp.parsed]. *)
Variable generate : string -> Z -> result (option VisionExtractResult).
(** [doc.load_page(p - 1).get_text("text") or ""], [None] when the page
    cannot be loaded. *)
Variable load_page_text : string -> Z -> option string.
(** [_is_formula_candidate], two regular expressions and a count of
    mathematical symbols. *)
Variable _is_formula_candidate : string -> bool.
(** [assets_out_dir / doc_id / f"page_{p_num}.png"] as a string. *)
Variable png_path : string -> string -> Z -> string.

(** [_asset_to_chunk]; the constructor of [Chunk] checks the fields. *)
Definition _asset_to_chunk (doc_id reading_id source_path : string) (page : Z)
    (asset : Asset) (kind : string) : result Chunk :=
  let content_hash := Sha1.hexdigest (asset_json asset) in
  let chunk_id :=
    Sha1.hexdigest (doc_id +:+ "|p" +:+ str page +:+ "|" +:+ asset_type asset
                    +:+ "|" +:+ content_hash) in
  let ch :=
    {| chunk_id := chunk_id; Models.doc_id := doc_id; kind := kind;
       Models.page := page; Models.reading_id := Some reading_id;
       section_path := [reading_id];
       content_type := asset_content_type asset;
       content := asset_content asset;
       span := {| start_char := 0; end_char := 0 |};
       content_hash := content_hash; source_path := Some source_path;
       no_cut := true; bbox := None; page_size := None; block_ids := None;
       image_block_ids := None; image_bboxes := None |} in
  if Schema.Chunk_valid ch then Ok ch
  else Raise (ValueError "validation error for Chunk").

(** The [try] block of the page task: the extraction with its five
    attempts, then one chunk per asset. *)
Fixpoint chunks_of_assets (doc_id reading_id pdf_path : string) (p_num : Z)
    (png : string) (kind : string) (assets : list Asset)
    : result (list AssetChunk) :=
  match assets with
  | [] => Ok []
  | asset :: rest =>
      bind (_asset_to_chunk doc_id reading_id pdf_path p_num asset kind)
        (fun ch =>
           bind (chunks_of_assets doc_id reading_id pdf_path p_num png kind rest)
             (fun more =>
                Ok ({| chunk := ch; image_ref := Some png;
                       extracted_struct := Some asset |} :: more)))
  end.

(** The page task [_process_page] of [process_vision_for_reading_async]:
    [None] when the rendering raises (nothing catches it), the empty list
    when the extraction or a chunk's construction raises. *)
Definition _process_page (pdf_path doc_id reading_id assets_out_dir kind : string)
    (formula_only : bool) (p_num : Z) : option (list AssetChunk) :=
  let png := png_path assets_out_dir doc_id p_num in
  match render_page_to_png pdf_path p_num png with
  | Raise _ => None
  | Ok _ =>
      Some
        (match
           bind (snd (extract_page_assets_async (generate png) p_num 5 formula_only))
             (fun result_ =>
                chunks_of_assets doc_id reading_id pdf_path p_num png kind
                  (assets result_))
         with
         | Ok page_chunks => page_chunks
         | Raise _ => []
         end)
  end.

(** The pages kept by [filter_mode == "formula-pages"]; [None] when a page
    cannot be loaded. *)
Fixpoint candidate_pages (pdf_path : string) (pages : list Z) : option (list Z) :=
  match pages with
  | [] => Some []
  | p :: rest =>
      match load_page_text pdf_path p, candidate_pages pdf_path rest with
      | Some text, Some more =>
          Some (if _is_formula_candidate text then p :: more else more)
      | _, _ => None
      end
  end.

(** [asyncio.gather] over the page tasks: the results in the order of the
    tasks, or the exception of a task. *)
Fixpoint gather {A B} (task : A -> option B) (l : list A) : option (list B) :=
  match l with
  | [] => Some []
  | a :: rest =>
      match task a, gather task rest with
      | Some b, Some more => Some (b :: more)
      | _, _ => None
      end
  end.

(** [process_vision_for_reading_async]: the chunks appended to the chunk
    stream of the document, [None] when the run raises. *)
Definition process_vision_for_reading_async (pdf_path doc_id reading_id : string)
    (pages_range : list Z) (assets_out_dir kind : string) (formula_only : bool)
    (filter_mode : string) : option (list AssetChunk) :=
  pages ← (if String.eqb filter_mode "formula-pages"
            then candidate_pages pdf_path pages_range
            else Some pages_range);
  results ← gather (_process_page pdf_path doc_id reading_id assets_out_dir kind
                      formula_only) pages;
  Some (List.concat results).

(** [range(a, b)] *)
Definition range2 (a b : Z) : list Z :=
  List.map (fun i => a + Z.of_nat i) (seq 0 (Z.to_nat (b - a))).

(** [ASSETS / doc_entry.path] and [OUT / "vision_assets" / doc / reading]
    as strings. *)
Variable assets_path : string -> string.
Variable vision_assets_dir : string -> string -> string.

(** The [vision extract] command: the chunks appended to the chunk stream
    of the document. *)
Definition vision_extract (manifest : list ReadingMapBuilder.Document)
    (reading_map : gmap string (list ReadingInterval)) (doc reading : string)
    (formula_only : bool) (filter_mode : string)
    : result (option (list AssetChunk)) :=
  match List.find (fun d => String.eqb (ReadingMapBuilder.doc_id d) doc) manifest with
  | None => Raise (ValueError ("doc_id=" +:+ doc +:+ " not in manifest"))
  | Some doc_entry =>
      bind (Cli._normalize_reading_id reading)
        (fun reading_norm =>
           let doc_map := default [] (reading_map !! doc) in
           match List.find (fun r => String.eqb (ri_reading_id r) reading_norm)
                   doc_map with
           | None =>
               Raise (ValueError ("Reading " +:+ reading +:+ " not found for " +:+ doc))
           | Some pages_range =>
               Ok (process_vision_for_reading_async
                     (assets_path (ReadingMapBuilder.path doc_entry)) doc reading_norm
                     (range2 (page_start pages_range) (page_end pages_range + 1))
                     (vision_assets_dir doc reading_norm)
                     (ReadingMapBuilder.doc_kind doc_entry) formula_only filter_mode)
           end)
  end.

End WithServices.

End VisionChunks.

(** ** The DeepSeek agent: [cfa_factory/agents/framework.py] *)

Module Agents.
Import Py.

(** A chat message. *)
Record Message := { role : string; message_content : string }.

(** A value of the session state: a string, or the dictionary that
    [model_dump] gives. *)
Inductive Value (Dump : Type) : Type :=
| Str (s : string)
| Dict (d : Dump).
Arguments Str {Dump} s.
Arguments Dict {Dump} d.

(** [s.replace(old, new)] for a non-empty [old]: the occurrences of [old]
    from left to right, without overlap; [skip] characters of a replaced
    occurrence are still to be passed. *)
Fixpoint replace_from (old new : string) (skip : nat) (s : string) : string :=
  match s with
  | EmptyString => EmptyString
  | String c s' =>
      match skip with
      | S k => replace_from old new k s'
      | O =>
          if String.prefix old s
          then new +:+ replace_from old new (String.length old - 1) s'
          else String c (replace_from old new 0 s')
      end
  end.

Definition replace (s old new : string) : string := replace_from old new 0 s.

(** Truthiness of an [Optional[str]]. *)
Definition given (key : option string) : bool :=
  match key with
  | Some s => truthy s
  | None => false
  end.

(** The fields of [DeepSeekAgent] that the run reads; [output_schema] tells
    whether a schema is given. *)
Record DeepSeekAgent := {
  output_schema : bool;
  output_key : option string;
  raw_output_key : option string;
  max_retries : Z;
  retry_hint : string;
  retry_include_last_output : bool;
  retry_max_chars : Z;
  save_raw_always : bool
}.

(** How a run ends: the event it yields, the exception it raises, or
    [raise None], which is a [TypeError]. *)
Inductive Outcome (Dump : Type) : Type :=
| Yielded (result_ : Value Dump)
| Raised (e : exn)
| RaisedNone.
Arguments Yielded {Dump} result_.
Arguments Raised {Dump} e.
Arguments RaisedNone {Dump}.

Section WithApi.
Variable Dump : Type.
(** [self._client.chat.completions.create(...)], giving
    [response.choices[0].message.content], a string. *)
Variable create : list Message -> result string.
(** [self.output_schema.model_validate_json(content).model_dump()] *)
Variable model_validate_json : string -> result Dump.

(** The messages added to the instruction on an attempt. *)
Definition retry_messages (agent : DeepSeekAgent) (attempt : Z)
    (last_error : option exn) (last_content : option string) : list Message :=
  if 0 <? attempt then
    if retry_include_last_output agent && given last_content then
      [ {| role := "assistant";
           message_content :=
             slice (default "" last_content) 0 (retry_max_chars agent) |};
        {| role := "user";
           message_content :=
             retry_hint agent +:+ Chunker.NL +:+ "Error: "
             +:+ match last_error with
                 | Some e => exn_msg e
                 | None => "None"
                 end
             +:+ Chunker.NL +:+ "Fix the JSON above and output ONLY JSON." |} ]
    else [ {| role := "user"; message_content := retry_hint agent |} ]
  else [].

(** The content without its Markdown fence. *)
Definition sanitize (content : string) : string :=
  strip (replace (replace content "```json" "") "```" "").

(** What follows the loop. *)
Definition after_attempts (agent : DeepSeekAgent) (last_error : option exn)
    (last_content : option string) (state : gmap string (Value Dump))
    : gmap string (Value Dump) * Outcome Dump :=
  (if given (raw_output_key agent) && given last_content
   then <[default "" (raw_output_key agent) := Str (default "" last_content)]> state
   else state,
   match last_error with
   | Some e => Raised e
   | None => RaisedNone
   end).

(** [for attempt in range(self.max_retries + 1)], over the attempts that
    are left; the calls of the API are recorded with their messages. *)
Fixpoint attempts_loop (agent : DeepSeekAgent) (base_messages : list Message)
    (attempts : list Z) (last_error : option exn) (last_content : option string)
    (state : gmap string (Value Dump))
    : list (list Message) * (gmap string (Value Dump) * Outcome Dump) :=
  match attempts with
  | [] => ([], after_attempts agent last_error last_content state)
  | attempt :: rest =>
      let messages :=
        base_messages ++ retry_messages agent attempt last_error last_content in
      let handler e last_content state :=
        if max_retries agent <=? attempt
        then ([messages], after_attempts agent (Some e) last_content state)
        else
          let '(calls, out) :=
            attempts_loop agent base_messages rest (Some e) last_content state in
          (messages :: calls, out) in
      let succeed result_ state :=
        ([messages],
         (if given (output_key agent)
          then <[default "" (output_key agent) := result_]> state
          else state,
          Yielded result_)) in
      match create messages with
      | Raise e => handler e last_content state
      | Ok content =>
          let state :=
            if given (raw_output_key agent)
               && (save_raw_always agent || negb (output_schema agent))
            then <[default "" (raw_output_key agent) := Str content]> state
            else state in
          if output_schema agent then
            match model_validate_json (sanitize content) with
            | Ok d => succeed (Dict d) state
            | Raise e => handler e (Some (sanitize content)) state
            end
          else succeed (Str content) state
      end
  end.

(** [_run_async_impl] on the instruction with the values of the state
    filled in: the calls of the API, the session state it leaves, and how
    it ends. *)
Definition _run_async_impl (agent : DeepSeekAgent) (rendered_instruction : string)
    (state : gmap string (Value Dump))
    : list (list Message) * (gmap string (Value Dump) * Outcome Dump) :=
  attempts_loop agent [ {| role := "user"; message_content := rendered_instruction |} ]
    (Vision.range (max_retries agent + 1)) None None state.

End WithApi.

End Agents.

(** ** The per-scene translator: [cfa_factory/agents/framework.py] *)

Module Translator.
Import Py.

(** A line boundary of [str.splitlines] in ASCII: LF, VT, FF, CR, FS, GS
    and RS. *)
Definition is_line_break (c : ascii) : bool :=
  let n := Z.of_N (N_of_ascii c) in
  ((10 <=? n) && (n <=? 13)) || ((28 <=? n) && (n <=? 30)).

(** The pieces between line boundaries; CR LF is one boundary
    ([after_cr] tells that the last character was a CR). *)
Fixpoint lines_from (after_cr : bool) (s : string) : list string :=
  match s with
  | EmptyString => [EmptyString]
  | String c s' =>
      if Ascii.eqb c "010" && after_cr then lines_from false s'
      else if is_line_break c then EmptyString :: lines_from (Ascii.eqb c "013") s'
      else
        match lines_from false s' with
        | line :: more => String c line :: more
        | [] => [String c EmptyString]
        end
  end.

(** [s.splitlines()]: no empty piece after the last boundary. *)
Definition splitlines (s : string) : list string :=
  let pieces := lines_from false s in
  match List.last pieces EmptyString with
  | EmptyString => List.removelast pieces
  | _ => pieces
  end.

(** A scene of the English script; a key that is absent is [None]. *)
Record SceneEn (Quiz : Type) := {
  beat : option string;
  speaker : option string;
  display_en : option string;
  spoken_en : option string;
  citations : option (list string);
  visual_refs : option (list string);
  quiz : option Quiz
}.
Arguments beat {Quiz} _.
Arguments speaker {Quiz} _.
Arguments display_en {Quiz} _.
Arguments spoken_en {Quiz} _.
Arguments citations {Quiz} _.
Arguments visual_refs {Quiz} _.
Arguments quiz {Quiz} _.

(** A scene of the translated script. *)
Record SceneZh (Quiz : Type) := {
  zh_beat : option string;
  zh_speaker : string;
  display_zh : string;
  spoken_zh : string;
  zh_citations : list string;
  zh_visual_refs : list string;
  zh_quiz : option Quiz
}.
Arguments zh_beat {Quiz} _.
Arguments zh_speaker {Quiz} _.
Arguments display_zh {Quiz} _.
Arguments spoken_zh {Quiz} _.
Arguments zh_citations {Quiz} _.
Arguments zh_visual_refs {Quiz} _.
Arguments zh_quiz {Quiz} _.

(** The two lines of a translation: the last [DISPLAY_ZH:] line and the
    last [SPOKEN_ZH:] line among the stripped, non-empty lines. *)
Definition parse_translation (content : string) : string * string :=
  fold_left
    (fun found line =>
       if String.prefix "DISPLAY_ZH:" line
       then (strip (str_drop 11 line), snd found)
       else if String.prefix "SPOKEN_ZH:" line
       then (fst found, strip (str_drop 10 line))
       else found)
    (List.filter truthy (List.map strip (splitlines content)))
    (EmptyString, EmptyString).

(** The first [SPOKEN_ZH:] line of a polished text, [""] if there is
    none. *)
Definition parse_smoothed (content : string) : string :=
  match List.find (String.prefix "SPOKEN_ZH:") (List.map strip (splitlines content)) with
  | Some line => strip (str_drop 10 line)
  | None => EmptyString
  end.

Section WithApi.
Variable Quiz : Type.
(** [self._client.chat.completions.create] on one user message, giving
    [resp.choices[0].message.content]; nothing catches its exceptions. *)
Variable create : string -> result string.
(** The two prompts: [base_prompt] from the neighbours' spoken text, the
    speaker and the two English texts, [smooth_prompt] from the speaker,
    the two contexts and the current spoken text. *)
Variable base_prompt : string -> string -> string -> string -> string -> string.
Variable smooth_prompt : string -> string -> string -> string -> string.
(** [smooth_ratio_min <= len(smoothed) / max(1, len(original))
    <= smooth_ratio_max], a comparison of floats. *)
Variable ratio_ok : Z -> Z -> bool.

(** [for attempt in range(self.max_retries + 1)] of the translation, over
    the attempts that are left; the prompts sent are recorded. *)
Fixpoint translate_attempts (prompt : string) (attempts : list Z)
    (last_output display spoken : string)
    : list string * result (string * (string * string)) :=
  match attempts with
  | [] => ([], Ok (last_output, (display, spoken)))
  | _ :: rest =>
      match create prompt with
      | Raise e => ([prompt], Raise e)
      | Ok raw =>
          let content := strip raw in
          let '(display, spoken) := parse_translation content in
          if truthy display && truthy spoken
          then ([prompt], Ok (content, (display, spoken)))
          else
            let '(calls, r) := translate_attempts prompt rest content display spoken in
            (prompt :: calls, r)
      end
  end.

(** The body of the loop over the scenes. *)
Definition translate_scene (max_retries : Z) (scenes : list (SceneEn Quiz)) (idx : nat)
    (scene : SceneEn Quiz) : list string * result (SceneZh Quiz) :=
  let spoken_at i :=
    match nth_error scenes i with
    | Some s => default "" (spoken_en s)
    | None => EmptyString
    end in
  let prev_spoken :=
    match idx with
    | O => EmptyString
    | S i => spoken_at i
    end in
  let next_spoken := spoken_at (S idx) in
  let prompt :=
    base_prompt prev_spoken next_spoken (default "Narrator" (speaker scene))
      (default "" (display_en scene)) (default "" (spoken_en scene)) in
  let '(calls, r) :=
    translate_attempts prompt (Vision.range (max_retries + 1)) "" "" "" in
  (calls,
   bind r
     (fun '(last_output, (display, spoken)) =>
        if negb (truthy display) || negb (truthy spoken)
        then Raise (ValueError ("Per-scene translation failed at scene "
                                +:+ str (Z.of_nat idx + 1) +:+ ". Last output: "
                                +:+ last_output))
        else Ok {| zh_beat := beat scene;
                   zh_speaker := default "Narrator" (speaker scene);
                   display_zh := display; spoken_zh := spoken;
                   zh_citations := default [] (citations scene);
                   zh_visual_refs := default [] (visual_refs scene);
                   zh_quiz := quiz scene |})).

(** [for idx, scene in enumerate(scenes)]: the translation stops at the
    first exception. *)
Fixpoint translate_scenes (max_retries : Z) (scenes : list (SceneEn Quiz)) (idx : nat)
    (todo : list (SceneEn Quiz)) : list string * result (list (SceneZh Quiz)) :=
  match todo with
  | [] => ([], Ok [])
  | scene :: rest =>
      let '(calls, r) := translate_scene max_retries scenes idx scene in
      match r with
      | Raise e => (calls, Raise e)
      | Ok zh =>
          let '(more_calls, r') := translate_scenes max_retries scenes (S idx) rest in
          (calls ++ more_calls, bind r' (fun more => Ok (zh :: more)))
      end
  end.

(** The attempts of the polish of one spoken text. *)
Fixpoint smooth_attempts (prompt original : string) (attempts : list Z)
    : list string * result string :=
  match attempts with
  | [] => ([], Ok EmptyString)
  | _ :: rest =>
      match create prompt with
      | Raise e => ([prompt], Raise e)
      | Ok raw =>
          let smoothed := parse_smoothed (strip raw) in
          if truthy smoothed && ratio_ok (len smoothed) (len original)
          then ([prompt], Ok smoothed)
          else
            let '(calls, r) := smooth_attempts prompt original rest in
            (prompt :: calls, r)
      end
  end.

Definition with_spoken (scene : SceneZh Quiz) (spoken : string) : SceneZh Quiz :=
  {| zh_beat := zh_beat scene; zh_speaker := zh_speaker scene;
     display_zh := display_zh scene; spoken_zh := spoken;
     zh_citations := zh_citations scene; zh_visual_refs := zh_visual_refs scene;
     zh_quiz := zh_quiz scene |}.

(** The loop of the polish; [context_spoken] holds the spoken texts as
    they were translated. *)
Fixpoint smooth_scenes (max_retries smooth_window : Z) (context_spoken : list string)
    (idx : nat) (todo : list (SceneZh Quiz))
    : list string * result (list (SceneZh Quiz)) :=
  match todo with
  | [] => ([], Ok [])
  | scene :: rest =>
      let original := spoken_zh scene in
      let i := Z.of_nat idx in
      let prev_ctx :=
        join Chunker.NL
          (List.filter truthy
             (IndexStore.lslice context_spoken (Z.max 0 (i - smooth_window)) i)) in
      let next_ctx :=
        join Chunker.NL
          (List.filter truthy
             (IndexStore.lslice context_spoken (i + 1) (i + 1 + smooth_window))) in
      let '(calls, r) :=
        if negb (truthy original) then ([], Ok EmptyString)
        else
          smooth_attempts (smooth_prompt (zh_speaker scene) prev_ctx next_ctx original)
            original (Vision.range (max_retries + 1)) in
      match r with
      | Raise e => (calls, Raise e)
      | Ok smoothed =>
          let scene' := if truthy smoothed then with_spoken scene smoothed else scene in
          let '(more_calls, r') :=
            smooth_scenes max_retries smooth_window context_spoken (S idx) rest in
          (calls ++ more_calls, bind r' (fun more => Ok (scene' :: more)))
      end
  end.

(** [_run_async_impl] on the scenes of the English script, with the
    polish enabled or not and its window ([max(0, int(...))] applied):
    the prompts sent to the API and the scenes of the result. *)
Definition _run_async_impl (max_retries : Z) (smooth_enabled : bool)
    (smooth_window : Z) (scenes : list (SceneEn Quiz))
    : list string * result (list (SceneZh Quiz)) :=
  match scenes with
  | [] => ([], Raise (ValueError "English script missing scenes."))
  | _ =>
      let '(calls, r) := translate_scenes max_retries scenes 0 scenes in
      match r with
      | Raise e => (calls, Raise e)
      | Ok translated_scenes =>
          if smooth_enabled then
            let '(more_calls, r') :=
              smooth_scenes max_retries (Z.max 0 smooth_window)
                (List.map spoken_zh translated_scenes) 0 translated_scenes in
            (calls ++ more_calls, r')
          else (calls, Ok translated_scenes)
      end
  end.

End WithApi.

End Translator.

(** * Properties *)

(** ** The hash, on two test vectors of FIPS 180 *)

Example sha1_abc :
  Sha1.hexdigest "abc" = "a9993e364706816aba3e25717850c26c9cd0d89d".
Proof. vm_compute. reflexivity. Qed.

Example sha1_two_blocks :
  Sha1.hexdigest "abcdbcdecdefdefgefghfghighijhijkijkljklmklmnlmnomnopnopq"
  = "84983e441c3bd26ebaae4aa1f95129e5e54670f1".
Proof. vm_compute. reflexivity. Qed.

(** ** Strings: lengths of slices, and what [rfind] finds *)

Module PyFacts.
Import Py.

Lemma length_str_take n s :
  String.length (str_take n s) = Nat.min n (String.length s).
Proof.
  revert s; induction n as [|n IH]; intros [|c s]; simpl; auto.
Qed.

Lemma length_str_drop n s :
  String.length (str_drop n s) = (String.length s - n)%nat.
Proof.
  revert s; induction n as [|n IH]; intros [|c s]; simpl; auto.
Qed.

Lemma str_drop_all n s :
  (String.length s <= n)%nat -> str_drop n s = EmptyString.
Proof.
  revert s; induction n as [|n IH]; intros [|c s]; simpl; intros H;
    auto; try lia.
  apply IH; lia.
Qed.

Lemma str_drop_succ n c s : str_drop (S n) (String c s) = str_drop n s.
Proof. reflexivity. Qed.

Lemma len_nonneg s : 0 <= len s.
Proof. unfold len; lia. Qed.

Lemma len_slice s i j :
  0 <= i <= j -> j <= len s -> len (slice s i j) = j - i.
Proof.
  intros Hij Hj. unfold slice, clamp.
  destruct (Z.ltb_spec i 0); [lia|].
  destruct (Z.ltb_spec j 0); [lia|].
  unfold len in *. rewrite length_str_take, length_str_drop. lia.
Qed.

(** [sub] starts at offset [j] of [s]. *)
Definition occurs_at (sub s : string) (j : Z) : bool :=
  (0 <=? j) && (j <=? len s) && String.prefix sub (str_drop (Z.to_nat j) s).

Lemma len_cons c s : len (String c s) = len s + 1.
Proof. unfold len; simpl; lia. Qed.

Lemma occurs_at_cons sub c s j :
  1 <= j -> occurs_at sub (String c s) j = occurs_at sub s (j - 1).
Proof.
  intros Hj. unfold occurs_at. rewrite len_cons.
  replace (Z.to_nat j) with (S (Z.to_nat (j - 1))) by lia.
  rewrite str_drop_succ.
  destruct (Z.leb_spec 0 j), (Z.leb_spec 0 (j - 1)); try lia.
  destruct (Z.leb_spec j (len s + 1)), (Z.leb_spec (j - 1) (len s));
    try lia; reflexivity.
Qed.

Lemma occurs_at_out sub s j : j < 0 \/ len s < j -> occurs_at sub s j = false.
Proof.
  intros H. unfold occurs_at.
  destruct (Z.leb_spec 0 j), (Z.leb_spec j (len s)); try lia; reflexivity.
Qed.

Lemma occurs_at_0 sub s : occurs_at sub s 0 = String.prefix sub s.
Proof.
  unfold occurs_at. pose proof (len_nonneg s).
  destruct (Z.leb_spec 0 (len s)); [|lia]. reflexivity.
Qed.

Lemma rfind_from_nil sub off :
  rfind_from sub EmptyString off = if String.prefix sub EmptyString then off else -1.
Proof. reflexivity. Qed.

Lemma rfind_from_cons sub c s off :
  rfind_from sub (String c s) off =
  if 0 <=? rfind_from sub s (off + 1) then rfind_from sub s (off + 1)
  else if String.prefix sub (String c s) then off else -1.
Proof. reflexivity. Qed.

(** [rfind_from] returns [-1] when [sub] occurs nowhere, and otherwise
    the offset of its last occurrence. *)
Lemma rfind_from_spec sub s off :
  0 <= off ->
  let r := rfind_from sub s off in
  (r = -1 \/ (off <= r <= off + len s /\ occurs_at sub s (r - off) = true))
  /\ (forall j, r - off < j -> occurs_at sub s j = false).
Proof.
  revert off; induction s as [|c s IH]; intros off Hoff; cbn zeta.
  - rewrite rfind_from_nil.
    destruct (String.prefix sub "") eqn:Hp.
    + split.
      * right. split; [unfold len; simpl; lia|].
        replace (off - off) with 0 by lia. rewrite occurs_at_0. exact Hp.
      * intros j Hj. apply occurs_at_out. right. unfold len; simpl. lia.
    + split; [left; reflexivity|].
      intros j Hj. destruct (Z.eq_dec j 0) as [->|Hne].
      * rewrite occurs_at_0. exact Hp.
      * apply occurs_at_out. unfold len; simpl. lia.
  - rewrite rfind_from_cons.
    specialize (IH (off + 1) ltac:(lia)). cbn zeta in IH.
    destruct IH as [IH1 IH2].
    set (later := rfind_from sub s (off + 1)) in *.
    pose proof (len_cons c s) as Hlen. pose proof (len_nonneg s) as Hpos.
    destruct (Z.leb_spec 0 later) as [Hl|Hl].
    + destruct IH1 as [IH1|[IH1 IH1']]; [lia|].
      split.
      * right. split; [lia|].
        rewrite occurs_at_cons by lia.
        replace (later - off - 1) with (later - (off + 1)) by lia. exact IH1'.
      * intros j Hj. rewrite occurs_at_cons by lia. apply IH2. lia.
    + destruct IH1 as [IH1|[IH1 IH1']]; [|lia].
      assert (Hrest : forall j, 1 <= j -> occurs_at sub (String c s) j = false).
      { intros j Hj. rewrite occurs_at_cons by lia. apply IH2. lia. }
      destruct (String.prefix sub (String c s)) eqn:Hp.
      * split.
        -- right. split; [lia|]. replace (off - off) with 0 by lia.
           rewrite occurs_at_0. exact Hp.
        -- intros j Hj. apply Hrest. lia.
      * split; [left; reflexivity|].
        intros j Hj. destruct (Z.eq_dec j 0) as [->|Hne].
        -- rewrite occurs_at_0. exact Hp.
        -- destruct (Z.leb_spec 0 j).
           ++ apply Hrest. lia.
           ++ apply occurs_at_out. lia.
Qed.

Lemma rfind_spec s sub :
  let r := rfind s sub in
  (r = -1 \/ (0 <= r <= len s /\ occurs_at sub s r = true))
  /\ (forall j, r < j -> occurs_at sub s j = false).
Proof.
  pose proof (rfind_from_spec sub s 0 ltac:(lia)) as H. cbn zeta in *.
  unfold rfind. set (r := rfind_from sub s 0) in *.
  replace (r - 0) with r in H by lia. replace (0 + len s) with (len s) in H by lia.
  destruct H as [H1 H2]. split; [exact H1|].
  intros j Hj. apply H2. lia.
Qed.

End PyFacts.

(** ** The heuristic strategy: where a window is cut, and termination *)

Module HeuristicFacts.
Import Py PyFacts Models Chunker.

(** The strings whose last occurrence in the window is the candidate cut:
    newline, period and space, ideographic full stop, semicolon and space. *)
Definition boundary_marks : list string := [NL; ". "; IDEOGRAPHIC_STOP; "; "].

(** A boundary mark starts at offset [j] of the window. *)
Definition boundary_at (window : string) (j : Z) : bool :=
  existsb (fun m => occurs_at m window j) boundary_marks.

Lemma window_cut_spec w :
  (window_cut w = -1
   \/ (0 <= window_cut w <= len w /\ boundary_at w (window_cut w) = true))
  /\ (forall j, window_cut w < j -> boundary_at w j = false).
Proof.
  destruct (rfind_spec w NL) as [A1 B1].
  destruct (rfind_spec w ". ") as [A2 B2].
  destruct (rfind_spec w IDEOGRAPHIC_STOP) as [A3 B3].
  destruct (rfind_spec w "; ") as [A4 B4].
  cbn zeta in *. unfold window_cut, boundary_at, boundary_marks.
  set (r1 := rfind w NL) in *. set (r2 := rfind w ". ") in *.
  set (r3 := rfind w IDEOGRAPHIC_STOP) in *. set (r4 := rfind w "; ") in *.
  set (c := Z.max (Z.max (Z.max r1 r2) r3) r4).
  assert (Hc : c = r1 \/ c = r2 \/ c = r3 \/ c = r4) by lia.
  assert (Hge : r1 <= c /\ r2 <= c /\ r3 <= c /\ r4 <= c) by lia.
  split.
  - simpl existsb.
    destruct Hc as [Hc|[Hc|[Hc|Hc]]]; rewrite Hc;
      [ destruct A1 as [A|[A A']] | destruct A2 as [A|[A A']]
      | destruct A3 as [A|[A A']] | destruct A4 as [A|[A A']] ];
      try (left; exact A); right; (split; [exact A|]); rewrite A';
      rewrite ?orb_true_r; reflexivity.
  - intros j Hj. simpl existsb.
    rewrite B1, B2, B3, B4 by lia. reflexivity.
Qed.

Lemma window_cut_le w : -1 <= window_cut w <= len w.
Proof.
  destruct (window_cut_spec w) as [[H|[H _]] _]; pose proof (len_nonneg w); lia.
Qed.

(** Every iteration moves [start] forward, and not beyond the text. *)
Lemma window_end_bounds text target start :
  1 <= target -> 0 <= start < len text ->
  start < window_end text target start <= len text.
Proof.
  intros Ht Hs. unfold window_end.
  set (end_ := Z.min (len text) (start + target)).
  assert (He : start < end_ <= len text) by (unfold end_; lia).
  pose proof (window_cut_le (slice text start end_)) as Hc.
  rewrite len_slice in Hc by lia.
  destruct (Z.ltb_spec 500 (window_cut (slice text start end_))); lia.
Qed.

Section Loop.
Variable re_search : Regex.
Variables (doc_id kind source_path : string) (page_num : Z).
Variables (reading_id : option string) (target min_chars : Z) (text : string).

Let loop fuel start :=
  chunk_loop re_search fuel doc_id kind source_path page_num reading_id
    target min_chars text start.

Lemma chunk_loop_done fuel start : len text <= start -> loop fuel start = Some [].
Proof.
  intros H. unfold loop. destruct fuel; simpl;
    destruct (Z.ltb_spec start (len text)); try lia; reflexivity.
Qed.

Lemma chunk_loop_step fuel start :
  start < len text ->
  loop (S fuel) start =
  app (chunk_at re_search doc_id kind source_path page_num reading_id min_chars
         text start (window_end text target start))
    <$> loop fuel (window_end text target start).
Proof.
  intros H. unfold loop. simpl.
  destruct (Z.ltb_spec start (len text)); [reflexivity|lia].
Qed.

Lemma chunk_loop_total (n : nat) :
  1 <= target ->
  forall start, 0 <= start -> len text - start <= Z.of_nat n ->
  exists chunks, forall fuel, (n <= fuel)%nat -> loop fuel start = Some chunks.
Proof.
  intros Ht. induction n as [|n IH]; intros start Hs Hn.
  - exists []. intros fuel _. apply chunk_loop_done. lia.
  - destruct (Z.lt_ge_cases start (len text)) as [Hlt|Hge].
    + pose proof (window_end_bounds text target start Ht ltac:(lia)) as Hw.
      destruct (IH (window_end text target start) ltac:(lia) ltac:(lia))
        as [rest Hrest].
      eexists. intros fuel Hfuel.
      destruct fuel as [|fuel]; [lia|].
      rewrite chunk_loop_step by lia.
      rewrite Hrest by lia. reflexivity.
    + exists []. intros fuel _. apply chunk_loop_done. lia.
Qed.

(** Each chunk's span ends where the window opened at its start was
    closed. *)
Lemma chunk_loop_spans fuel :
  forall start chunks,
    loop fuel start = Some chunks ->
    Forall (fun c => end_char (span c)
                     = window_end text target (start_char (span c))) chunks.
Proof.
  induction fuel as [|fuel IH]; intros start chunks H.
  - unfold loop in H. simpl in H.
    destruct (start <? len text); [discriminate|].
    injection H as <-. constructor.
  - destruct (Z.lt_ge_cases start (len text)) as [Hlt|Hge].
    + rewrite chunk_loop_step in H by lia.
      destruct (loop fuel (window_end text target start)) as [rest|] eqn:Hr;
        [|discriminate].
      simpl in H. injection H as <-.
      apply Forall_app. split; [|eapply IH; exact Hr].
      unfold chunk_at.
      destruct (_ <? min_chars); [constructor|].
      destruct (negb _); [constructor|].
      constructor; [reflexivity|constructor].
    + rewrite chunk_loop_done in H by lia. injection H as <-. constructor.
Qed.

(** What holds of every chunk cut by [chunk_at] holds of the loop's
    output. *)
Lemma chunk_loop_Forall (P : Chunk -> Prop) :
  (forall start end_,
     Forall P (chunk_at re_search doc_id kind source_path page_num reading_id
                 min_chars text start end_)) ->
  forall fuel start chunks, loop fuel start = Some chunks -> Forall P chunks.
Proof.
  intros HP. induction fuel as [|fuel IH]; intros start chunks H.
  - unfold loop in H. simpl in H.
    destruct (start <? len text); [discriminate|].
    injection H as <-. constructor.
  - destruct (Z.lt_ge_cases start (len text)) as [Hlt|Hge].
    + rewrite chunk_loop_step in H by lia.
      destruct (loop fuel (window_end text target start)) as [rest|] eqn:Hr;
        [|discriminate].
      simpl in H. injection H as <-.
      apply Forall_app. split; [apply HP|eapply IH; exact Hr].
    + rewrite chunk_loop_done in H by lia. injection H as <-. constructor.
Qed.

End Loop.

(** The heuristic strategy only makes chunks of type [Text]. *)
Lemma chunk_at_text re_search doc_id kind source_path page_num reading_id
    min_chars text start end_ :
  Forall (fun c => content_type c = Text)
    (chunk_at re_search doc_id kind source_path page_num reading_id min_chars
       text start end_).
Proof.
  unfold chunk_at.
  destruct (_ <? min_chars); [constructor|].
  destruct (negb _); [constructor|].
  constructor; [reflexivity|constructor].
Qed.

Lemma _page_to_chunks_text re_search fuel doc_id kind source_path page_num
    page_text reading_id target min_chars chunks :
  _page_to_chunks re_search fuel doc_id kind source_path page_num page_text
    reading_id target min_chars = Some chunks ->
  Forall (fun c => content_type c = Text) chunks.
Proof.
  unfold _page_to_chunks. destruct (negb _).
  - intros H; injection H as <-. constructor.
  - apply chunk_loop_Forall. intros. apply chunk_at_text.
Qed.

(** With a target of at least one character, as many iterations as the
    stripped text has characters are enough. *)
Lemma _page_to_chunks_total re_search doc_id kind source_path page_num
    page_text reading_id target min_chars :
  1 <= target ->
  exists chunks, forall fuel, (String.length (strip page_text) <= fuel)%nat ->
    _page_to_chunks re_search fuel doc_id kind source_path page_num page_text
      reading_id target min_chars = Some chunks.
Proof.
  intros Ht. unfold _page_to_chunks.
  destruct (negb (truthy (strip page_text))).
  - exists []. reflexivity.
  - destruct (chunk_loop_total re_search doc_id kind source_path page_num
                reading_id target min_chars (strip page_text)
                (String.length (strip page_text)) Ht 0
                ltac:(lia) ltac:(unfold len; lia)) as [chunks H].
    exists chunks. exact H.
Qed.

End HeuristicFacts.

Section HeuristicClaims.
Import Py PyFacts Models Chunker HeuristicFacts.


(** C10.  With a target window of at least one character the windowing loop
    of the heuristic strategy terminates.  At every window start inside the
    text the raw window end exceeds the start, a cut that replaces it lies
    more than 500 characters into the window, so the next start is strictly
    greater and not beyond the text; and as many iterations as the stripped
    text has characters are enough for [_page_to_chunks] to return. *)
Theorem heuristic_windowing_terminates (re_search : Regex)
    (doc_id kind source_path : string) (page_num : Z) (page_text : string)
    (reading_id : option string) (target min_chars : Z) :
  1 <= target ->
  let text := strip page_text in
  (forall start, 0 <= start < len text ->
     start < Z.min (len text) (start + target)
     /\ (window_end text target start <> Z.min (len text) (start + target) ->
         500 < window_end text target start - start)
     /\ start < window_end text target start <= len text)
  /\ exists chunks, forall fuel, (String.length text <= fuel)%nat ->
       _page_to_chunks re_search fuel doc_id kind source_path page_num page_text
         reading_id target min_chars = Some chunks.
Proof.
  intros Ht text. split.
  - intros start Hs. split; [lia|]. split.
    + unfold window_end.
      destruct (Z.ltb_spec 500 (window_cut
                  (slice text start (Z.min (len text) (start + target)))));
        [lia|congruence].
    + apply window_end_bounds; assumption.
  - apply _page_to_chunks_total. exact Ht.
Qed.

End HeuristicClaims.

(** A page of 520 letters, a period and a space, then 30 more letters. *)
Definition sample_page : string :=
  string_of_list_ascii (repeat "a"%char 520) +:+ ". "
  +:+ string_of_list_ascii (repeat "b"%char 30).

Example sample_page_spans :
  option_map (List.map (fun c => (Models.start_char (Models.span c),
                                  Models.end_char (Models.span c))))
    (Chunker._page_to_chunks (fun _ _ => None) 552 "doc" "official" "doc.pdf" 1
       sample_page None 1800 10)
  = Some [(0, 520); (520, 552)].
Proof. vm_compute. reflexivity. Qed.


Lemma heuristic_windowing_terminates_witness :
  exists chunks, forall fuel, (552 <= fuel)%nat ->
    Chunker._page_to_chunks (fun _ _ => None) fuel "doc" "official" "doc.pdf" 1
      sample_page None 1800 50 = Some chunks.
Proof.
  exact (proj2 (heuristic_windowing_terminates (fun _ _ => None) "doc" "official"
                  "doc.pdf" 1 sample_page None 1800 50 ltac:(lia))).
Defined.

(** ** The assisted strategy *)

Module AssistedFacts.
Import Py Models Chunker.

Lemma Forall_flat_map_option {A B} (P : B -> Prop) (f : A -> option B) (l : list A) :
  (forall a b, In a l -> f a = Some b -> P b) ->
  Forall P (flat_map (fun a => option_list (f a)) l).
Proof.
  induction l as [|a l IH]; intros H; simpl; [constructor|].
  apply Forall_app. split.
  - destruct (f a) as [b|] eqn:E; simpl; [|constructor].
    constructor; [|constructor]. eapply H; [left; reflexivity|exact E].
  - apply IH. intros a' b' Hin. apply H. right. exact Hin.
Qed.

(** What [chunk_of_spec] puts into the chunk it builds. *)
Lemma chunk_of_spec_fields doc_id kind source_path page_num page_size
    reading_id min_chars text_blocks image_blocks spec c :
  chunk_of_spec doc_id kind source_path page_num page_size reading_id min_chars
    text_blocks image_blocks spec = Some c ->
  let ids := List.filter (in_range text_blocks) (spec_block_ids spec) in
  block_ids c = Some ids
  /\ content c = strip (join NL (List.filter truthy (List.map snd (pick text_blocks ids))))
  /\ content_hash c = _sha1 (content c)
  /\ chunk_id c = _stable_chunk_id_blocks doc_id page_num ids (content_hash c)
  /\ content_type c = spec_content_type spec
  /\ no_cut c = spec_no_cut spec || is_atomic_type (spec_content_type spec).
Proof.
  unfold chunk_of_spec. cbn zeta.
  destruct (List.filter (in_range text_blocks) (spec_block_ids spec)) as [|i ids] eqn:E;
    [discriminate|].
  destruct (negb _ || _); [discriminate|].
  intros H; injection H as <-. simpl. repeat split; reflexivity.
Qed.

(** The chunks of [_page_to_chunks_llm] are the chunks [chunk_of_spec]
    builds from the proposals of the response. *)
Lemma _page_to_chunks_llm_Forall (P : Chunk -> Prop) client model doc_id kind
    source_path page_num page_dict page_size reading_id min_chars :
  (forall parsed spec c,
     client model
       {| pr_reading_id := reading_id; pr_page := page_num;
          pr_page_size := page_size;
          pr_text_blocks := text_blocks_of page_dict;
          pr_image_blocks := image_blocks_of page_dict |} = Some parsed ->
     In spec (chunks parsed) ->
     chunk_of_spec doc_id kind source_path page_num page_size reading_id min_chars
       (text_blocks_of page_dict) (image_blocks_of page_dict) spec = Some c ->
     P c) ->
  Forall P (snd (_page_to_chunks_llm client model doc_id kind source_path page_num
                   page_dict page_size reading_id min_chars)).
Proof.
  intros H. unfold _page_to_chunks_llm.
  set (prompt := Build_Prompt _ _ _ _ _) in *.
  destruct (client model prompt) as [parsed|] eqn:E.
  - assert (HF : Forall P
      (flat_map (fun spec => option_list
         (chunk_of_spec doc_id kind source_path page_num page_size reading_id
            min_chars (text_blocks_of page_dict) (image_blocks_of page_dict) spec))
         (chunks parsed))).
    { apply Forall_flat_map_option. intros spec c Hin Hc. eapply H; eauto. }
    destruct (text_blocks_of page_dict), (image_blocks_of page_dict); simpl;
      try exact HF; constructor.
  - destruct (text_blocks_of page_dict), (image_blocks_of page_dict); simpl;
      constructor.
Qed.

End AssistedFacts.

(** ** A page's processing and the document's chunk stream *)

Module ProcessFacts.
Import Py Models Chunker HeuristicFacts AssistedFacts.

Section Page.
Variable re_search : Regex.
Variables (fuel : nat) (client : Classifier) (cfg : Config).
Variables (doc_id kind pdf_path : string).

Definition attempt (payload : Payload) (model : string) : list string * list Chunk :=
  _page_to_chunks_llm client model doc_id kind pdf_path (page_num payload)
    (page_dict payload) (pl_page_size payload) (pl_reading_id payload)
    (min_chunk_chars cfg).

Definition heuristic (payload : Payload) : option (list Chunk) :=
  _page_to_chunks re_search fuel doc_id kind pdf_path (page_num payload)
    (pl_text payload) (pl_reading_id payload) (target_chunk_chars cfg)
    (min_chunk_chars cfg).

(** Is the assisted strategy requested for the page? *)
Definition requested (payload : Payload) : bool :=
  use_llm cfg
  && (String.eqb (llm_mode cfg) "all"
      || (String.eqb (llm_mode cfg) "vision-only" && needs_vision payload)).

(** The profile of the first attempt. *)
Definition first_model (payload : Payload) : string :=
  if truthy (default "" (llm_model_complex cfg)) && complex_page payload
  then default "" (llm_model_complex cfg)
  else llm_model cfg.

Definition has_blocks (payload : Payload) : bool :=
  match page_dict payload with [] => false | _ => true end.

(** [_process_page], case by case. *)
Lemma _process_page_cases payload :
  _process_page re_search fuel client cfg doc_id kind pdf_path payload =
  if requested payload then
    match attempt payload (first_model payload) with
    | (calls1, []) =>
        if has_blocks payload
           && negb (String.eqb (first_model payload) (llm_model cfg))
        then
          match attempt payload (llm_model cfg) with
          | (calls2, []) =>
              (List.map Classify calls1
                 ++ WarnFallback (first_model payload) (llm_model cfg)
                 :: List.map Classify calls2,
               heuristic payload)
          | (calls2, chunks2) =>
              (List.map Classify calls1
                 ++ WarnFallback (first_model payload) (llm_model cfg)
                 :: List.map Classify calls2,
               Some chunks2)
          end
        else (List.map Classify calls1, heuristic payload)
    | (calls1, chunks1) => (List.map Classify calls1, Some chunks1)
    end
  else ([], heuristic payload).
Proof.
  unfold _process_page, requested, first_model, has_blocks, attempt, heuristic.
  cbn zeta.
  destruct (use_llm cfg && _); [|reflexivity].
  destruct (_page_to_chunks_llm client _ doc_id kind pdf_path _ _ _ _ _)
    as [calls1 [|c1 chunks1]]; [|reflexivity].
  destruct (_ && negb _); [|reflexivity].
  destruct (_page_to_chunks_llm client _ doc_id kind pdf_path _ _ _ _ _)
    as [calls2 [|c2 chunks2]]; reflexivity.
Qed.

(** The chunks of a page come from an attempt of the assisted strategy
    or from the heuristic strategy. *)
Lemma _process_page_source payload page_chunks :
  snd (_process_page re_search fuel client cfg doc_id kind pdf_path payload)
    = Some page_chunks ->
  (exists model, page_chunks = snd (attempt payload model))
  \/ heuristic payload = Some page_chunks.
Proof.
  rewrite _process_page_cases.
  destruct (requested payload); [|simpl; auto].
  destruct (attempt payload (first_model payload)) as [calls1 chunks1] eqn:E1.
  destruct chunks1 as [|c1 chunks1].
  - destruct (_ && negb _); [|simpl; auto].
    destruct (attempt payload (llm_model cfg)) as [calls2 chunks2] eqn:E2.
    destruct chunks2 as [|c2 chunks2]; simpl; intros H; [right; exact H|].
    left. exists (llm_model cfg). rewrite E2. simpl. congruence.
  - simpl. intros H. left. exists (first_model payload). rewrite E1. simpl.
    congruence.
Qed.




Lemma write_pages_Forall (P : Chunk -> Prop) payloads :
  (forall payload model, Forall P (snd (attempt payload model))) ->
  (forall payload chunks, heuristic payload = Some chunks -> Forall P chunks) ->
  forall stream,
    write_pages re_search fuel client cfg doc_id kind pdf_path payloads
      = Some stream ->
    Forall P stream.
Proof.
  intros HA HH. induction payloads as [|payload rest IH]; intros stream H.
  - injection H as <-. constructor.
  - simpl in H.
    destruct (snd (_process_page _ _ _ _ _ _ _ payload)) as [pc|] eqn:Ep;
      [|discriminate].
    destruct (write_pages _ _ _ _ _ _ _ rest) as [more|]; [|discriminate].
    injection H as <-. apply Forall_app. split; [|apply IH; reflexivity].
    destruct (_process_page_source _ _ Ep) as [[model ->]|Hh].
    + apply HA.
    + eapply HH. exact Hh.
Qed.

End Page.

End ProcessFacts.

Section AtomicityClaim.
Import Py Models Chunker HeuristicFacts AssistedFacts ProcessFacts.

(** A chunk of type table, formula or figure is marked [no_cut]. *)
Definition atomic (c : Chunk) : Prop :=
  content_type c = Table \/ content_type c = Formula \/ content_type c = Figure ->
  no_cut c = true.

(** C4.  Every chunk of the assisted strategy, whatever the classifier
    answered and whatever its [no_cut] hint, every chunk of the heuristic
    strategy, and so every chunk of the stream written for a document, has
    [no_cut] true when its content type is table, formula or figure. *)
Theorem atomic_types_are_no_cut (re_search : Regex) (fuel : nat)
    (client : Classifier) (model doc_id kind source_path : string) (page_num : Z)
    (page_dict : list Block) (page_size : list Q) (page_text : string)
    (reading_id : option string) (target min_chars : Z) :
  Forall atomic
    (snd (_page_to_chunks_llm client model doc_id kind source_path page_num
            page_dict page_size reading_id min_chars))
  /\ (forall chunks,
        _page_to_chunks re_search fuel doc_id kind source_path page_num page_text
          reading_id target min_chars = Some chunks ->
        Forall atomic chunks)
  /\ (forall cfg pages reading_map stream,
        build_chunks_for_doc re_search fuel client cfg source_path pages doc_id kind
          reading_map = Some stream ->
        Forall atomic stream).
Proof.
  assert (HA : forall model doc_id kind source_path page_num page_dict page_size
                      reading_id min_chars,
             Forall atomic
               (snd (_page_to_chunks_llm client model doc_id kind source_path
                       page_num page_dict page_size reading_id min_chars))).
  { intros. apply _page_to_chunks_llm_Forall. intros parsed spec c _ _ Hc.
    apply chunk_of_spec_fields in Hc. cbn zeta in Hc.
    destruct Hc as (_ & _ & _ & _ & Hct & Hnc).
    unfold atomic. rewrite Hct, Hnc.
    intros [H|[H|H]]; rewrite H; simpl; apply orb_true_r. }
  assert (HH : forall doc_id kind source_path page_num page_text reading_id target
                      min_chars chunks,
             _page_to_chunks re_search fuel doc_id kind source_path page_num
               page_text reading_id target min_chars = Some chunks ->
             Forall atomic chunks).
  { intros ? ? ? ? ? ? ? ? chunks H. apply _page_to_chunks_text in H.
    eapply Forall_impl; [exact H|].
    intros c Hc. unfold atomic. rewrite Hc.
    intros [?|[?|?]]; discriminate. }
  split; [apply HA|]. split; [apply HH|].
  intros cfg pages reading_map stream H.
  unfold build_chunks_for_doc in H.
  eapply write_pages_Forall; [| |exact H].
  - intros payload m. apply HA.
  - intros payload chunks Hh. eapply HH. exact Hh.
Qed.

End AtomicityClaim.

(** ** The chunk id of the assisted strategy *)

(** A page with two text blocks, and the response that proposes one chunk
    made of the given block ids. *)
Definition two_blocks : list Chunker.Block :=
  [ Chunker.TextBlock None [["Interest rates"]];
    Chunker.TextBlock None [["Bond prices"]] ].

Definition propose (ids : list Z) : Chunker.Classifier :=
  fun _ _ =>
    Some {| Chunker.chunks :=
              [ {| Chunker.spec_block_ids := ids;
                   Chunker.spec_image_block_ids := [];
                   Chunker.spec_content_type := Models.Text;
                   Chunker.spec_section_path := [];
                   Chunker.spec_no_cut := false |} ] |}.

Definition chunk_ids_of_run (ids : list Z) : list string :=
  List.map Models.chunk_id
    (snd (Chunker._page_to_chunks_llm (propose ids) "gemini-2.5-flash-lite" "vol1"
            "official" "vol1.pdf" 7 two_blocks [] None 5)).

Section ChunkIdClaim.
Import Py Models Chunker AssistedFacts.

(** C1, as the claim states it, fails: the block ids enter the hash in the
    order of the proposal.  The proposals [0, 1] and [1, 0] name the same
    set of blocks of the same page and get different chunk ids; and for one
    and the same content hash the id of [1, 0] is not the id of the sorted
    list [0, 1]. *)
Lemma chunk_id_depends_on_block_order :
  Permutation [0; 1] [1; 0]
  /\ chunk_ids_of_run [0; 1] = ["3c636a3efcaef2726a52073f47bd9435584901a7"]
  /\ chunk_ids_of_run [1; 0] = ["de72cf89bba39376c1064331695a42fb8f5069c5"]
  /\ chunk_ids_of_run [0; 1] <> chunk_ids_of_run [1; 0]
  /\ _stable_chunk_id_blocks "vol1" 7 [1; 0] (_sha1 "x")
     <> _stable_chunk_id_blocks "vol1" 7 [0; 1] (_sha1 "x").
Proof.
  split; [apply perm_swap|].
  split; [vm_compute; reflexivity|].
  split; [vm_compute; reflexivity|].
  split; vm_compute; intros H; discriminate H.
Qed.

(** C1, amended.  Every chunk of the assisted strategy comes from a proposal
    of the response; its block ids are the proposal's ids that are in range,
    in the order of the proposal, its content hash is the SHA-1 of its
    content, and its chunk id is the SHA-1 of
    [doc_id|p<page>|blocks:<ids joined by commas>|<content hash>].  So two
    runs on the same page that give a chunk the same block ids in the same
    order give it the same content and the same chunk id. *)
Theorem chunk_id_of_blocks (client1 client2 : Classifier)
    (model1 model2 doc_id kind source_path : string) (page_num : Z)
    (page_dict : list Block) (page_size : list Q) (reading_id : option string)
    (min_chars : Z) :
  let run client model :=
    snd (_page_to_chunks_llm client model doc_id kind source_path page_num
           page_dict page_size reading_id min_chars) in
  let prompt :=
    {| pr_reading_id := reading_id; pr_page := page_num;
       pr_page_size := page_size; pr_text_blocks := text_blocks_of page_dict;
       pr_image_blocks := image_blocks_of page_dict |} in
  Forall
    (fun c =>
       exists parsed spec,
         client1 model1 prompt = Some parsed /\ In spec (chunks parsed)
         /\ let ids :=
              List.filter (in_range (text_blocks_of page_dict)) (spec_block_ids spec) in
            block_ids c = Some ids
            /\ content_hash c = Sha1.hexdigest (content c)
            /\ chunk_id c =
               Sha1.hexdigest
                 (doc_id +:+ "|p" +:+ str page_num +:+ "|blocks:"
                  +:+ join "," (List.map str ids) +:+ "|" +:+ content_hash c))
    (run client1 model1)
  /\ (forall c1 c2,
        In c1 (run client1 model1) -> In c2 (run client2 model2) ->
        block_ids c1 = block_ids c2 ->
        content c1 = content c2 /\ chunk_id c1 = chunk_id c2).
Proof.
  intros run prompt. split.
  - apply _page_to_chunks_llm_Forall. intros parsed spec c Hp Hin Hc.
    exists parsed, spec. split; [exact Hp|]. split; [exact Hin|].
    apply chunk_of_spec_fields in Hc. cbn zeta in *.
    destruct Hc as (Hb & _ & Hh & Hid & _). auto.
  - assert (Hrun : forall client model,
      Forall
        (fun c =>
           exists ids,
             block_ids c = Some ids
             /\ content c =
                strip (join NL (List.filter truthy
                         (List.map snd (pick (text_blocks_of page_dict) ids))))
             /\ content_hash c = _sha1 (content c)
             /\ chunk_id c = _stable_chunk_id_blocks doc_id page_num ids (content_hash c))
        (run client model)).
    { intros client model. apply _page_to_chunks_llm_Forall.
      intros parsed spec c _ _ Hc.
      apply chunk_of_spec_fields in Hc. cbn zeta in Hc.
      destruct Hc as (Hb & Hc & Hh & Hid & _). eauto. }
    intros c1 c2 H1 H2 Heq.
    pose proof (Hrun client1 model1) as F1. pose proof (Hrun client2 model2) as F2.
    rewrite Forall_forall in F1, F2.
    destruct (F1 c1) as (ids1 & B1 & C1 & D1 & E1); [apply list_elem_of_In; exact H1|].
    destruct (F2 c2) as (ids2 & B2 & C2 & D2 & E2); [apply list_elem_of_In; exact H2|].
    assert (ids1 = ids2) by congruence. subst ids2.
    assert (content c1 = content c2) by congruence.
    split; [assumption|]. rewrite E1, E2, D1, D2. congruence.
Qed.

End ChunkIdClaim.

Lemma chunk_id_of_blocks_witness :
  chunk_ids_of_run [0; 1] = ["3c636a3efcaef2726a52073f47bd9435584901a7"]
  /\ forall c1 c2,
       In c1 (snd (Chunker._page_to_chunks_llm (propose [0; 1]) "gemini-2.5-flash-lite"
                     "vol1" "official" "vol1.pdf" 7 two_blocks [] None 5)) ->
       In c2 (snd (Chunker._page_to_chunks_llm (propose [0; 1]) "gemini-3-flash-preview"
                     "vol1" "official" "vol1.pdf" 7 two_blocks [] None 5)) ->
       Models.block_ids c1 = Models.block_ids c2 ->
       Models.content c1 = Models.content c2 /\ Models.chunk_id c1 = Models.chunk_id c2.
Proof.
  split; [vm_compute; reflexivity|].
  exact (proj2 (chunk_id_of_blocks (propose [0; 1]) (propose [0; 1])
                  "gemini-2.5-flash-lite" "gemini-3-flash-preview" "vol1" "official"
                  "vol1.pdf" 7 two_blocks [] None 5)).
Defined.

(** ** Escalation from the assisted to the heuristic strategy *)


Definition failing : Chunker.Classifier := fun _ _ => None.

Definition no_regex : Py.Regex := fun _ _ => None.

(** The same page flagged as complex: the complex-page profile is tried
    first, then the base profile. *)
Example complex_page_retries_once :
  fst (Chunker._process_page no_regex 600 failing Chunker.default_config "vol1"
         "official" "vol1.pdf"
         {| Chunker.page_num := 1; Chunker.pl_text := sample_page;
            Chunker.pl_reading_id := None; Chunker.page_dict := two_blocks;
            Chunker.pl_page_size := []; Chunker.needs_vision := false;
            Chunker.complex_page := true |})
  = [ Chunker.Classify "gemini-3-flash-preview";
      Chunker.WarnFallback "gemini-3-flash-preview" "gemini-2.5-flash-lite";
      Chunker.Classify "gemini-2.5-flash-lite" ].
Proof. vm_compute. reflexivity. Qed.

Section EscalationClaim.
Import Py Models Chunker HeuristicFacts AssistedFacts ProcessFacts.



End EscalationClaim.


(** ** The reading map: interval invariant and merge *)

Module ReadingMapFacts.
Import Py Models ReadingMapBuilder.

(** Start pages above [bound], each above the one before. *)
Fixpoint above (bound : Z) (l : list ReadingStart) : Prop :=
  match l with
  | [] => True
  | r :: rest => bound < start_page r /\ above (start_page r) rest
  end.

(** Each interval ends one page before the next one starts, which is a
    later page; the last one ends at [n_pages]. *)
Fixpoint chained (n_pages : Z) (ivs : list ReadingInterval) : Prop :=
  match ivs with
  | [] => True
  | a :: rest =>
      match rest with
      | [] => page_end a = n_pages
      | b :: _ => page_start a < page_start b /\ page_end a = page_start b - 1
      end
      /\ chained n_pages rest
  end.

Lemma clean_above last l : above last (clean last l).
Proof.
  revert last; induction l as [|r l IH]; intros last; simpl; [exact I|].
  destruct (Z.leb_spec (start_page r) last); [apply IH|].
  simpl. split; [lia|apply IH].
Qed.

Lemma close_intervals_chained n_pages bound l :
  above bound l -> chained n_pages (close_intervals n_pages l).
Proof.
  revert bound; induction l as [|r l IH]; intros bound H; simpl; [exact I|].
  destruct H as [_ H]. split; [|eapply IH; exact H].
  destruct l as [|r' l']; simpl; [reflexivity|].
  destruct H as [H _]. lia.
Qed.

Lemma close_intervals_starts n_pages bound l :
  above bound l ->
  Forall (fun a => bound < page_start a) (close_intervals n_pages l).
Proof.
  revert bound; induction l as [|r l IH]; intros bound H; simpl; [constructor|].
  destruct H as [Hr H]. constructor; [exact Hr|].
  eapply Forall_impl; [apply (IH _ H)|]. simpl. intros a Ha. lia.
Qed.

(** [chained], by position. *)
Lemma chained_lookup n_pages ivs :
  chained n_pages ivs ->
  (forall (i : nat) a b,
     ivs !! i = Some a -> ivs !! S i = Some b ->
     page_start a < page_start b /\ page_end a = page_start b - 1)
  /\ (forall l, last ivs = Some l -> page_end l = n_pages).
Proof.
  induction ivs as [|x ivs IH]; intros H.
  - split; [intros i a b Ha; discriminate|intros l Hl; discriminate].
  - destruct H as [Hx H]. destruct (IH H) as [IH1 IH2]. split.
    + intros i a b Ha Hb. destruct i as [|i].
      * simpl in Ha, Hb. injection Ha as <-.
        destruct ivs as [|y ivs]; [discriminate|].
        simpl in Hb. injection Hb as <-. exact Hx.
      * simpl in Ha, Hb. eapply IH1; eauto.
    + intros l Hl. destruct ivs as [|y ivs].
      * simpl in Hl. injection Hl as <-. exact Hx.
      * apply IH2. exact Hl.
Qed.

Section WithCollaborators.
Variable re_search : Regex.
Variable extract_toc : string -> list (Z * string) -> option TocMapSchema.
Variable confirm_reading_start : string -> string -> option ReadingStartSchema.

Lemma intervals_of_ok doc_id n_pages reading_starts ivs :
  intervals_of doc_id n_pages reading_starts = Ok ivs ->
  ivs <> [] /\ chained n_pages ivs /\ Forall (fun a => 0 < page_start a) ivs.
Proof.
  unfold intervals_of.
  set (cleaned := clean 0 _).
  pose proof (clean_above 0 (sorted_by_start (List.map snd (dedup reading_starts))))
    as Habove. fold cleaned in Habove.
  destruct cleaned as [|r rest] eqn:E; [discriminate|].
  intros H; injection H as <-. split; [discriminate|]. split.
  - exact (close_intervals_chained n_pages 0 (r :: rest) Habove).
  - exact (close_intervals_starts n_pages 0 (r :: rest) Habove).
Qed.

(** What a successful run went through. *)
Lemma build_reading_map_for_doc_ok manifest pdf persisted doc_id use_llm
    llm_model max_pages toc_pages data :
  build_reading_map_for_doc re_search extract_toc confirm_reading_start manifest
    pdf persisted doc_id use_llm llm_model max_pages toc_pages = Ok data ->
  exists doc_entry pages reading_starts intervals,
    List.find (fun d => String.eqb (ReadingMapBuilder.doc_id d) doc_id) manifest
      = Some doc_entry
    /\ pdf (path doc_entry) = Some pages
    /\ intervals_of doc_id (Z.of_nat (List.length pages)) reading_starts
       = Ok intervals
    /\ data = merge_into persisted doc_id intervals.
Proof.
  unfold build_reading_map_for_doc.
  destruct (List.find _ manifest) as [doc_entry|] eqn:Ef; [|discriminate].
  destruct (pdf (path doc_entry)) as [pages|] eqn:Ep; [|discriminate].
  match goal with
  | |- bind ?m _ = _ -> _ => destruct m as [reading_starts|e]; [|discriminate]
  end.
  simpl.
  destruct (intervals_of doc_id _ reading_starts) as [intervals|e] eqn:E;
    [|discriminate].
  simpl. intros H; injection H as <-.
  exists doc_entry, pages, reading_starts, intervals.
  split; [reflexivity|]. split; [exact Ep|]. split; [exact E|reflexivity].
Qed.

End WithCollaborators.

End ReadingMapFacts.

(** A manifest with one document of five pages, two of which open a
    reading, and a reading map that already holds another document. *)
Definition sample_manifest : list ReadingMapBuilder.Document :=
  [ {| ReadingMapBuilder.doc_id := "vol1"; ReadingMapBuilder.doc_kind := "official";
       ReadingMapBuilder.path := "vol1.pdf"; ReadingMapBuilder.title := "Volume 1" |} ].

Definition sample_pdf (path : string) : option (list string) :=
  if String.eqb path "vol1.pdf"
  then Some [ "Cover"; "Learning Outcomes: rates"; "Body";
              "Learning Outcomes: bonds"; "Body" ]
  else None.

Definition sample_regex : Py.Regex :=
  fun pattern s =>
    if String.eqb pattern "\bLearning\s+Outcomes\b" && Py.contains "Learning Outcomes" s
    then Some ["Learning Outcomes"] else None.

Definition sample_persisted : gmap string (list Models.ReadingInterval) :=
  {[ "vol0" := [ {| Models.ri_reading_id := "1"; Models.ri_reading_title := "Intro";
                    Models.page_start := 1; Models.page_end := 9 |} ] ]}.

Definition sample_intervals : list Models.ReadingInterval :=
  [ {| Models.ri_reading_id := "1"; Models.ri_reading_title := "";
       Models.page_start := 2; Models.page_end := 3 |};
    {| Models.ri_reading_id := "2"; Models.ri_reading_title := "";
       Models.page_start := 4; Models.page_end := 5 |} ].

Example sample_build :
  ReadingMapBuilder.build_reading_map_for_doc sample_regex (fun _ _ => None)
    (fun _ _ => None) sample_manifest sample_pdf (Some sample_persisted) "vol1"
    false "gemini-3-flash-preview" None 15
  = Py.Ok (<["vol1" := sample_intervals]> sample_persisted).
Proof. vm_compute. reflexivity. Qed.

Section ReadingMapClaims.
Import Py Models ReadingMapBuilder ReadingMapFacts.
Variable re_search : Regex.
Variable extract_toc : string -> list (Z * string) -> option TocMapSchema.
Variable confirm_reading_start : string -> string -> option ReadingStartSchema.

(** C3.  When [build_reading_map_for_doc] succeeds, the interval list it
    stores for the document is not empty, each interval starts on a later
    page than the one before, each interval ends on the page before the
    next one starts (so they do not overlap), and the last interval ends on
    the document's last page. *)
Theorem reading_intervals_invariant (manifest : list Document)
    (pdf : string -> option (list string))
    (persisted : option (gmap string (list ReadingInterval)))
    (doc_id : string) (use_llm : bool) (llm_model : string)
    (max_pages : option Z) (toc_pages : Z)
    (data : gmap string (list ReadingInterval)) :
  build_reading_map_for_doc re_search extract_toc confirm_reading_start manifest pdf
    persisted doc_id use_llm llm_model max_pages toc_pages = Ok data ->
  exists doc_entry pages intervals,
    List.find (fun d => String.eqb (ReadingMapBuilder.doc_id d) doc_id) manifest
      = Some doc_entry
    /\ pdf (path doc_entry) = Some pages
    /\ data !! doc_id = Some intervals
    /\ intervals <> []
    /\ (forall (i : nat) a b,
          intervals !! i = Some a -> intervals !! S i = Some b ->
          page_start a < page_start b
          /\ page_end a = page_start b - 1
          /\ page_end a < page_start b)
    /\ (exists l, last intervals = Some l
                  /\ page_end l = Z.of_nat (List.length pages)).
Proof.
  intros H.
  apply build_reading_map_for_doc_ok in H.
  destruct H as (doc_entry & pages & starts & intervals & Hf & Hp & Hi & ->).
  apply intervals_of_ok in Hi. destruct Hi as (Hne & Hch & _).
  apply chained_lookup in Hch. destruct Hch as [Hadj Hlast].
  exists doc_entry, pages, intervals.
  split; [exact Hf|]. split; [exact Hp|].
  split; [unfold merge_into; apply lookup_insert_eq|].
  split; [exact Hne|]. split.
  - intros i a b Ha Hb. destruct (Hadj i a b Ha Hb). lia.
  - destruct (last intervals) as [l|] eqn:El.
    + exists l. split; [reflexivity|]. apply Hlast. reflexivity.
    + apply last_None in El. contradiction.
Qed.

(** C9.  A successful rebuild for one document returns (and writes back)
    the persisted map with the new interval list stored under that
    document's key; every other key has the entry it had before, and a key
    absent before stays absent. *)
Theorem rebuild_keeps_other_documents (manifest : list Document)
    (pdf : string -> option (list string))
    (persisted : option (gmap string (list ReadingInterval)))
    (doc_id : string) (use_llm : bool) (llm_model : string)
    (max_pages : option Z) (toc_pages : Z)
    (data : gmap string (list ReadingInterval)) :
  build_reading_map_for_doc re_search extract_toc confirm_reading_start manifest pdf
    persisted doc_id use_llm llm_model max_pages toc_pages = Ok data ->
  exists n_pages reading_starts intervals,
    intervals_of doc_id n_pages reading_starts = Ok intervals
    /\ data !! doc_id = Some intervals
    /\ (forall other, other <> doc_id ->
          data !! other = default ∅ persisted !! other).
Proof.
  intros H.
  apply build_reading_map_for_doc_ok in H.
  destruct H as (doc_entry & pages & starts & intervals & Hf & Hp & Hi & ->).
  exists (Z.of_nat (List.length pages)), starts, intervals.
  split; [exact Hi|]. unfold merge_into. split.
  - apply lookup_insert_eq.
  - intros other Hne. apply lookup_insert_ne. congruence.
Qed.

End ReadingMapClaims.

Lemma reading_intervals_invariant_witness :
  exists doc_entry pages intervals,
    List.find (fun d => String.eqb (ReadingMapBuilder.doc_id d) "vol1") sample_manifest
      = Some doc_entry
    /\ sample_pdf (ReadingMapBuilder.path doc_entry) = Some pages
    /\ (<["vol1" := sample_intervals]> sample_persisted) !! "vol1" = Some intervals
    /\ intervals <> []
    /\ (forall (i : nat) a b,
          intervals !! i = Some a -> intervals !! S i = Some b ->
          Models.page_start a < Models.page_start b
          /\ Models.page_end a = Models.page_start b - 1
          /\ Models.page_end a < Models.page_start b)
    /\ (exists l, last intervals = Some l
                  /\ Models.page_end l = Z.of_nat (List.length pages)).
Proof.
  exact (reading_intervals_invariant sample_regex (fun _ _ => None) (fun _ _ => None)
           sample_manifest sample_pdf (Some sample_persisted) "vol1" false
           "gemini-3-flash-preview" None 15 _ sample_build).
Defined.

Lemma rebuild_keeps_other_documents_witness :
  exists n_pages reading_starts intervals,
    ReadingMapBuilder.intervals_of "vol1" n_pages reading_starts = Py.Ok intervals
    /\ (<["vol1" := sample_intervals]> sample_persisted) !! "vol1" = Some intervals
    /\ (forall other, other <> "vol1" ->
          (<["vol1" := sample_intervals]> sample_persisted) !! other
          = default ∅ (Some sample_persisted) !! other).
Proof.
  exact (rebuild_keeps_other_documents sample_regex (fun _ _ => None) (fun _ _ => None)
           sample_manifest sample_pdf (Some sample_persisted) "vol1" false
           "gemini-3-flash-preview" None 15 _ sample_build).
Defined.

(** ** The index build: no insert after a bad embedding batch *)

Module IndexFacts.
Import Py IndexStore.

Section WithServices.
Variable embed_content : Z -> string -> list string -> result (list (list Q)).
Variable col_add : EngineCall -> result unit.

(** The documents handed to the embedding service. *)
Definition docs_to_add (jsonl_files : list (list Row)) : list string :=
  snd (fst (snd (collect (List.concat jsonl_files) ∅ ([], [], [])))).

(** The batch at offset [i] fails: the call raises, or one of the
    vectors it returns has a length other than 768. *)
Definition bad_batch (texts : list string) (i : Z) : Prop :=
  match embed_content i "text-embedding-004" (lslice texts i (i + BATCH_SIZE)) with
  | Ok vectors => Exists (fun vals => Z.of_nat (List.length vals) <> DIM) vectors
  | Raise _ => True
  end.

Lemma check_dims_bad vectors embeddings :
  Exists (fun vals => Z.of_nat (List.length vals) <> DIM) vectors ->
  exists e, check_dims vectors embeddings = Raise e.
Proof.
  intros H. revert embeddings.
  induction vectors as [|vals rest IH]; intros embeddings; [inversion H|].
  simpl. destruct (Z.eqb_spec (Z.of_nat (List.length vals)) DIM) as [Heq|Hne];
    simpl; [|eauto].
  apply IH. inversion H; subst; [contradiction|assumption].
Qed.

Lemma embed_batches_bad texts offsets :
  forall embeddings i,
    In i offsets -> bad_batch texts i ->
    exists e, embed_batches embed_content "text-embedding-004" texts offsets
                embeddings = Raise e.
Proof.
  induction offsets as [|j rest IH]; intros embeddings i Hin Hbad; [inversion Hin|].
  simpl.
  destruct (embed_content j "text-embedding-004" (lslice texts j (j + BATCH_SIZE)))
    as [vectors|e] eqn:E; simpl; [|eauto].
  destruct (check_dims vectors embeddings) as [embeddings'|e] eqn:Ec; simpl;
    [|eauto].
  destruct Hin as [->|Hin]; [|eapply IH; eauto].
  unfold bad_batch in Hbad. rewrite E in Hbad.
  destruct (check_dims_bad vectors embeddings Hbad) as [e He]. congruence.
Qed.

Lemma collect_lengths rows :
  forall seen ids docs metas,
    List.length ids = List.length docs ->
    let '(ids', docs', _) := snd (collect rows seen (ids, docs, metas)) in
    List.length ids' = List.length docs'.
Proof.
  induction rows as [|r rows IH]; intros seen ids docs metas H; simpl; [exact H|].
  destruct (decide (chunk_id r ∈ seen)); [apply IH; exact H|].
  apply IH. rewrite !length_app. simpl. lia.
Qed.

End WithServices.

End IndexFacts.

(** One chunk stream of one row, and an embedding service that answers with
    a vector of length two. *)
Definition sample_rows : list (list IndexStore.Row) :=
  [ [ {| IndexStore.chunk_id := "3c636a3efcaef2726a52073f47bd9435584901a7";
         IndexStore.content := "Interest rates";
         IndexStore.doc_id := "vol1"; IndexStore.kind := "official";
         IndexStore.page := 7; IndexStore.reading_id := Some "3";
         IndexStore.no_cut := Some false |} ] ].

Definition short_vectors : Z -> string -> list string -> Py.result (list (list Q)) :=
  fun _ _ batch => Py.Ok (List.map (fun _ => [1%Q; 2%Q]) batch).

Section IndexClaim.
Import Py IndexStore IndexFacts.

(** C5.  If some embedding batch of an index build raises or returns a
    vector whose length is not 768, the build ends by raising and the only
    calls made on the index engine are the initial drop and creation of the
    collection: no insert is issued. *)
Theorem dimension_guard
    (embed_content : Z -> string -> list string -> result (list (list Q)))
    (col_add : EngineCall -> result unit) (jsonl_files : list (list Row)) (i : Z) :
  In i (range_step (Z.of_nat (List.length (docs_to_add jsonl_files))) BATCH_SIZE) ->
  bad_batch embed_content (docs_to_add jsonl_files) i ->
  let out := build_chroma_index embed_content col_add jsonl_files in
  (exists e, snd out = Raise e)
  /\ fst out = [DeleteCollection "cfa_chunks"; CreateCollection "cfa_chunks"]
  /\ Forall (fun call => is_add call = false) (fst out).
Proof.
  intros Hin Hbad. cbn zeta.
  assert (Hmain :
    exists e, build_chroma_index embed_content col_add jsonl_files =
              ([DeleteCollection "cfa_chunks"; CreateCollection "cfa_chunks"], Raise e)).
  { unfold build_chroma_index. unfold docs_to_add in Hin, Hbad.
    pose proof (collect_lengths (List.concat jsonl_files) ∅ [] [] [] eq_refl) as Hlen.
    destruct (snd (collect (List.concat jsonl_files) ∅ ([], [], [])))
      as [[ids docs] metas].
    simpl in Hin, Hbad.
    destruct ids as [|id ids].
    - destruct docs; [|discriminate]. simpl in Hin. contradiction.
    - unfold compute_embeddings_in_batches.
      destruct (embed_batches_bad embed_content docs _ [] i Hin Hbad) as [e He].
      rewrite He. eauto. }
  destruct Hmain as [e He]. rewrite He. simpl.
  split; [eauto|]. split; [reflexivity|].
  repeat constructor.
Qed.

End IndexClaim.

Lemma dimension_guard_witness :
  let out := IndexStore.build_chroma_index short_vectors (fun _ => Py.Ok tt) sample_rows in
  (exists e, snd out = Py.Raise e)
  /\ fst out = [IndexStore.DeleteCollection "cfa_chunks";
                IndexStore.CreateCollection "cfa_chunks"]
  /\ Forall (fun call => IndexStore.is_add call = false) (fst out).
Proof.
  apply (dimension_guard short_vectors (fun _ => Py.Ok tt) sample_rows 0).
  - vm_compute. left. reflexivity.
  - vm_compute. constructor. discriminate.
Defined.

(** ** Retrieval: fallback to the unified index, and the reading's chunks *)

Module RetrievalFacts.
Import Py Models Retrieval.


Section WithEngine.
Variable Collection : Type.
Variable get_collection : string -> string -> result Collection.
Variable list_collections : string -> result (list string).
Variable col_query : Collection -> list Q -> Z -> option string -> result QueryResult.
Variable embed_content : string -> result (list Q).
Variable path_exists : string -> bool.

Let query := chroma_query Collection get_collection col_query embed_content.



End WithEngine.

End RetrievalFacts.

Section FallbackClaim.
Import Py Models Retrieval RetrievalFacts.
Variable Collection : Type.
Variable get_collection : string -> string -> result Collection.
Variable list_collections : string -> result (list string).
Variable col_query : Collection -> list Q -> Z -> option string -> result QueryResult.
Variable embed_content : string -> result (list Q).
Variable path_exists : string -> bool.


End FallbackClaim.

(** A per-document store without collection, a unified store that answers
    every query with one hit of the requested document, and an embedding
    service that returns 768 zeros. *)
Definition sample_get_collection (chroma_dir name : string) : Py.result unit :=
  if String.eqb chroma_dir "index/vol1"
  then Py.Raise (Py.ValueError ("Collection " +:+ name +:+ " does not exist."))
  else Py.Ok tt.

Definition sample_col_query (_ : unit) (_ : list Q) (_ : Z) (where_ : option string)
    : Py.result Retrieval.QueryResult :=
  Py.Ok {| Retrieval.ids := ["3c636a3efcaef2726a52073f47bd9435584901a7"];
           Retrieval.distances := [(1 # 4)%Q];
           Retrieval.metadatas :=
             [ {| IndexStore.m_doc_id := default "vol2" where_;
                  IndexStore.m_kind := "official"; IndexStore.m_page := 7;
                  IndexStore.m_reading_id := "3"; IndexStore.m_no_cut := "False" |} ];
           Retrieval.documents := ["Interest rates"] |}.

Definition sample_embed (_ : string) : Py.result (list Q) :=
  Py.Ok (repeat 0%Q 768).

Definition sample_exists (path : string) : bool := String.eqb path "index/unified".


Example fallback_hits :
  Retrieval.query_with_fallback unit sample_get_collection sample_col_query
    sample_embed sample_exists "vol1" "index/vol1" (Some "index/unified")
    "vol1 3 key concepts"
  = Py.Ok [ {| Models.hit_chunk_id := "3c636a3efcaef2726a52073f47bd9435584901a7";
               Models.hit_doc_id := "vol1"; Models.hit_page := 7;
               Models.hit_score := (1 - (1 # 4))%Q;
               Models.hit_snippet := "Interest rates" |} ].
Proof. reflexivity. Qed.

(** A chunk stream of one chunk, whose reading id is the plain number that
    the reading map builder writes. *)
Definition chunk_of_reading_3 : Models.Chunk :=
  {| Models.chunk_id := "3c636a3efcaef2726a52073f47bd9435584901a7";
     Models.doc_id := "vol1"; Models.kind := "official"; Models.page := 7;
     Models.reading_id := Some "3"; Models.section_path := ["3"];
     Models.content_type := Models.Text; Models.content := "Interest rates";
     Models.span := {| Models.start_char := 0; Models.end_char := 14 |};
     Models.content_hash := "d57c73118fa61d3f8b73afffc616ba6e8ef59f20";
     Models.source_path := Some "vol1.pdf"; Models.no_cut := false;
     Models.bbox := None; Models.page_size := None; Models.block_ids := None;
     Models.image_block_ids := None; Models.image_bboxes := None |}.

Section PacketClaim.
Import Py Models Retrieval RetrievalFacts.

(** Without a backslash followed by a [d] in the reading id, the alias
    set is the stripped id alone, and the reading's chunks are those whose
    stripped, lower-cased reading id is that of the request, in the order
    of the stream. *)
Lemma load_chunks_for_reading_plain chunks_file reading_id :
  search_backslash_ds (strip reading_id) = None ->
  load_chunks_for_reading chunks_file reading_id
  = Ok (List.filter
          (fun r =>
             let rid := lower (strip (default "" (Models.reading_id r))) in
             truthy rid && String.eqb rid (lower (strip reading_id)))
          chunks_file).
Proof.
  intros H. unfold load_chunks_for_reading, _reading_id_aliases. rewrite H.
  simpl bind. rewrite elements_singleton. f_equal.
  apply filter_ext. intros r. cbn zeta. f_equal.
  destruct (String.eqb_spec (lower (strip (default "" (Models.reading_id r))))
              (lower (strip reading_id))) as [Heq|Hne].
  - apply bool_decide_eq_true. rewrite Heq. simpl.
    apply elem_of_union_l, elem_of_singleton. reflexivity.
  - apply bool_decide_eq_false. simpl. intros Hin.
    apply elem_of_union in Hin. destruct Hin as [Hin|Hin].
    + apply elem_of_singleton in Hin. congruence.
    + apply elem_of_empty in Hin. exact Hin.
Qed.

(** C2, on the code.  A request for reading "R3", "Reading 3" or "Learning
Module 3" gets the alias set of that one string: the chunk whose reading
id is "3" is left out of the reading's chunks, and the packet build
raises for want of chunks.  Only the request "3" finds the chunk. *)
Theorem alias_lookup_misses_plain_id :
  _reading_id_aliases "R3" = Ok ["R3"]
  /\ load_chunks_for_reading [chunk_of_reading_3] "R3" = Ok []
  /\ load_chunks_for_reading [chunk_of_reading_3] "Reading 3" = Ok []
  /\ load_chunks_for_reading [chunk_of_reading_3] "Learning Module 3" = Ok []
  /\ load_chunks_for_reading [chunk_of_reading_3] "3" = Ok [chunk_of_reading_3]
  /\ build_evidence_packet unit sample_get_collection (fun _ => Ok [])
       sample_col_query sample_embed sample_exists "20261104T120000" "vol1" "R3"
       (Some [chunk_of_reading_3]) "index/vol1" false (Some "index/unified")
     = Raise (ValueError "No chunks found for reading_id=R3").
Proof.
  repeat split; vm_compute; reflexivity.
Qed.

End PacketClaim.

(** * Further properties of the code *)

(** ** More on strings: stripping *)

Module StripFacts.
Import Py PyFacts.




Lemma truthy_spec s : truthy s = true <-> s <> EmptyString.
Proof.
  unfold truthy. destruct (String.eqb_spec s ""); simpl; split; congruence.
Qed.

End StripFacts.

(** ** The heuristic strategy: spans and contents of the chunks *)

Module HeuristicSpans.
Import Py PyFacts StripFacts Models Chunker HeuristicFacts.

(** The spans lie between [lo] and [hi], one after the other, none empty. *)
Fixpoint spans_from (lo hi : Z) (chunks : list Chunk) : Prop :=
  match chunks with
  | [] => True
  | c :: rest =>
      lo <= start_char (span c) /\ start_char (span c) < end_char (span c)
      /\ end_char (span c) <= hi /\ spans_from (end_char (span c)) hi rest
  end.

Lemma spans_from_weaken lo lo' hi chunks :
  lo' <= lo -> spans_from lo hi chunks -> spans_from lo' hi chunks.
Proof. destruct chunks; simpl; [auto|]. intros H (A & B & C & D). repeat split; auto; lia. Qed.

Lemma window_end_le_target text target start :
  0 <= start <= len text -> 0 <= target ->
  window_end text target start - start <= target.
Proof.
  intros Hs Ht. unfold window_end.
  set (end_ := Z.min (len text) (start + target)).
  pose proof (window_cut_le (slice text start end_)) as Hc.
  rewrite len_slice in Hc by lia.
  destruct (Z.ltb_spec 500 (window_cut (slice text start end_))); lia.
Qed.

Section Loop.
Variable re_search : Regex.
Variables (doc_id kind source_path : string) (page_num : Z).
Variables (reading_id : option string) (target min_chars : Z) (text : string).

Lemma chunk_loop_spans_from fuel :
  1 <= target ->
  forall start chunks,
    0 <= start ->
    chunk_loop re_search fuel doc_id kind source_path page_num reading_id target
      min_chars text start = Some chunks ->
    spans_from start (len text) chunks.
Proof.
  intros Ht. induction fuel as [|fuel IH]; intros start chunks Hs H.
  - simpl in H. destruct (start <? len text); [discriminate|].
    injection H as <-. exact I.
  - destruct (Z.lt_ge_cases start (len text)) as [Hlt|Hge].
    + rewrite chunk_loop_step in H by lia.
      pose proof (window_end_bounds text target start Ht ltac:(lia)) as Hw.
      destruct (chunk_loop re_search fuel _ _ _ _ _ _ _ _ (window_end text target start))
        as [rest|] eqn:Hr; [|discriminate].
      simpl in H. injection H as <-.
      apply IH in Hr; [|lia].
      unfold chunk_at.
      destruct (_ <? min_chars); [simpl; eapply spans_from_weaken; [|exact Hr]; lia|].
      destruct (negb _); [simpl; eapply spans_from_weaken; [|exact Hr]; lia|].
      simpl. repeat split; try lia. exact Hr.
    + rewrite chunk_loop_done in H by lia. injection H as <-. exact I.
Qed.

End Loop.

(** What [chunk_at] puts into a chunk. *)
Lemma chunk_at_fields re_search doc_id kind source_path page_num reading_id
    min_chars text start end_ :
  Forall
    (fun c =>
       span c = {| start_char := start; end_char := end_ |}
       /\ content c = strip (slice text start end_)
       /\ min_chars <= len (content c)
       /\ content c <> EmptyString
       /\ content_hash c = _sha1 (content c)
       /\ chunk_id c = _stable_chunk_id doc_id page_num start end_ (content_hash c)
       /\ Models.doc_id c = doc_id /\ Models.kind c = kind /\ page c = page_num
       /\ Models.reading_id c = reading_id
       /\ Models.source_path c = Some source_path)
    (chunk_at re_search doc_id kind source_path page_num reading_id min_chars text
       start end_).
Proof.
  unfold chunk_at.
  destruct (Z.ltb_spec (len (strip (slice text start end_))) min_chars);
    [constructor|].
  destruct (truthy (strip (slice text start end_))) eqn:Et; simpl; [|constructor].
  constructor; [|constructor]. simpl.
  apply truthy_spec in Et. repeat split; auto.
Qed.

End HeuristicSpans.

Section HeuristicExtras.
Import Py PyFacts StripFacts Models Chunker HeuristicFacts HeuristicSpans.

Lemma spans_from_Forall lo hi chunks :
  spans_from lo hi chunks ->
  Forall (fun c => lo <= start_char (span c) /\ start_char (span c) < end_char (span c)
                   /\ end_char (span c) <= hi) chunks.
Proof.
  revert lo; induction chunks as [|c rest IH]; intros lo H; [constructor|].
  destruct H as (A & B & C & D). constructor; [auto|].
  eapply Forall_impl; [apply (IH _ D)|]. simpl. intros c' (A' & B' & C'). lia.
Qed.

Lemma heuristic_span_bounds (re_search : Regex) (fuel : nat)
    (doc_id kind source_path : string) (page_num : Z) (page_text : string)
    (reading_id : option string) (target min_chars : Z) (chunks : list Chunk) :
  1 <= target ->
  _page_to_chunks re_search fuel doc_id kind source_path page_num page_text
    reading_id target min_chars = Some chunks ->
  Forall (fun c => 0 <= start_char (span c) /\ start_char (span c) < end_char (span c)
                   /\ end_char (span c) <= len (strip page_text)
                   /\ end_char (span c) - start_char (span c) <= target) chunks.
Proof.
  intros Ht H. unfold _page_to_chunks in H.
  destruct (negb (truthy (strip page_text))).
  { injection H as <-. constructor. }
  pose proof (chunk_loop_spans_from _ _ _ _ _ _ _ _ _ fuel Ht 0 chunks ltac:(lia) H)
    as Hsp.
  pose proof (chunk_loop_spans _ _ _ _ _ _ _ _ _ fuel 0 chunks H) as Hend.
  apply spans_from_Forall in Hsp.
  rewrite Forall_forall in Hsp, Hend. apply Forall_forall. intros c Hc.
  destruct (Hsp c Hc) as (A & B & C). repeat split; try lia.
  rewrite (Hend c Hc). apply window_end_le_target; lia.
Qed.



End HeuristicExtras.





(** ** The assisted strategy: shape of the chunks, calls of the classifier *)

Module AssistedShape.
Import Py PyFacts StripFacts Models Chunker AssistedFacts.

Lemma filter_in_range {A} (l : list A) ids :
  Forall (fun i => 0 <= i < Z.of_nat (List.length l)) (List.filter (in_range l) ids).
Proof.
  apply Forall_forall. intros i Hi. apply list_elem_of_In, filter_In in Hi.
  destruct Hi as [_ Hi]. unfold in_range in Hi.
  apply andb_true_iff in Hi. destruct Hi as [H1 H2].
  apply Z.leb_le in H1. apply Z.ltb_lt in H2. lia.
Qed.

(** The fields of a chunk built from a proposal. *)
Lemma chunk_of_spec_shape doc_id kind source_path page_num page_size reading_id
    min_chars text_blocks image_blocks spec c :
  chunk_of_spec doc_id kind source_path page_num page_size reading_id min_chars
    text_blocks image_blocks spec = Some c ->
  (exists ids image_ids,
     block_ids c = Some ids /\ ids <> []
     /\ Forall (fun i => 0 <= i < Z.of_nat (List.length text_blocks)) ids
     /\ image_block_ids c = Some image_ids
     /\ Forall (fun i => 0 <= i < Z.of_nat (List.length image_blocks)) image_ids)
  /\ span c = {| start_char := 0; end_char := len (content c) |}
  /\ content c <> EmptyString
  /\ min_chars <= len (content c)
  /\ Models.doc_id c = doc_id /\ Models.kind c = kind /\ page c = page_num
  /\ Models.reading_id c = reading_id
  /\ Models.source_path c = Some source_path.
Proof.
  unfold chunk_of_spec. cbn zeta.
  pose proof (filter_in_range text_blocks (spec_block_ids spec)) as Hids.
  pose proof (filter_in_range image_blocks (spec_image_block_ids spec)) as Himg.
  destruct (List.filter (in_range text_blocks) (spec_block_ids spec)) as [|i ids] eqn:E;
    [discriminate|].
  set (content := strip _).
  destruct (truthy content) eqn:Et; simpl; [|discriminate].
  destruct (Z.ltb_spec (len content) min_chars) as [Hlt|Hge]; [discriminate|].
  intros Hc; injection Hc as <-. simpl.
  apply truthy_spec in Et.
  split; [|repeat split; auto].
  eexists _, _. split; [reflexivity|]. split; [discriminate|].
  split; [exact Hids|]. split; [reflexivity|exact Himg].
Qed.


End AssistedShape.

Section AssistedExtras.
Import Py PyFacts StripFacts Models Chunker AssistedFacts AssistedShape.


End AssistedExtras.

(** ** The union of bounding boxes *)

Section BBoxExtras.
Import Models Chunker.

Definition encloses (outer inner : BBox) : Prop :=
  let '(x0, y0, x1, y1) := outer in
  let '(u0, v0, u1, v1) := inner in
  (x0 <= u0 /\ y0 <= v0 /\ u1 <= x1 /\ v1 <= y1)%Q.

Definition bbox_join (acc b' : BBox) : BBox :=
  let '(x0, y0, x1, y1) := acc in
  let '(u0, v0, u1, v1) := b' in
  (Qmin x0 u0, Qmin y0 v0, Qmax x1 u1, Qmax y1 v1).

Lemma encloses_refl b : encloses b b.
Proof. destruct b as [[[x0 y0] x1] y1]. simpl. repeat split; apply Qle_refl. Qed.

Lemma encloses_trans a b c : encloses a b -> encloses b c -> encloses a c.
Proof.
  destruct a as [[[a0 a1] a2] a3], b as [[[b0 b1] b2] b3], c as [[[c0 c1] c2] c3].
  simpl. intros (A & B & C & D) (A' & B' & C' & D').
  repeat split; eapply Qle_trans; eauto.
Qed.

Lemma bbox_join_l a b : encloses (bbox_join a b) a.
Proof.
  destruct a as [[[a0 a1] a2] a3], b as [[[b0 b1] b2] b3]. simpl.
  repeat split; auto using Q.le_min_l, Q.le_max_l.
Qed.

Lemma bbox_join_r a b : encloses (bbox_join a b) b.
Proof.
  destruct a as [[[a0 a1] a2] a3], b as [[[b0 b1] b2] b3]. simpl.
  repeat split; auto using Q.le_min_r, Q.le_max_r.
Qed.

Lemma fold_join_encloses rest :
  forall acc,
    encloses (fold_left bbox_join rest acc) acc
    /\ Forall (encloses (fold_left bbox_join rest acc)) rest.
Proof.
  induction rest as [|b rest IH]; intros acc; simpl.
  - split; [apply encloses_refl|constructor].
  - destruct (IH (bbox_join acc b)) as [H1 H2]. split.
    + eapply encloses_trans; [exact H1|apply bbox_join_l].
    + constructor; [|exact H2].
      eapply encloses_trans; [exact H1|apply bbox_join_r].
Qed.

(** X4.  [_compute_bbox_union] gives no box exactly for the empty list, and
    otherwise a box that encloses every box of the list. *)
Theorem bbox_union_encloses (bboxes : list BBox) :
  (_compute_bbox_union bboxes = None <-> bboxes = [])
  /\ (forall u, _compute_bbox_union bboxes = Some u -> Forall (encloses u) bboxes).
Proof.
  destruct bboxes as [|b rest]; simpl.
  - split; [split; reflexivity|intros u H; discriminate].
  - split; [split; discriminate|].
    intros u H. injection H as <-.
    change (fold_left _ rest b) with (fold_left bbox_join rest b).
    destruct (fold_join_encloses rest b) as [H1 H2].
    constructor; assumption.
Qed.

End BBoxExtras.

(** ** A page's processing: calls of the classifier, and what every chunk
       of the document stream carries *)

Module StreamFacts.
Import Py PyFacts StripFacts Models Chunker HeuristicFacts HeuristicSpans
       AssistedFacts AssistedShape ProcessFacts.

Lemma attempt_calls_cases client cfg doc_id kind pdf_path payload model :
  fst (attempt client cfg doc_id kind pdf_path payload model) = []
  \/ fst (attempt client cfg doc_id kind pdf_path payload model) = [model].
Proof.
  unfold attempt, _page_to_chunks_llm.
  destruct (text_blocks_of (page_dict payload)),
           (image_blocks_of (page_dict payload)); simpl; auto;
    match goal with
    | |- context [client model ?p] => destruct (client model p)
    end; simpl; auto.
Qed.

(** The models the classifier was called with, in order. *)
Definition classify_calls (events : list Event) : list string :=
  flat_map (fun e => match e with Classify m => [m] | WarnFallback _ _ => [] end)
    events.

Lemma classify_calls_app e1 e2 :
  classify_calls (e1 ++ e2) = classify_calls e1 ++ classify_calls e2.
Proof. unfold classify_calls. apply flat_map_app. Qed.

Lemma classify_calls_map ms : classify_calls (List.map Classify ms) = ms.
Proof. induction ms as [|m ms IH]; simpl; congruence. Qed.

(** What the chunks of one page carry, whichever strategy made them. *)
Definition of_page (cfg : Config) (doc_id kind pdf_path : string)
    (payload : Payload) (c : Chunk) : Prop :=
  page c = page_num payload /\ Models.doc_id c = doc_id /\ Models.kind c = kind
  /\ Models.reading_id c = pl_reading_id payload
  /\ Models.source_path c = Some pdf_path
  /\ content c <> EmptyString
  /\ min_chunk_chars cfg <= len (content c).

Section Page.
Variable re_search : Regex.
Variables (fuel : nat) (client : Classifier) (cfg : Config).
Variables (doc_id kind pdf_path : string).

Lemma attempt_of_page payload model :
  Forall (of_page cfg doc_id kind pdf_path payload)
    (snd (attempt client cfg doc_id kind pdf_path payload model)).
Proof.
  unfold attempt. apply _page_to_chunks_llm_Forall. intros parsed spec c _ _ Hc.
  apply chunk_of_spec_shape in Hc.
  destruct Hc as (_ & _ & A & B & C & D & E & F & G).
  unfold of_page. auto 10.
Qed.

Lemma heuristic_of_page payload chunks :
  heuristic re_search fuel cfg doc_id kind pdf_path payload = Some chunks ->
  Forall (of_page cfg doc_id kind pdf_path payload) chunks.
Proof.
  unfold heuristic, _page_to_chunks.
  destruct (negb (truthy (strip (pl_text payload)))).
  { intros H; injection H as <-. constructor. }
  apply chunk_loop_Forall. intros start end_.
  eapply Forall_impl; [apply chunk_at_fields|]. simpl.
  intros c (_ & _ & A & B & _ & _ & C & D & E & F & G).
  unfold of_page. auto 10.
Qed.

Lemma _process_page_of_page payload page_chunks :
  snd (_process_page re_search fuel client cfg doc_id kind pdf_path payload)
    = Some page_chunks ->
  Forall (of_page cfg doc_id kind pdf_path payload) page_chunks.
Proof.
  intros H. apply _process_page_source in H.
  destruct H as [[model ->]|H].
  - apply attempt_of_page.
  - eapply heuristic_of_page. exact H.
Qed.

(** Offsets of spans are not negative. *)
Lemma _process_page_spans payload page_chunks :
  1 <= target_chunk_chars cfg ->
  snd (_process_page re_search fuel client cfg doc_id kind pdf_path payload)
    = Some page_chunks ->
  Forall (fun c => 0 <= start_char (span c) /\ 0 <= end_char (span c)) page_chunks.
Proof.
  intros Ht H. apply _process_page_source in H.
  destruct H as [[model ->]|H].
  - unfold attempt. apply _page_to_chunks_llm_Forall. intros parsed spec c _ _ Hc.
    apply chunk_of_spec_shape in Hc. destruct Hc as (_ & -> & _). simpl.
    pose proof (len_nonneg (content c)). lia.
  - unfold heuristic in H.
    eapply Forall_impl; [eapply heuristic_span_bounds; eassumption|].
    simpl. intros c (A & B & _). lia.
Qed.

(** The stream written for payloads numbered from [k + 1] on. *)
Lemma write_pages_stream (P : Payload -> Chunk -> Prop) :
  (forall payload page_chunks,
     snd (_process_page re_search fuel client cfg doc_id kind pdf_path payload)
       = Some page_chunks -> Forall (P payload) page_chunks) ->
  forall payloads stream,
    write_pages re_search fuel client cfg doc_id kind pdf_path payloads = Some stream ->
    Forall (fun c => exists payload, In payload payloads /\ P payload c) stream.
Proof.
  intros HP. induction payloads as [|payload rest IH]; intros stream H.
  - injection H as <-. constructor.
  - simpl in H.
    destruct (snd (_process_page _ _ _ _ _ _ _ payload)) as [pc|] eqn:Ep;
      [|discriminate].
    destruct (write_pages _ _ _ _ _ _ _ rest) as [more|]; [|discriminate].
    injection H as <-. apply Forall_app. split.
    + eapply Forall_impl; [apply (HP _ _ Ep)|]. simpl. intros c Hc.
      exists payload. split; [left; reflexivity|exact Hc].
    + eapply Forall_impl; [apply IH; reflexivity|]. simpl.
      intros c (p & Hin & Hc). exists p. split; [right; exact Hin|exact Hc].
Qed.

Lemma sorted_pages_app (p : Z) (pc more : list Chunk) :
  Forall (fun c => page c = p) pc ->
  Forall (fun c => p <= page c) more ->
  StronglySorted Z.le (List.map page more) ->
  StronglySorted Z.le (List.map page (pc ++ more)).
Proof.
  intros Hpc Hmore Hs. induction Hpc as [|c pc Hc Hpc IH]; simpl; [exact Hs|].
  constructor; [exact IH|].
  rewrite List.map_app. apply Forall_app. split.
  - apply Forall_forall. intros z Hz. apply list_elem_of_In, in_map_iff in Hz.
    destruct Hz as (c' & <- & Hin).
    rewrite Forall_forall in Hpc. apply list_elem_of_In in Hin.
    rewrite (Hpc _ Hin). lia.
  - apply Forall_forall. intros z Hz. apply list_elem_of_In, in_map_iff in Hz.
    destruct Hz as (c' & <- & Hin).
    rewrite Forall_forall in Hmore. apply list_elem_of_In in Hin.
    specialize (Hmore _ Hin). simpl in Hmore. lia.
Qed.

Lemma write_pages_order (f : nat -> PdfPage -> Payload) :
  forall pages (k : nat) stream,
    (forall i pg, page_num (f i pg) = Z.of_nat (k + i) + 1) ->
    write_pages re_search fuel client cfg doc_id kind pdf_path (imap f pages)
      = Some stream ->
    Forall (fun c => Z.of_nat k + 1 <= page c <= Z.of_nat (k + List.length pages)) stream
    /\ StronglySorted Z.le (List.map page stream).
Proof.
  intros pages. revert f.
  induction pages as [|pg rest IH]; intros f k stream Hf H.
  - injection H as <-. split; constructor.
  - rewrite imap_cons in H. simpl in H.
    destruct (snd (_process_page _ _ _ _ _ _ _ (f 0%nat pg))) as [pc|] eqn:Ep;
      [|discriminate].
    destruct (write_pages _ _ _ _ _ _ _ (imap (f ∘ S) rest)) as [more|] eqn:Em;
      [|discriminate].
    injection H as <-.
    destruct (IH (f ∘ S) (S k) more) as [Hb Hs].
    { intros i pg'. simpl. rewrite Hf. lia. }
    { exact Em. }
    apply _process_page_of_page in Ep.
    assert (Hpc : Forall (fun c => page c = Z.of_nat k + 1) pc).
    { eapply Forall_impl; [exact Ep|]. simpl. intros c (A & _).
      rewrite A, Hf. lia. }
    split.
    + apply Forall_app. split.
      * eapply Forall_impl; [exact Hpc|]. simpl. intros c Hc. simpl. lia.
      * eapply Forall_impl; [exact Hb|]. simpl. intros c Hc. simpl. lia.
    + apply sorted_pages_app with (p := Z.of_nat k + 1); auto.
      eapply Forall_impl; [exact Hb|]. simpl. intros c Hc. lia.
Qed.

End Page.

End StreamFacts.

Section ProcessExtras.
Import Py PyFacts StripFacts Models Chunker HeuristicFacts HeuristicSpans
       AssistedFacts AssistedShape ProcessFacts StreamFacts.

(** X5.  The processing of a page calls the classifier at most twice, first
    with the profile chosen for the page and then, if at all, with the base
    profile; it does not call it when the assisted strategy is not requested
    for the page, and then the chunks are those of the heuristic strategy. *)
Theorem classifier_called_at_most_twice (re_search : Regex) (fuel : nat)
    (client : Classifier) (cfg : Config) (doc_id kind pdf_path : string)
    (payload : Payload) :
  let out := _process_page re_search fuel client cfg doc_id kind pdf_path payload in
  let calls := classify_calls (fst out) in
  (calls = [] \/ calls = [first_model cfg payload] \/ calls = [llm_model cfg]
   \/ calls = [first_model cfg payload; llm_model cfg])
  /\ (requested cfg payload = false ->
      fst out = []
      /\ snd out = heuristic re_search fuel cfg doc_id kind pdf_path payload).
Proof.
  cbn zeta. rewrite _process_page_cases.
  destruct (requested cfg payload) eqn:Hreq.
  - split; [|discriminate].
    pose proof (attempt_calls_cases client cfg doc_id kind pdf_path payload
                  (first_model cfg payload)) as H1.
    pose proof (attempt_calls_cases client cfg doc_id kind pdf_path payload
                  (llm_model cfg)) as H2.
    destruct (attempt client cfg doc_id kind pdf_path payload (first_model cfg payload))
      as [calls1 chunks1]. simpl in H1.
    destruct chunks1 as [|c1 chunks1].
    + destruct (has_blocks payload && _).
      * destruct (attempt client cfg doc_id kind pdf_path payload (llm_model cfg))
          as [calls2 chunks2]. simpl in H2.
        destruct chunks2; simpl; rewrite classify_calls_app; simpl;
          rewrite !classify_calls_map;
          destruct H1 as [->| ->], H2 as [->| ->]; simpl; auto.
      * simpl. rewrite classify_calls_map. destruct H1 as [->| ->]; auto.
    + simpl. rewrite classify_calls_map. destruct H1 as [->| ->]; auto.
  - split; [left; reflexivity|]. intros _. split; reflexivity.
Qed.


End ProcessExtras.

Section SchemaExtras.
Import Py PyFacts StripFacts Models Chunker HeuristicFacts HeuristicSpans
       AssistedFacts AssistedShape ProcessFacts StreamFacts Schema.

(** X7.  When the kind is one of the two the schema allows and the target
    window has at least one character, every chunk of the stream written
    for a document satisfies the field constraints of [Chunk] and [Span]:
    the validation in the write loop does not reject a chunk. *)
Theorem stream_passes_schema (re_search : Regex) (fuel : nat) (client : Classifier)
    (cfg : Config) (pdf_path : string) (pages : list PdfPage) (doc_id kind : string)
    (reading_map : gmap string (list ReadingInterval)) (stream : list Chunk) :
  kind = "official" \/ kind = "schweser" ->
  1 <= target_chunk_chars cfg ->
  build_chunks_for_doc re_search fuel client cfg pdf_path pages doc_id kind reading_map
    = Some stream ->
  Forall (fun c => Chunk_valid c = true) stream.
Proof.
  intros Hk Ht H. unfold build_chunks_for_doc in H.
  destruct (write_pages_order re_search fuel client cfg doc_id kind pdf_path
              (payload_of re_search reading_map doc_id) pages 0 stream) as [Hb _];
    [intros i pg; reflexivity|exact H|].
  pose proof (write_pages_stream re_search fuel client cfg doc_id kind pdf_path
                (fun _ c => Models.kind c = kind
                            /\ 0 <= start_char (span c) /\ 0 <= end_char (span c)))
    as Hf.
  specialize (Hf ltac:(
    intros payload pc Hpc;
    pose proof (_process_page_of_page _ _ _ _ _ _ _ _ _ Hpc) as H1;
    pose proof (_process_page_spans _ _ _ _ _ _ _ _ _ Ht Hpc) as H2;
    rewrite Forall_forall in H1, H2; apply Forall_forall; intros c Hc;
    destruct (H1 c Hc) as (_ & _ & A & _); destruct (H2 c Hc); auto) _ _ H).
  rewrite Forall_forall in Hb, Hf. apply Forall_forall. intros c Hc.
  specialize (Hb c Hc). destruct (Hf c Hc) as (_ & _ & Hkind & Hs & He).
  simpl in Hb. unfold Chunk_valid, Span_valid. rewrite Hkind.
  apply andb_true_iff. split; [apply andb_true_iff; split|].
  - destruct Hk as [-> | ->]; reflexivity.
  - apply Z.leb_le. lia.
  - apply andb_true_iff. split; apply Z.leb_le; lia.
Qed.

End SchemaExtras.

(** A document of two pages: a cover without blocks and the sample page. *)
Definition sample_pdf_pages : list Chunker.PdfPage :=
  [ {| Chunker.pg_text := "Cover"; Chunker.pg_dict := []; Chunker.pg_size := [];
       Chunker.pg_drawings := 0; Chunker.pg_images := 0 |};
    {| Chunker.pg_text := sample_page; Chunker.pg_dict := two_blocks;
       Chunker.pg_size := []; Chunker.pg_drawings := 0; Chunker.pg_images := 0 |} ].

Definition sample_stream : list Models.Chunk :=
  Eval vm_compute in
    default []
      (Chunker.build_chunks_for_doc no_regex 600 failing Chunker.default_config
         "vol1.pdf" sample_pdf_pages "vol1" "official" {[ "vol1" := sample_intervals ]}).

Example sample_stream_run :
  Chunker.build_chunks_for_doc no_regex 600 failing Chunker.default_config
    "vol1.pdf" sample_pdf_pages "vol1" "official" {[ "vol1" := sample_intervals ]}
  = Some sample_stream.
Proof. vm_compute. reflexivity. Qed.

Example sample_stream_pages :
  List.map (fun c => (Models.page c, Models.reading_id c)) sample_stream
  = [(2, Some "1")].
Proof. reflexivity. Qed.


Lemma stream_passes_schema_witness :
  Forall (fun c => Schema.Chunk_valid c = true) sample_stream.
Proof.
  exact (stream_passes_schema no_regex 600 failing Chunker.default_config
           "vol1.pdf" sample_pdf_pages "vol1" "official"
           {[ "vol1" := sample_intervals ]} sample_stream
           (or_introl eq_refl) ltac:(simpl; lia) sample_stream_run).
Defined.

(** ** The reading id of a page *)

Module FindReadingFacts.
Import Py Models Chunker ReadingMapFacts.

Definition holds (p : Z) (it : ReadingInterval) : bool :=
  (page_start it <=? p) && (p <=? page_end it).

Lemma holds_spec p it : holds p it = true <-> page_start it <= p <= page_end it.
Proof.
  unfold holds. rewrite andb_true_iff, Z.leb_le, Z.leb_le. reflexivity.
Qed.

(** In a chained list every later interval starts after the first one ends,
    and after it starts. *)
Lemma chained_later n a rest :
  chained n (a :: rest) ->
  Forall (fun b => page_end a < page_start b /\ page_start a < page_start b) rest.
Proof.
  revert a. induction rest as [|b rest IH]; intros a H; [constructor|].
  destruct H as [[H1 H2] H3]. constructor; [lia|].
  eapply Forall_impl; [apply (IH b H3)|]. simpl. intros c [Hc1 Hc2]. lia.
Qed.

Lemma chained_tail n a rest : chained n (a :: rest) -> chained n rest.
Proof. intros [_ H]. exact H. Qed.

Lemma find_holds n p ivs iv :
  chained n ivs -> In iv ivs -> page_start iv <= p <= page_end iv ->
  List.find (holds p) ivs = Some iv.
Proof.
  induction ivs as [|a rest IH]; intros Hch Hin Hp; [inversion Hin|].
  simpl. destruct (holds p a) eqn:Ha.
  - destruct Hin as [->|Hin]; [reflexivity|].
    apply holds_spec in Ha.
    pose proof (chained_later n a rest Hch) as Hl.
    rewrite Forall_forall in Hl. apply list_elem_of_In in Hin.
    specialize (Hl iv Hin). simpl in Hl. lia.
  - destruct Hin as [->|Hin].
    + apply holds_spec in Hp. congruence.
    + apply IH; auto. eapply chained_tail; eauto.
Qed.

Lemma find_before n p a rest :
  chained n (a :: rest) -> p < page_start a -> List.find (holds p) (a :: rest) = None.
Proof.
  intros Hch Hp.
  assert (Hall : Forall (fun b => holds p b = false) (a :: rest)).
  { pose proof (chained_later n a rest Hch) as Hl.
    constructor.
    - destruct (holds p a) eqn:E; [apply holds_spec in E; lia|reflexivity].
    - eapply Forall_impl; [exact Hl|]. simpl. intros b [_ Hb].
      destruct (holds p b) eqn:E; [apply holds_spec in E; lia|reflexivity]. }
  clear Hch Hp. induction Hall as [|b l Hb Hall IH]; simpl; [reflexivity|].
  rewrite Hb. exact IH.
Qed.

Lemma chained_covers n p ivs :
  forall a rest, ivs = a :: rest -> chained n ivs -> page_start a <= p <= n ->
  exists iv, In iv ivs /\ page_start iv <= p <= page_end iv.
Proof.
  induction ivs as [|x ivs IH]; intros a rest E Hch Hp; [discriminate|].
  injection E as -> ->.
  destruct rest as [|b rest].
  - destruct Hch as [He _]. exists a. split; [left; reflexivity|lia].
  - destruct (Z.le_gt_cases p (page_end a)) as [Hle|Hgt].
    + exists a. split; [left; reflexivity|lia].
    + destruct Hch as [[H1 H2] H3].
      destruct (IH b rest eq_refl H3 ltac:(lia)) as (iv & Hin & Hiv).
      exists iv. split; [right; exact Hin|exact Hiv].
Qed.

End FindReadingFacts.

Section FindReadingExtras.
Import Py Models Chunker ReadingMapFacts FindReadingFacts.

(** X8.  On a reading map whose intervals for the document are chained (as
    the reading map builder leaves them), a page that lies in an interval
    gets the reading id of that interval; every page from the first start
    page to the last page lies in an interval; a page before the first
    start page, or a document absent from the map, gets no reading id. *)
Theorem reading_id_of_page (reading_map : gmap string (list ReadingInterval))
    (doc_id : string) (n_pages p : Z) (first : ReadingInterval)
    (rest : list ReadingInterval) :
  reading_map !! doc_id = Some (first :: rest) ->
  chained n_pages (first :: rest) ->
  (forall iv, In iv (first :: rest) -> page_start iv <= p <= page_end iv ->
     _find_reading_id reading_map doc_id p = Some (ri_reading_id iv))
  /\ (page_start first <= p <= n_pages ->
      exists iv, In iv (first :: rest) /\ page_start iv <= p <= page_end iv
                 /\ _find_reading_id reading_map doc_id p = Some (ri_reading_id iv))
  /\ (p < page_start first -> _find_reading_id reading_map doc_id p = None)
  /\ (forall other, reading_map !! other = None ->
        _find_reading_id reading_map other p = None).
Proof.
  intros Hmap Hch.
  assert (Hin : forall iv, In iv (first :: rest) -> page_start iv <= p <= page_end iv ->
                 _find_reading_id reading_map doc_id p = Some (ri_reading_id iv)).
  { intros iv Hiv Hp. unfold _find_reading_id. rewrite Hmap. simpl default.
    change (fun it => (page_start it <=? p) && (p <=? page_end it)) with (holds p).
    rewrite (find_holds n_pages p _ iv Hch Hiv Hp). reflexivity. }
  split; [exact Hin|]. split; [|split].
  - intros Hp.
    destruct (chained_covers n_pages p _ first rest eq_refl Hch Hp) as (iv & Hiv & Hr).
    exists iv. auto.
  - intros Hp. unfold _find_reading_id. rewrite Hmap. simpl default.
    change (fun it => (page_start it <=? p) && (p <=? page_end it)) with (holds p).
    rewrite (find_before n_pages p first rest Hch Hp). reflexivity.
  - intros other Ho. unfold _find_reading_id. rewrite Ho. reflexivity.
Qed.

End FindReadingExtras.

Lemma reading_id_of_page_witness :
  exists iv, In iv sample_intervals
             /\ Models.page_start iv <= 3 <= Models.page_end iv
             /\ Chunker._find_reading_id {[ "vol1" := sample_intervals ]} "vol1" 3
                = Some (Models.ri_reading_id iv).
Proof.
  refine (proj1 (proj2 (reading_id_of_page {[ "vol1" := sample_intervals ]} "vol1" 5 3
                          _ _ _ _)) _).
  - reflexivity.
  - simpl. lia.
  - simpl. lia.
Defined.

(** ** The reading map: intervals inside the document, and rebuilds *)

Module ReadingMapMore.
Import Py Models ReadingMapBuilder ReadingMapFacts.

Lemma keep_paged_Forall n_pages (l : list (string * string * option Z)) :
  Forall (fun r => match snd r with
                   | Some p => 1 <= p <= n_pages
                   | None => True
                   end) l ->
  Forall (fun r => 1 <= start_page r <= n_pages) (flat_map keep_paged l).
Proof.
  induction 1 as [|[[rid title] [p|]] l Hr Hl IH]; simpl; auto.
  destruct (p =? 0); simpl; auto.
Qed.

Lemma insert_by_start_Forall (P : ReadingStart -> Prop) r l :
  P r -> Forall P l -> Forall P (insert_by_start r l).
Proof.
  intros Hr Hl. induction Hl as [|x l Hx Hl IH]; simpl; [auto|].
  destruct (start_page x <? start_page r); auto.
Qed.

Lemma sorted_by_start_Forall (P : ReadingStart -> Prop) l :
  Forall P l -> Forall P (sorted_by_start l).
Proof.
  induction 1 as [|x l Hx Hl IH]; simpl; [constructor|].
  apply insert_by_start_Forall; assumption.
Qed.

Lemma clean_Forall (P : ReadingStart -> Prop) l :
  Forall P l -> forall last, Forall P (clean last l).
Proof.
  induction 1 as [|x l Hx Hl IH]; intros last; simpl; [constructor|].
  destruct (start_page x <=? last); auto.
Qed.

Lemma dedup_Forall (P : ReadingStart -> Prop) l :
  Forall P l -> Forall P (List.map snd (dedup l)).
Proof.
  unfold dedup. intros Hl.
  assert (Hgen : forall acc : list (string * ReadingStart),
             Forall P (List.map snd acc) ->
             Forall P (List.map snd
               (fold_left
                  (fun d r =>
                     if existsb (String.eqb (dedup_key r)) (List.map fst d) then d
                     else d ++ [(dedup_key r, r)]) l acc))).
  { induction Hl as [|x l Hx Hl IH]; intros acc Hacc; simpl; [exact Hacc|].
    apply IH. destruct (existsb _ _); [exact Hacc|].
    rewrite List.map_app. apply Forall_app. split; [exact Hacc|].
    simpl. auto. }
  apply Hgen. constructor.
Qed.

(** With start pages above [bound] and not beyond [n_pages], every closed
    interval starts above [bound], ends no earlier than it starts, and ends
    no later than [n_pages]. *)
Lemma close_intervals_inside n_pages l :
  forall bound,
    above bound l -> Forall (fun r => start_page r <= n_pages) l ->
    Forall (fun a => bound < page_start a /\ page_start a <= page_end a
                     /\ page_end a <= n_pages)
      (close_intervals n_pages l).
Proof.
  induction l as [|r l IH]; intros bound Ha Hn; simpl; [constructor|].
  destruct Ha as [Hb Ha]. inversion Hn as [|? ? Hr Hl]; subst.
  constructor.
  - simpl. destruct l as [|r' l']; [lia|].
    destruct Ha as [Hr' _]. inversion Hl; subst. lia.
  - eapply Forall_impl; [apply (IH _ Ha Hl)|]. simpl. intros a Ha'. lia.
Qed.

Section WithCollaborators.
Variable re_search : Regex.
Variable extract_toc : string -> list (Z * string) -> option TocMapSchema.
Variable confirm_reading_start : string -> string -> option ReadingStartSchema.

Lemma toc_loop_pages n_pages entries :
  forall acc out,
    Forall (fun r => match snd r with
                     | Some p => 1 <= p <= n_pages
                     | None => True
                     end) acc ->
    toc_loop re_search n_pages entries acc = Ok out ->
    Forall (fun r => match snd r with
                     | Some p => 1 <= p <= n_pages
                     | None => True
                     end) out.
Proof.
  induction entries as [|entry rest IH]; intros acc out Hacc H; simpl in H.
  - injection H as <-. exact Hacc.
  - destruct (negb (truthy (strip (toc_reading_title entry)))); [eapply IH; eauto|].
    destruct (_normalize_reading_id re_search (toc_reading_id entry) _) as [rid|e];
      [|discriminate].
    simpl in H. eapply IH; [|exact H].
    apply Forall_app. split; [exact Hacc|].
    constructor; [|constructor]. simpl.
    destruct (toc_page_start entry) as [p|]; [|exact I].
    destruct (Z.ltb_spec p 1), (Z.ltb_spec n_pages p); simpl; auto; lia.
Qed.

Lemma _normalize_toc_entries_pages entries n_pages out :
  _normalize_toc_entries re_search entries n_pages = Ok out ->
  Forall (fun r => 1 <= start_page r <= n_pages) out.
Proof.
  unfold _normalize_toc_entries. intros H.
  destruct (toc_loop re_search n_pages entries []) as [l|e] eqn:E; [|discriminate].
  simpl in H. injection H as <-.
  apply keep_paged_Forall. eapply toc_loop_pages; [|exact E]. constructor.
Qed.

Lemma scan_loop_pages use_llm llm_model hi pages :
  forall i acc out,
    0 <= i -> i + Z.of_nat (List.length pages) <= hi ->
    Forall (fun r => 1 <= start_page r <= hi) acc ->
    scan_loop re_search confirm_reading_start use_llm llm_model i pages acc = Ok out ->
    Forall (fun r => 1 <= start_page r <= hi) out.
Proof.
  induction pages as [|text rest IH]; intros i acc out Hi Hhi Hacc H; simpl in H.
  - injection H as <-. exact Hacc.
  - simpl in Hhi.
    assert (Hnext : forall acc' out',
              Forall (fun r => 1 <= start_page r <= hi) acc' ->
              scan_loop re_search confirm_reading_start use_llm llm_model (i + 1)
                rest acc' = Ok out' ->
              Forall (fun r => 1 <= start_page r <= hi) out').
    { intros acc' out' Ha' H'. eapply (IH (i + 1)); eauto; lia. }
    destruct (negb (truthy text)); [eapply Hnext; eauto|].
    destruct (negb (_is_candidate_page re_search text)); [eapply Hnext; eauto|].
    destruct use_llm.
    + destruct (confirm_reading_start llm_model text) as [parsed|];
        [|eapply Hnext; eauto].
      destruct (negb (is_reading_start parsed)); [eapply Hnext; eauto|].
      destruct (_normalize_reading_id re_search (rs_reading_id parsed) _) as [rid|e];
        [|discriminate].
      simpl in H. eapply Hnext; [|exact H].
      apply Forall_app. split; [exact Hacc|].
      constructor; [simpl; lia|constructor].
    + eapply Hnext; [|exact H].
      apply Forall_app. split; [exact Hacc|].
      constructor; [simpl; lia|constructor].
Qed.

(** The intervals of a run do not depend on what [out_path] holds. *)
Lemma build_reading_map_for_doc_split manifest pdf persisted doc_id use_llm
    llm_model max_pages toc_pages data :
  build_reading_map_for_doc re_search extract_toc confirm_reading_start manifest
    pdf persisted doc_id use_llm llm_model max_pages toc_pages = Ok data ->
  exists doc_entry pages reading_starts intervals,
    List.find (fun d => String.eqb (ReadingMapBuilder.doc_id d) doc_id) manifest
      = Some doc_entry
    /\ pdf (path doc_entry) = Some pages
    /\ Forall (fun r => 1 <= start_page r <= Z.of_nat (List.length pages))
         reading_starts
    /\ intervals_of doc_id (Z.of_nat (List.length pages)) reading_starts
       = Ok intervals
    /\ data = merge_into persisted doc_id intervals
    /\ forall persisted',
         build_reading_map_for_doc re_search extract_toc confirm_reading_start
           manifest pdf persisted' doc_id use_llm llm_model max_pages toc_pages
         = Ok (merge_into persisted' doc_id intervals).
Proof.
  unfold build_reading_map_for_doc.
  destruct (List.find _ manifest) as [doc_entry|] eqn:Ef; [|discriminate].
  destruct (pdf (path doc_entry)) as [pages|] eqn:Ep; [|discriminate].
  set (n_pages := Z.of_nat (List.length pages)).
  set (scan_pages := match max_pages with
                     | Some m => if m =? 0 then n_pages else py_min n_pages m
                     | None => n_pages
                     end).
  assert (Hscan : scan_pages <= n_pages).
  { unfold scan_pages, py_min. destruct max_pages as [m|]; [|lia].
    destruct (m =? 0); lia. }
  set (from_toc := if use_llm then _ else []).
  assert (Htoc : Forall (fun r => 1 <= start_page r <= n_pages) from_toc).
  { unfold from_toc. destruct use_llm; [|constructor].
    destruct (extract_toc llm_model _) as [toc_parsed|]; [|constructor].
    destruct (entries toc_parsed) as [|e es]; [constructor|].
    destruct (_normalize_toc_entries re_search (e :: es) n_pages) as [rs|err] eqn:En;
      [|constructor].
    eapply _normalize_toc_entries_pages. exact En. }
  set (starts := match from_toc with
                 | [] => scan_loop re_search confirm_reading_start use_llm llm_model 0
                           (firstn (Z.to_nat scan_pages) pages) []
                 | _ :: _ => Ok from_toc
                 end).
  assert (Hstarts : forall rs, starts = Ok rs ->
                      Forall (fun r => 1 <= start_page r <= n_pages) rs).
  { intros rs Hrs. unfold starts in Hrs.
    destruct from_toc as [|x from_toc'] eqn:Eft.
    - eapply scan_loop_pages; [| | |exact Hrs]; [lia| |constructor].
      rewrite length_firstn. unfold n_pages. lia.
    - injection Hrs as <-. exact Htoc. }
  destruct starts as [reading_starts|e] eqn:Es; [|discriminate].
  simpl.
  destruct (intervals_of doc_id n_pages reading_starts) as [intervals|e] eqn:E;
    [|discriminate].
  simpl. intros H; injection H as <-.
  exists doc_entry, pages, reading_starts, intervals.
  split; [reflexivity|]. split; [exact Ep|]. split; [apply Hstarts; reflexivity|].
  split; [exact E|]. split; [reflexivity|]. intros persisted'. reflexivity.
Qed.

Lemma intervals_of_inside doc_id n_pages reading_starts intervals :
  Forall (fun r => 1 <= start_page r <= n_pages) reading_starts ->
  intervals_of doc_id n_pages reading_starts = Ok intervals ->
  Forall (fun a => 1 <= page_start a /\ page_start a <= page_end a
                   /\ page_end a <= n_pages) intervals.
Proof.
  intros Hs. unfold intervals_of.
  set (cleaned := clean 0 _).
  assert (Hc : Forall (fun r => start_page r <= n_pages) cleaned).
  { unfold cleaned. apply clean_Forall, sorted_by_start_Forall, dedup_Forall.
    eapply Forall_impl; [exact Hs|]. simpl. intros r Hr. lia. }
  pose proof (clean_above 0 (sorted_by_start (List.map snd (dedup reading_starts))))
    as Habove. fold cleaned in Habove.
  destruct cleaned as [|r rest]; [discriminate|].
  intros H; injection H as <-.
  eapply Forall_impl; [apply (close_intervals_inside n_pages (r :: rest) 0 Habove Hc)|].
  simpl. intros a Ha. lia.
Qed.

End WithCollaborators.

End ReadingMapMore.

Section ReadingMapExtras.
Import Py Models ReadingMapBuilder ReadingMapFacts ReadingMapMore.
Variable re_search : Regex.
Variable extract_toc : string -> list (Z * string) -> option TocMapSchema.
Variable confirm_reading_start : string -> string -> option ReadingStartSchema.

(** X9.  When [build_reading_map_for_doc] succeeds, every interval stored
    for the document lies inside the document and holds at least one page:
    [1 <= page_start <= page_end <= page count]. *)
Theorem reading_intervals_inside_document (manifest : list Document)
    (pdf : string -> option (list string))
    (persisted : option (gmap string (list ReadingInterval)))
    (doc_id : string) (use_llm : bool) (llm_model : string)
    (max_pages : option Z) (toc_pages : Z)
    (data : gmap string (list ReadingInterval)) :
  build_reading_map_for_doc re_search extract_toc confirm_reading_start manifest pdf
    persisted doc_id use_llm llm_model max_pages toc_pages = Ok data ->
  exists doc_entry pages intervals,
    List.find (fun d => String.eqb (ReadingMapBuilder.doc_id d) doc_id) manifest
      = Some doc_entry
    /\ pdf (path doc_entry) = Some pages
    /\ data !! doc_id = Some intervals
    /\ Forall (fun a => 1 <= page_start a /\ page_start a <= page_end a
                        /\ page_end a <= Z.of_nat (List.length pages)) intervals.
Proof.
  intros H. apply build_reading_map_for_doc_split in H.
  destruct H as (doc_entry & pages & starts & intervals & Hf & Hp & Hs & Hi & -> & _).
  exists doc_entry, pages, intervals.
  split; [exact Hf|]. split; [exact Hp|].
  split; [unfold merge_into; apply lookup_insert_eq|].
  eapply intervals_of_inside; eauto.
Qed.


End ReadingMapExtras.

(** A second document in the manifest, of three pages, the second of which
    opens a reading. *)
Definition sample_manifest2 : list ReadingMapBuilder.Document :=
  sample_manifest
  ++ [ {| ReadingMapBuilder.doc_id := "vol2"; ReadingMapBuilder.doc_kind := "schweser";
          ReadingMapBuilder.path := "vol2.pdf"; ReadingMapBuilder.title := "Volume 2" |} ].

Definition sample_pdf2 (path : string) : option (list string) :=
  if String.eqb path "vol2.pdf"
  then Some [ "Cover"; "Learning Outcomes: swaps"; "Body" ]
  else sample_pdf path.

Definition sample_build2 (persisted : option (gmap string (list Models.ReadingInterval)))
    (doc_id : string) : Py.result (gmap string (list Models.ReadingInterval)) :=
  ReadingMapBuilder.build_reading_map_for_doc sample_regex (fun _ _ => None)
    (fun _ _ => None) sample_manifest2 sample_pdf2 persisted doc_id false
    "gemini-3-flash-preview" None 15.


Example sample_build_vol1 :
  sample_build2 (Some sample_persisted) "vol1"
  = Py.Ok (<["vol1" := sample_intervals]> sample_persisted).
Proof. vm_compute. reflexivity. Qed.


Lemma reading_intervals_inside_document_witness :
  exists doc_entry pages intervals,
    List.find (fun d => String.eqb (ReadingMapBuilder.doc_id d) "vol1") sample_manifest2
      = Some doc_entry
    /\ sample_pdf2 (ReadingMapBuilder.path doc_entry) = Some pages
    /\ (<["vol1" := sample_intervals]> sample_persisted) !! "vol1" = Some intervals
    /\ Forall (fun a => 1 <= Models.page_start a
                        /\ Models.page_start a <= Models.page_end a
                        /\ Models.page_end a <= Z.of_nat (List.length pages)) intervals.
Proof.
  exact (reading_intervals_inside_document sample_regex (fun _ _ => None)
           (fun _ _ => None) sample_manifest2 sample_pdf2 (Some sample_persisted)
           "vol1" false "gemini-3-flash-preview" None 15 _ sample_build_vol1).
Defined.


(** ** The index build: what is inserted *)

Module IndexMore.
Import Py IndexStore IndexFacts.

Lemma lslice_app {A} (l : list A) (a b c : Z) :
  0 <= a <= b -> b <= c -> lslice l a b ++ lslice l b c = lslice l a c.
Proof.
  intros Hab Hbc. unfold lslice.
  replace (Z.to_nat b) with (Z.to_nat a + Z.to_nat (b - a))%nat by lia.
  rewrite <- drop_drop.
  replace (Z.to_nat (c - a)) with (Z.to_nat (b - a) + Z.to_nat (c - b))%nat by lia.
  apply take_take_drop.
Qed.

Lemma lslice_all {A} (l : list A) (c : Z) :
  Z.of_nat (List.length l) <= c -> lslice l 0 c = l.
Proof.
  intros H. unfold lslice. simpl. apply firstn_all2. lia.
Qed.

Lemma lslice_clamp {A} (l : list A) (a b : Z) :
  0 <= a -> lslice l a (Z.min b (Z.of_nat (List.length l))) = lslice l a b.
Proof.
  intros Ha. unfold lslice.
  destruct (Z.le_gt_cases b (Z.of_nat (List.length l))) as [H|H].
  - rewrite Z.min_l by lia. reflexivity.
  - rewrite Z.min_r by lia.
    rewrite !firstn_all2; [reflexivity| |]; rewrite length_skipn; lia.
Qed.

Lemma length_lslice {A} (l : list A) (a b : Z) :
  Z.of_nat (List.length (lslice l a b)) <= Z.max 0 (b - a).
Proof. unfold lslice. rewrite length_firstn. lia. Qed.

(** The batches cut at the offsets [step * k, ..., step * (k + m - 1)]. *)
Lemma batches_from {A} (l : list A) (step : Z) (m k : nat) :
  0 < step ->
  flat_map (fun i => lslice l i (i + step))
    (List.map (fun q => step * Z.of_nat q) (seq k m))
  = lslice l (step * Z.of_nat k) (step * Z.of_nat (k + m)).
Proof.
  intros Hs. revert k. induction m as [|m IH]; intros k; simpl.
  - replace (k + 0)%nat with k by lia. unfold lslice.
    replace (Z.to_nat _) with 0%nat by lia. reflexivity.
  - rewrite IH.
    replace (step * Z.of_nat k + step) with (step * Z.of_nat (S k)) by lia.
    rewrite lslice_app by nia. f_equal. f_equal. lia.
Qed.

Lemma range_step_covers (n step : Z) :
  0 < step -> 0 <= n ->
  n <= step * Z.of_nat (Z.to_nat ((n + step - 1) / step)).
Proof.
  intros Hs Hn.
  assert (0 <= (n + step - 1) / step) by (apply Z.div_pos; lia).
  rewrite Z2Nat.id by lia.
  pose proof (Z.mul_succ_div_gt (n + step - 1) step Hs). lia.
Qed.

(** Cutting a list at the offsets of [range(0, len, step)] loses nothing. *)
Lemma batches_cover {A} (l : list A) (step : Z) :
  0 < step ->
  flat_map (fun i => lslice l i (i + step))
    (range_step (Z.of_nat (List.length l)) step) = l.
Proof.
  intros Hs. unfold range_step. rewrite batches_from by exact Hs.
  rewrite Nat.add_0_l. change (Z.of_nat 0) with 0. rewrite Z.mul_0_r.
  apply lslice_all. apply range_step_covers; lia.
Qed.

Lemma range_step_nonneg n step :
  0 < step -> Forall (fun i => 0 <= i) (range_step n step).
Proof.
  intros Hs. unfold range_step. apply Forall_forall. intros i Hi.
  apply list_elem_of_In, in_map_iff in Hi. destruct Hi as (q & <- & _). nia.
Qed.

Lemma flat_map_agree {A B} (f g : A -> list B) (l : list A) :
  Forall (fun x => f x = g x) l -> flat_map f l = flat_map g l.
Proof. induction 1 as [|x l Hx Hl IH]; simpl; congruence. Qed.

(** The ids carried by the inserts, in order. *)
Definition added_ids (calls : list EngineCall) : list string :=
  flat_map (fun c => match c with Add ids _ _ _ => ids | _ => [] end) calls.

(** An insert whose four lists have the same length, at most the batch
    size, and whose vectors all have the expected length. *)
Definition bounded (call : EngineCall) : Prop :=
  match call with
  | Add ids _ _ _ => Z.of_nat (List.length ids) <= CHROMA_BATCH_SIZE
  | _ => True
  end.

Section WithServices.
Variable embed_content : Z -> string -> list string -> result (list (list Q)).
Variable col_add : EngineCall -> result unit.

Lemma check_dims_ok vectors :
  forall embeddings out,
    Forall (fun vals => Z.of_nat (List.length vals) = DIM) embeddings ->
    check_dims vectors embeddings = Ok out ->
    Forall (fun vals => Z.of_nat (List.length vals) = DIM) out.
Proof.
  induction vectors as [|vals rest IH]; intros embeddings out He H; simpl in H.
  - injection H as <-. exact He.
  - destruct (Z.eqb_spec (Z.of_nat (List.length vals)) DIM) as [Heq|Hne];
      simpl in H; [|discriminate].
    eapply IH; [|exact H]. apply Forall_app. split; auto.
Qed.

Lemma embed_batches_ok model texts offsets :
  forall embeddings out,
    Forall (fun vals => Z.of_nat (List.length vals) = DIM) embeddings ->
    embed_batches embed_content model texts offsets embeddings = Ok out ->
    Forall (fun vals => Z.of_nat (List.length vals) = DIM) out.
Proof.
  induction offsets as [|i rest IH]; intros embeddings out He H; simpl in H.
  - injection H as <-. exact He.
  - destruct (embed_content i model _) as [vectors|e]; [|discriminate].
    simpl in H.
    destruct (check_dims vectors embeddings) as [embeddings'|e] eqn:Ec;
      [|discriminate].
    simpl in H. eapply IH; [|exact H]. eapply check_dims_ok; eauto.
Qed.

(** The ids collected are without repetition and are the chunk ids of the
    rows. *)
Lemma collect_ids rows :
  forall seen ids docs metas,
    NoDup ids -> (forall cid, cid ∈ seen <-> In cid ids) ->
    let '(ids', _, _) := snd (collect rows seen (ids, docs, metas)) in
    NoDup ids'
    /\ forall cid, In cid ids' <-> In cid ids \/ exists r, In r rows /\ chunk_id r = cid.
Proof.
  induction rows as [|r rows IH]; intros seen ids docs metas Hnd Hseen; simpl.
  - split; [exact Hnd|]. intros cid. split; [auto|].
    intros [H|(r & [] & _)]. exact H.
  - destruct (decide (chunk_id r ∈ seen)) as [Hin|Hnin].
    + specialize (IH seen ids docs metas Hnd Hseen).
      destruct (snd (collect rows seen (ids, docs, metas))) as [[ids' docs'] metas'].
      destruct IH as [IH1 IH2]. split; [exact IH1|].
      intros cid. rewrite IH2. split.
      * intros [H|(r' & Hr' & E)]; [auto|]. right. exists r'. split; [right|]; auto.
      * intros [H|(r' & [->|Hr'] & E)]; [auto| |].
        -- left. subst cid. apply Hseen. exact Hin.
        -- right. exists r'. auto.
    + assert (Hnd' : NoDup (ids ++ [chunk_id r])).
      { apply NoDup_app. split; [exact Hnd|]. split.
        - intros x Hx Hx'. apply list_elem_of_In in Hx.
          apply list_elem_of_singleton in Hx'. subst x.
          apply Hnin, Hseen. exact Hx.
        - apply NoDup_singleton. }
      assert (Hseen' : forall cid, cid ∈ ({[chunk_id r]} ∪ seen : gset string)
                                   <-> In cid (ids ++ [chunk_id r])).
      { intros cid. rewrite elem_of_union, elem_of_singleton, Hseen, in_app_iff.
        simpl. intuition. }
      specialize (IH _ (ids ++ [chunk_id r]) (docs ++ [content r])
                    (metas ++ [meta_of r]) Hnd' Hseen').
      destruct (snd (collect rows _ _)) as [[ids' docs'] metas'].
      destruct IH as [IH1 IH2]. split; [exact IH1|].
      intros cid. rewrite IH2, in_app_iff. simpl. split.
      * intros [[H|[H|[]]]|(r' & Hr' & E)]; [auto| |].
        -- right. exists r. auto.
        -- right. exists r'. auto.
      * intros [H|(r' & [->|Hr'] & E)]; [auto| |].
        -- left. right. left. exact E.
        -- right. exists r'. auto.
Qed.

(** When every insert is accepted, the inserts carry the batches in order. *)
Lemma add_batches_ok ids docs metas embeddings total offsets :
  forall calls,
    add_batches col_add ids docs metas embeddings total offsets = (calls, Ok tt) ->
    added_ids calls
    = flat_map (fun i => lslice ids i (Z.min (i + CHROMA_BATCH_SIZE) total)) offsets.
Proof.
  induction offsets as [|i rest IH]; intros calls H; simpl in H.
  - injection H as <-. reflexivity.
  - destruct (col_add _) as [[]|e]; [|discriminate].
    destruct (add_batches col_add ids docs metas embeddings total rest)
      as [calls' r] eqn:E.
    injection H as <- ->. simpl. f_equal. apply IH. reflexivity.
Qed.

Lemma add_batches_shape ids docs metas embeddings total offsets :
  Forall (fun i => 0 <= i) offsets ->
  Forall (fun vals => Z.of_nat (List.length vals) = DIM) embeddings ->
  let out := add_batches col_add ids docs metas embeddings total offsets in
  Forall (fun call =>
            match call with
            | Add ids' _ _ embeddings' =>
                Z.of_nat (List.length ids') <= CHROMA_BATCH_SIZE
                /\ Forall (fun vals => Z.of_nat (List.length vals) = DIM) embeddings'
            | _ => False
            end) (fst out)
  /\ (forall e, snd out = Raise e ->
        exists before call, fst out = before ++ [call] /\ col_add call = Raise e)
  /\ Forall (fun call => col_add call = Ok tt)
       (match snd out with Ok _ => fst out | Raise _ => removelast (fst out) end).
Proof.
  intros Hoff Hemb. cbn zeta.
  induction Hoff as [|i rest Hi Hoff IH]; simpl.
  - split; [constructor|]. split; [intros e H; discriminate|constructor].
  - set (call := Add _ _ _ _).
    assert (Hcall : match call with
                    | Add ids' _ _ embeddings' =>
                        Z.of_nat (List.length ids') <= CHROMA_BATCH_SIZE
                        /\ Forall (fun vals => Z.of_nat (List.length vals) = DIM)
                             embeddings'
                    | _ => False
                    end).
    { unfold call. split.
      - pose proof (length_lslice ids i (Z.min (i + CHROMA_BATCH_SIZE) total)).
        unfold CHROMA_BATCH_SIZE in *. lia.
      - unfold lslice. apply Forall_take, Forall_drop, Hemb. }
    destruct (col_add call) as [[]|e] eqn:Ec.
    + destruct (add_batches col_add ids docs metas embeddings total rest)
        as [calls r] eqn:E. simpl in IH. destruct IH as (IH1 & IH2 & IH3).
      simpl. split; [constructor; assumption|]. split.
      * intros e He. destruct (IH2 e He) as (before & c & -> & Hc).
        exists (call :: before), c. split; [reflexivity|exact Hc].
      * destruct r as [[]|e].
        -- constructor; assumption.
        -- destruct calls as [|c0 calls0]; [constructor|].
           change (removelast (call :: c0 :: calls0))
             with (call :: removelast (c0 :: calls0)).
           constructor; assumption.
    + simpl. split; [constructor; [exact Hcall|constructor]|]. split.
      * intros e' He'. injection He' as <-. exists [], call. auto.
      * constructor.
Qed.

End WithServices.

End IndexMore.

Section IndexExtras.
Import Py IndexStore IndexFacts IndexMore.

(** X11.  A build that ends well has inserted every distinct chunk id of
    the chunk streams exactly once: the ids carried by the inserts are
    without repetition and are exactly the chunk ids of the rows read. *)
Theorem index_inserts_each_chunk_once
    (embed_content : Z -> string -> list string -> result (list (list Q)))
    (col_add : EngineCall -> result unit) (jsonl_files : list (list Row)) :
  let out := build_chroma_index embed_content col_add jsonl_files in
  snd out = Ok tt ->
  NoDup (added_ids (fst out))
  /\ (forall cid, In cid (added_ids (fst out))
                  <-> exists r, In r (List.concat jsonl_files) /\ chunk_id r = cid).
Proof.
  cbn zeta. unfold build_chroma_index.
  pose proof (collect_ids (List.concat jsonl_files) ∅ [] [] [] NoDup_nil_2) as Hc.
  specialize (Hc ltac:(intros cid; split; [intros H; apply elem_of_empty in H; contradiction|intros []])).
  destruct (snd (collect (List.concat jsonl_files) ∅ ([], [], [])))
    as [[ids docs] metas].
  destruct Hc as [Hnd Hmem].
  assert (Hmem' : forall cid, In cid ids
                    <-> exists r, In r (List.concat jsonl_files) /\ chunk_id r = cid).
  { intros cid. rewrite Hmem. simpl. intuition. }
  destruct ids as [|id ids'] eqn:Eids.
  { simpl. intros _. split; [constructor|exact Hmem']. }
  rewrite <- Eids in *. clear Eids.
  destruct (compute_embeddings_in_batches embed_content _ docs) as [embeddings|e];
    [|simpl; discriminate].
  destruct (add_batches col_add ids docs metas embeddings _ _) as [calls r] eqn:Ea.
  simpl. intros Hr. subst r.
  apply add_batches_ok in Ea.
  assert (Hids : added_ids calls = ids).
  { rewrite Ea.
    rewrite <- (batches_cover ids CHROMA_BATCH_SIZE) at 2 by reflexivity.
    apply flat_map_agree.
    eapply Forall_impl;
      [apply (range_step_nonneg (Z.of_nat (List.length ids)) CHROMA_BATCH_SIZE eq_refl)|].
    simpl. intros i Hi. apply lslice_clamp. exact Hi. }
  change (added_ids (_ :: _ :: calls)) with (added_ids calls).
  rewrite Hids. split; [exact Hnd|exact Hmem'].
Qed.

(** X12.  In every run the calls on the index engine are the drop of the
    collection, its creation, and then inserts only; every insert carries at
    most 5000 ids and only vectors of length 768; and when the run raises
    after an insert was issued, the insert the engine refused is the last
    call. *)
Theorem index_engine_calls
    (embed_content : Z -> string -> list string -> result (list (list Q)))
    (col_add : EngineCall -> result unit) (jsonl_files : list (list Row)) :
  let out := build_chroma_index embed_content col_add jsonl_files in
  exists inserts,
    fst out = [DeleteCollection "cfa_chunks"; CreateCollection "cfa_chunks"] ++ inserts
    /\ Forall (fun call =>
                 match call with
                 | Add ids _ _ embeddings =>
                     Z.of_nat (List.length ids) <= 5000
                     /\ Forall (fun vals => Z.of_nat (List.length vals) = 768) embeddings
                 | _ => False
                 end) inserts
    /\ (forall e, snd out = Raise e ->
          inserts = []
          \/ exists before call, inserts = before ++ [call] /\ col_add call = Raise e).
Proof.
  cbn zeta. unfold build_chroma_index.
  destruct (snd (collect (List.concat jsonl_files) ∅ ([], [], [])))
    as [[ids docs] metas].
  destruct ids as [|id ids'] eqn:Eids.
  { exists []. simpl. split; [reflexivity|]. split; [constructor|]. intros e H. discriminate. }
  rewrite <- Eids. clear Eids.
  destruct (compute_embeddings_in_batches embed_content _ docs) as [embeddings|e] eqn:Ee.
  2:{ exists []. simpl. split; [reflexivity|]. split; [constructor|]. auto. }
  unfold compute_embeddings_in_batches in Ee.
  apply embed_batches_ok in Ee; [|constructor].
  pose proof (add_batches_shape col_add ids docs metas embeddings
                (Z.of_nat (List.length ids))
                (range_step (Z.of_nat (List.length ids)) CHROMA_BATCH_SIZE)
                (range_step_nonneg _ CHROMA_BATCH_SIZE eq_refl) Ee) as Hs.
  cbn zeta in Hs.
  destruct (add_batches col_add ids docs metas embeddings _ _) as [calls r].
  simpl in Hs. destruct Hs as (H1 & H2 & _).
  exists calls. simpl. split; [reflexivity|]. split; [exact H1|].
  intros e He. right. apply H2. exact He.
Qed.

(** X13.  Batching is transparent: when the embedding service answers every
    batch with one vector of length 768 per text, the same for a text
    whatever its batch, [compute_embeddings_in_batches] returns the vector
    of every text, in the order of the texts. *)
Theorem embedding_batches_are_transparent
    (embed_content : Z -> string -> list string -> result (list (list Q)))
    (vector_of : string -> list Q) (model : string) (texts : list string) :
  (forall i batch, embed_content i model batch = Ok (List.map vector_of batch)) ->
  (forall t, Z.of_nat (List.length (vector_of t)) = 768) ->
  compute_embeddings_in_batches embed_content model texts
  = Ok (List.map vector_of texts).
Proof.
  intros Hserv Hdim.
  assert (Hcheck : forall batch acc,
            check_dims (List.map vector_of batch) acc = Ok (acc ++ List.map vector_of batch)).
  { induction batch as [|t batch IH]; intros acc; simpl.
    - rewrite app_nil_r. reflexivity.
    - rewrite Hdim. change (768 =? DIM) with true. simpl.
      rewrite IH, <- app_assoc. reflexivity. }
  assert (Hloop : forall offsets acc,
            embed_batches embed_content model texts offsets acc
            = Ok (acc ++ List.map vector_of
                           (flat_map (fun i => lslice texts i (i + BATCH_SIZE)) offsets))).
  { induction offsets as [|i rest IH]; intros acc; simpl.
    - rewrite app_nil_r. reflexivity.
    - rewrite Hserv. simpl. rewrite Hcheck. simpl. rewrite IH.
      rewrite List.map_app, app_assoc. reflexivity. }
  unfold compute_embeddings_in_batches. rewrite Hloop. simpl.
  rewrite batches_cover by reflexivity. reflexivity.
Qed.

End IndexExtras.

(** Two chunk streams that share a chunk id, and an embedding service that
    answers with 768 zeros per text. *)
Definition sample_rows2 : list (list IndexStore.Row) :=
  sample_rows
  ++ [ [ {| IndexStore.chunk_id := "3c636a3efcaef2726a52073f47bd9435584901a7";
            IndexStore.content := "Interest rates";
            IndexStore.doc_id := "vol1"; IndexStore.kind := "official";
            IndexStore.page := 7; IndexStore.reading_id := Some "3";
            IndexStore.no_cut := Some false |};
         {| IndexStore.chunk_id := "de72cf89bba39376c1064331695a42fb8f5069c5";
            IndexStore.content := "Bond prices";
            IndexStore.doc_id := "vol1"; IndexStore.kind := "official";
            IndexStore.page := 8; IndexStore.reading_id := None;
            IndexStore.no_cut := None |} ] ].

Definition zero_vectors : Z -> string -> list string -> Py.result (list (list Q)) :=
  fun _ _ batch => Py.Ok (List.map (fun _ => repeat 0%Q 768) batch).

Example sample_index_ids :
  IndexMore.added_ids
    (fst (IndexStore.build_chroma_index zero_vectors (fun _ => Py.Ok tt) sample_rows2))
  = [ "3c636a3efcaef2726a52073f47bd9435584901a7";
      "de72cf89bba39376c1064331695a42fb8f5069c5" ].
Proof. vm_compute. reflexivity. Qed.

Lemma index_inserts_each_chunk_once_witness :
  NoDup (IndexMore.added_ids
           (fst (IndexStore.build_chroma_index zero_vectors (fun _ => Py.Ok tt)
                   sample_rows2))).
Proof.
  exact (proj1 (index_inserts_each_chunk_once zero_vectors (fun _ => Py.Ok tt)
                  sample_rows2 ltac:(vm_compute; reflexivity))).
Defined.

Lemma embedding_batches_are_transparent_witness :
  IndexStore.compute_embeddings_in_batches zero_vectors "text-embedding-004"
    ["Interest rates"; "Bond prices"]
  = Py.Ok (List.map (fun _ => repeat 0%Q 768) ["Interest rates"; "Bond prices"]).
Proof.
  exact (embedding_batches_are_transparent zero_vectors (fun _ => repeat 0%Q 768)
           "text-embedding-004" ["Interest rates"; "Bond prices"]
           (fun _ _ => eq_refl) (fun _ => eq_refl)).
Defined.

(** ** Retrieval: the alias set, the packet *)

Module RetrievalMore.
Import Py Models Retrieval RetrievalFacts.

(** A backslash followed by the letter d. *)
Definition BACKSLASH_D : string := String BACKSLASH (String "d" EmptyString).

Lemma leading_ds_cons c s :
  leading_ds (String c s)
  = if Ascii.eqb c "d" then String "d" (leading_ds s) else EmptyString.
Proof. destruct c as [[] [] [] [] [] [] [] []]; reflexivity. Qed.

Lemma prefix_d c s : String.prefix "d" (String c s) = Ascii.eqb c "d".
Proof. destruct c as [[] [] [] [] [] [] [] []]; destruct s; reflexivity. Qed.

Lemma leading_ds_empty s :
  leading_ds s = EmptyString <-> String.prefix "d" s = false.
Proof.
  destruct s as [|c s]; [split; reflexivity|].
  rewrite leading_ds_cons, prefix_d.
  destruct (Ascii.eqb c "d"); split; congruence.
Qed.

Lemma prefix_backslash_d c s :
  String.prefix BACKSLASH_D (String c s)
  = Ascii.eqb c BACKSLASH && String.prefix "d" s.
Proof. destruct c as [[] [] [] [] [] [] [] []]; reflexivity. Qed.

(** The search finds something exactly when the id contains a backslash
    followed by a d, and what it finds starts with the backslash. *)
Lemma search_backslash_ds_spec raw :
  match search_backslash_ds raw with
  | Some g => contains BACKSLASH_D raw = true /\ exists ds, g = String BACKSLASH ds
  | None => contains BACKSLASH_D raw = false
  end.
Proof.
  induction raw as [|c rest IH].
  - reflexivity.
  - change (contains BACKSLASH_D (String c rest))
      with (String.prefix BACKSLASH_D (String c rest) || contains BACKSLASH_D rest).
    rewrite prefix_backslash_d. simpl search_backslash_ds.
    destruct (Ascii.eqb c BACKSLASH); simpl.
    + destruct (leading_ds rest) as [|d ds] eqn:El.
      * apply leading_ds_empty in El. rewrite El. simpl. exact IH.
      * assert (Hp : String.prefix "d" rest = true).
        { destruct (String.prefix "d" rest) eqn:Ep; [reflexivity|].
          apply leading_ds_empty in Ep. congruence. }
        rewrite Hp. simpl. split; [reflexivity|eauto].
    + exact IH.
Qed.

Lemma rstrip_cons_not_space c s :
  is_space c = false -> exists r, rstrip (String c s) = String c r.
Proof.
  intros Hc. simpl. destruct (rstrip s); [rewrite Hc|]; eauto.
Qed.

(** [int] rejects what starts with a backslash. *)
Lemma int_backslash s : int (String BACKSLASH s) = None.
Proof.
  unfold int, strip.
  change (lstrip (String BACKSLASH s)) with (String BACKSLASH s).
  destruct (rstrip_cons_not_space BACKSLASH s eq_refl) as [r ->].
  reflexivity.
Qed.

Section WithEngine.
Variable Collection : Type.
Variable get_collection : string -> string -> result Collection.
Variable list_collections : string -> result (list string).
Variable col_query : Collection -> list Q -> Z -> option string -> result QueryResult.
Variable embed_content : string -> result (list Q).
Variable path_exists : string -> bool.

(** When the loop over the queries ends well, it has added one entry per
    query, in order, each with [k = 12]. *)
Lemma same_book_queries_ok doc_id chroma_dir unified qs :
  forall top_k out,
    same_book_queries Collection get_collection col_query embed_content path_exists
      doc_id chroma_dir unified qs top_k = Ok out ->
    exists added,
      out = top_k ++ added
      /\ List.map query added = qs
      /\ Forall (fun t => k t = 12
                          /\ query_with_fallback Collection get_collection col_query
                               embed_content path_exists doc_id chroma_dir unified
                               (query t) = Ok (hits t)) added.
Proof.
  induction qs as [|q rest IH]; intros top_k out H; simpl in H.
  - injection H as <-. exists []. rewrite app_nil_r. repeat split; constructor.
  - destruct (query_with_fallback _ _ _ _ _ _ _ _ q) as [hs|e] eqn:Eq; [|discriminate].
    simpl in H. apply IH in H. destruct H as (added & -> & Hq & Hf).
    exists ({| query := q; k := 12; hits := hs |} :: added).
    rewrite <- app_assoc. split; [reflexivity|]. split; [simpl; congruence|].
    constructor; [simpl; auto|exact Hf].
Qed.

Lemma cross_book_queries_shape reading_id cross_ref unified :
  let cross :=
    cross_book_queries Collection get_collection list_collections col_query
      embed_content path_exists reading_id cross_ref unified in
  (cross = [] \/ List.length cross = 4%nat)
  /\ Forall (fun t => k t = 8) cross
  /\ (cross_ref = false -> cross = []).
Proof.
  cbn zeta. unfold cross_book_queries.
  destruct cross_ref; simpl.
  - destruct (unified_present path_exists unified); simpl.
    + destruct (_collection_exists _ _ _); simpl.
      * split; [right; reflexivity|]. split; [repeat constructor|discriminate].
      * split; [left; reflexivity|]. split; [constructor|discriminate].
    + split; [left; reflexivity|]. split; [constructor|discriminate].
  - split; [left; reflexivity|]. split; [constructor|reflexivity].
Qed.

End WithEngine.

End RetrievalMore.

Section RetrievalExtras.
Import Py Models Retrieval RetrievalFacts RetrievalMore.

(** X14.  The alias set of a reading id never holds more than the stripped
    id itself: [_reading_id_aliases] raises [ValueError] when the stripped
    id contains a backslash followed by the letter d, and otherwise returns
    the stripped id alone. *)
Theorem reading_id_aliases_are_the_id_alone (reading_id : string) :
  _reading_id_aliases reading_id
  = if contains BACKSLASH_D (strip reading_id)
    then Raise (ValueError "invalid literal for int() with base 10")
    else Ok [strip reading_id].
Proof.
  unfold _reading_id_aliases.
  pose proof (search_backslash_ds_spec (strip reading_id)) as H.
  destruct (search_backslash_ds (strip reading_id)) as [g|].
  - destruct H as [-> [ds ->]]. rewrite int_backslash. reflexivity.
  - rewrite H. rewrite elements_singleton. reflexivity.
Qed.

Variable Collection : Type.
Variable get_collection : string -> string -> result Collection.
Variable list_collections : string -> result (list string).
Variable col_query : Collection -> list Q -> Z -> option string -> result QueryResult.
Variable embed_content : string -> result (list Q).
Variable path_exists : string -> bool.

(** X15.  A packet that is built holds the chunks loaded for the reading,
    at least one; its [top_k] is the three same-document queries, in their
    fixed order and with [k = 12], each with the hits of the query with
    fallback, followed by no or four cross-document queries with [k = 8];
    its [meta] lists the queries of [top_k] in order; [conflicts] is
    empty. *)
Theorem packet_shape (now doc_id reading_id : string)
    (chunks_file : option (list Chunk)) (chroma_dir : string) (cross_ref : bool)
    (unified_chroma_dir : option string) (packet : EvidencePacket) :
  build_evidence_packet Collection get_collection list_collections col_query
    embed_content path_exists now doc_id reading_id chunks_file chroma_dir cross_ref
    unified_chroma_dir = Ok packet ->
  (exists lines, chunks_file = Some lines
                 /\ load_chunks_for_reading lines reading_id
                    = Ok (reading_fulltext packet))
  /\ reading_fulltext packet <> []
  /\ (exists same cross,
        top_k packet = same ++ cross
        /\ List.map query same
           = [ doc_id +:+ " " +:+ reading_id +:+ " key concepts";
               reading_id +:+ " exam traps common mistakes";
               reading_id +:+ " formula intuition example" ]
        /\ Forall (fun t => k t = 12
                            /\ query_with_fallback Collection get_collection col_query
                                 embed_content path_exists doc_id chroma_dir
                                 unified_chroma_dir (query t) = Ok (hits t)) same
        /\ (cross = [] \/ List.length cross = 4%nat)
        /\ Forall (fun t => k t = 8) cross
        /\ (cross_ref = false -> cross = []))
  /\ queries (meta packet) = List.map query (top_k packet)
  /\ conflicts packet = []
  /\ Retrieval.doc_id packet = doc_id /\ Retrieval.reading_id packet = reading_id.
Proof.
  unfold build_evidence_packet.
  destruct chunks_file as [lines|]; [|discriminate].
  destruct (load_chunks_for_reading lines reading_id) as [fulltext|e] eqn:El;
    [|discriminate].
  unfold bind at 1. cbv beta iota zeta.
  destruct fulltext as [|c cs]; [discriminate|].
  destruct (same_book_queries _ _ _ _ _ _ _ _ _ []) as [same|e] eqn:Es; [|discriminate].
  simpl. intros H; injection H as <-. simpl.
  apply same_book_queries_ok in Es. destruct Es as (added & -> & Hq & Hf).
  simpl.
  pose proof (cross_book_queries_shape Collection get_collection list_collections
                col_query embed_content path_exists reading_id cross_ref
                unified_chroma_dir) as (C1 & C2 & C3).
  split; [exists lines; auto|]. split; [discriminate|].
  split; [|split; [|auto]].
  - eexists added, _. split; [reflexivity|]. auto.
  - rewrite List.map_app, Hq. reflexivity.
Qed.

(** X16.  The cross-document queries never fail a packet: with and without
    cross-reference mode the build raises the same exception or succeeds in
    both cases, with the same chunks of the reading, and the [top_k] of the
    cross-reference packet starts with the [top_k] of the other. *)
Theorem cross_reference_never_fails (now doc_id reading_id : string)
    (chunks_file : option (list Chunk)) (chroma_dir : string)
    (unified_chroma_dir : option string) :
  let build cross_ref :=
    build_evidence_packet Collection get_collection list_collections col_query
      embed_content path_exists now doc_id reading_id chunks_file chroma_dir cross_ref
      unified_chroma_dir in
  match build false, build true with
  | Ok plain, Ok crossed =>
      reading_fulltext crossed = reading_fulltext plain
      /\ exists cross, top_k crossed = top_k plain ++ cross
  | Raise e, Raise e' => e = e'
  | _, _ => False
  end.
Proof.
  cbn zeta. unfold build_evidence_packet.
  destruct chunks_file as [lines|]; [|reflexivity].
  destruct (load_chunks_for_reading lines reading_id) as [fulltext|e]; [|reflexivity].
  unfold bind at 1 3. cbv beta iota zeta.
  destruct fulltext as [|c cs]; [reflexivity|].
  destruct (same_book_queries _ _ _ _ _ _ _ _ _ []) as [same|e]; [|reflexivity].
  simpl. split; [reflexivity|]. rewrite app_nil_r. eauto.
Qed.

End RetrievalExtras.

Lemma packet_shape_witness :
  exists packet,
    Retrieval.build_evidence_packet unit sample_get_collection (fun _ => Py.Ok [])
      sample_col_query sample_embed sample_exists "20261104T120000" "vol1" "3"
      (Some [chunk_of_reading_3]) "index/vol1" false (Some "index/unified")
    = Py.Ok packet
    /\ Retrieval.reading_fulltext packet <> []
    /\ Retrieval.queries (Retrieval.meta packet)
       = List.map Models.query (Retrieval.top_k packet).
Proof.
  destruct (Retrieval.build_evidence_packet unit sample_get_collection
              (fun _ => Py.Ok []) sample_col_query sample_embed sample_exists
              "20261104T120000" "vol1" "3" (Some [chunk_of_reading_3]) "index/vol1"
              false (Some "index/unified")) as [packet|e] eqn:E.
  - exists packet. split; [reflexivity|].
    pose proof (packet_shape unit sample_get_collection (fun _ => Py.Ok [])
                  sample_col_query sample_embed sample_exists _ _ _ _ _ _ _ _ E)
      as (_ & H1 & _ & H2 & _).
    split; assumption.
  - exfalso. revert E. vm_compute. discriminate.
Defined.

(** ** Reading ids on the command line *)

Module DigitFacts.
Import Py PyFacts StripFacts.

(** Every character is a decimal digit. *)
Definition digits_only (s : string) : Prop :=
  Forall (fun c => is_digit c = true) (list_ascii_of_string s).

Lemma digits_only_cons c s :
  digits_only (String c s) <-> is_digit c = true /\ digits_only s.
Proof.
  unfold digits_only. simpl. split.
  - intros H. inversion H; subst. auto.
  - intros [H1 H2]. constructor; assumption.
Qed.

Lemma digit_not_space c : is_digit c = true -> is_space c = false.
Proof. destruct c as [[] [] [] [] [] [] [] []]; vm_compute; congruence. Qed.



Lemma lstrip_digits s : digits_only s -> lstrip s = s.
Proof.
  destruct s as [|c s]; [reflexivity|]. intros H.
  apply digits_only_cons in H. destruct H as [Hc _].
  simpl. rewrite (digit_not_space c Hc). reflexivity.
Qed.

Lemma rstrip_digits s : digits_only s -> rstrip s = s.
Proof.
  induction s as [|c s IH]; [reflexivity|]. intros H.
  apply digits_only_cons in H. destruct H as [Hc Hs].
  simpl. rewrite (IH Hs). destruct s; [rewrite (digit_not_space c Hc)|]; reflexivity.
Qed.

Lemma strip_digits s : digits_only s -> strip s = s.
Proof. intros H. unfold strip. rewrite lstrip_digits, rstrip_digits; auto. Qed.




Lemma leading_digits_all s : digits_only s -> Cli.leading_digits s = s.
Proof.
  induction s as [|c s IH]; [reflexivity|]. intros H.
  apply digits_only_cons in H. destruct H as [Hc Hs].
  simpl. rewrite Hc, (IH Hs). reflexivity.
Qed.


Lemma search_digits_all s :
  digits_only s -> s <> EmptyString -> Cli.search_digits s = Some s.
Proof.
  destruct s as [|c s]; [congruence|]. intros H _.
  apply digits_only_cons in H. destruct H as [Hc Hs].
  simpl. rewrite Hc, (leading_digits_all s Hs). reflexivity.
Qed.

(** On digits [digits_value] does not fail, and gives a number that is not
    negative when it starts from one. *)
Lemma digits_value_digits s :
  digits_only s ->
  forall acc b, 0 <= acc -> (s <> EmptyString \/ b = true) ->
    exists n, digits_value s acc b = Some n /\ 0 <= n.
Proof.
  induction s as [|c s IH]; intros H acc b Hacc Hne.
  - destruct Hne as [Hne| ->]; [congruence|]. exists acc. auto.
  - apply digits_only_cons in H. destruct H as [Hc Hs].
    simpl. rewrite Hc. apply IH; auto.
    assert (48 <= Z.of_N (N_of_ascii c)).
    { unfold is_digit in Hc. apply andb_true_iff in Hc. destruct Hc as [Hc _].
      apply N.leb_le in Hc. lia. }
    lia.
Qed.

(** On a string of digits that is not empty, [int] is [digits_value]. *)
Lemma int_digits s :
  digits_only s -> s <> EmptyString -> int s = digits_value s 0 false.
Proof.
  intros H Hne. unfold int. rewrite (strip_digits s H).
  destruct s as [|c s]; [congruence|].
  apply digits_only_cons in H. destruct H as [Hc _].
  destruct c as [[] [] [] [] [] [] [] []]; try reflexivity;
    vm_compute in Hc; discriminate.
Qed.

Lemma pretty_N_char_digit d :
  (d < 10)%N ->
  is_digit (pretty_N_char d) = true
  /\ Z.of_N (N_of_ascii (pretty_N_char d)) - 48 = Z.of_N d.
Proof.
  intros H.
  assert (d = 0 \/ d = 1 \/ d = 2 \/ d = 3 \/ d = 4 \/ d = 5 \/ d = 6 \/ d = 7
          \/ d = 8 \/ d = 9)%N as Hd by lia.
  repeat (destruct Hd as [->|Hd]; [split; reflexivity|]). subst. split; reflexivity.
Qed.

Lemma pretty_N_char_is_digit d : is_digit (pretty_N_char d) = true.
Proof.
  unfold pretty_N_char.
  destruct d as [|p]; [reflexivity|].
  do 4 (destruct p as [p|p|]; try reflexivity).
Qed.

(** The digits that [pretty_N_go] puts in front of [s]. *)
Lemma pretty_N_go_digits x :
  forall s, digits_only s -> digits_only (pretty_N_go x s).
Proof.
  induction (N.lt_wf_0 x) as [x _ IH]; intros s Hs.
  destruct (N.eq_dec x 0%N) as [->|Hx]; [rewrite pretty_N_go_0; exact Hs|].
  rewrite pretty_N_go_step by lia.
  apply IH; [apply N.div_lt; lia|].
  apply digits_only_cons. split; [apply pretty_N_char_is_digit|exact Hs].
Qed.

Lemma pretty_N_go_value x :
  (0 < x)%N ->
  exists m, forall s acc b,
    digits_value (pretty_N_go x s) acc b = digits_value s (acc * m + Z.of_N x) true.
Proof.
  induction (N.lt_wf_0 x) as [x _ IH]; intros Hx.
  assert (Hd : (x `mod` 10 < 10)%N) by (apply N.mod_lt; lia).
  destruct (pretty_N_char_digit _ Hd) as [Hdig Hval].
  assert (Hdm : Z.of_N x = 10 * Z.of_N (x `div` 10) + Z.of_N (x `mod` 10)).
  { rewrite (N.div_mod x 10) at 1 by lia. lia. }
  destruct (N.eq_dec (x `div` 10)%N 0%N) as [H0|Hpos].
  - exists 10. intros s acc b. rewrite pretty_N_go_step by exact Hx.
    rewrite H0, pretty_N_go_0. simpl digits_value. rewrite Hdig.
    f_equal. rewrite H0 in Hdm. lia.
  - destruct (IH (x `div` 10)%N) as [m Hm]; [apply N.div_lt; lia|lia|].
    exists (10 * m). intros s acc b. rewrite pretty_N_go_step by exact Hx.
    rewrite Hm. simpl digits_value. rewrite Hdig. f_equal. lia.
Qed.

(** [str] of a number that is not negative: digits only, not empty, and
    read back by [int]. *)
Lemma str_digits n :
  0 <= n -> digits_only (str n) /\ str n <> EmptyString /\ int (str n) = Some n.
Proof.
  intros Hn. unfold str, pretty, pretty_Z.
  destruct n as [|p|p]; [|clear Hn|lia].
  - split; [repeat constructor|]. split; [discriminate|reflexivity].
  - unfold pretty, pretty_positive, pretty, pretty_N.
    destruct (decide (N.pos p = 0%N)); [discriminate|].
    assert (Hd : digits_only (pretty_N_go (N.pos p) "")).
    { apply pretty_N_go_digits. constructor. }
    assert (Hne : pretty_N_go (N.pos p) "" <> "").
    { destruct (pretty_N_go_value (N.pos p) ltac:(lia)) as [m Hm].
      intros E. specialize (Hm "" 0 false). rewrite E in Hm. simpl in Hm.
      discriminate. }
    split; [exact Hd|]. split; [exact Hne|].
    rewrite int_digits by assumption.
    destruct (pretty_N_go_value (N.pos p) ltac:(lia)) as [m Hm].
    rewrite Hm. simpl. f_equal.
Qed.




End DigitFacts.

Section CliExtras.
Import Py PyFacts StripFacts Models Retrieval DigitFacts.



Variable Collection : Type.
Variable get_collection : string -> string -> result Collection.
Variable list_collections : string -> result (list string).
Variable col_query : Collection -> list Q -> Z -> option string -> result QueryResult.
Variable embed_content : string -> result (list Q).
Variable path_exists : string -> bool.
Variable read_chunks : string -> option (list Chunk).


End CliExtras.

Example cli_normalize_examples :
  List.map Cli._normalize_reading_id
    ["R3"; "Reading 3"; "Learning Module 03"; " 3 "; "Appendix"]
  = [Py.Ok "3"; Py.Ok "3"; Py.Ok "3"; Py.Ok "3"; Py.Ok "Appendix"].
Proof. vm_compute. reflexivity. Qed.



Section LoadExtras.
Import Py PyFacts StripFacts Models Retrieval RetrievalMore.

(** X19.  Whenever [load_chunks_for_reading] returns, what it returns are
    the chunks of the stream, in the order of the stream, whose reading id
    is not blank and equals the requested id up to surrounding white space
    and letter case; no other form of the id is matched. *)
Theorem loaded_chunks_match_request (chunks_file : list Chunk) (reading_id : string)
    (loaded : list Chunk) :
  load_chunks_for_reading chunks_file reading_id = Ok loaded ->
  loaded
  = List.filter
      (fun r =>
         let rid := lower (strip (default "" (Models.reading_id r))) in
         truthy rid && String.eqb rid (lower (strip reading_id)))
      chunks_file.
Proof.
  intros H.
  destruct (search_backslash_ds (strip reading_id)) as [g|] eqn:Es.
  - exfalso. unfold load_chunks_for_reading, _reading_id_aliases in H.
    rewrite Es in H.
    pose proof (search_backslash_ds_spec (strip reading_id)) as Hs.
    rewrite Es in Hs. destruct Hs as [_ [ds ->]].
    rewrite int_backslash in H. discriminate.
  - rewrite (load_chunks_for_reading_plain chunks_file reading_id Es) in H.
    injection H as <-. reflexivity.
Qed.

End LoadExtras.

Lemma loaded_chunks_match_request_witness :
  [chunk_of_reading_3]
  = List.filter
      (fun r =>
         let rid := Py.lower (Py.strip (default "" (Models.reading_id r))) in
         Py.truthy rid && String.eqb rid (Py.lower (Py.strip " 3 ")))
      [chunk_of_reading_3].
Proof.
  exact (loaded_chunks_match_request [chunk_of_reading_3] " 3 " [chunk_of_reading_3]
           ltac:(vm_compute; reflexivity)).
Defined.

(** ** Extraction of page assets: the retry loop *)

Module VisionFacts.
Import Py Vision.

(** The attempts on which the model was called. *)
Definition generated (steps : list Step) : list Z :=
  flat_map (fun s => match s with Generate a => [a] | _ => [] end) steps.

Lemma keep_formulas_only parsed :
  Forall (fun a => asset_type a = "formula") (assets (keep_formulas parsed)).
Proof.
  unfold keep_formulas. simpl. apply Forall_forall. intros a Ha.
  apply list_elem_of_In, filter_In in Ha. destruct Ha as [_ Ha].
  apply String.eqb_eq in Ha. exact Ha.
Qed.

Section Loop.
Variable generate : Z -> result (option VisionExtractResult).
Variables (formula_only : bool) (retries page_1based : Z).

(** The loop calls the model on a prefix of the attempts that are left; when
    it returns, the last call is the one that succeeded and the calls before
    it failed; when it raises, every call it made failed. *)
Lemma retry_loop_spec attempts :
  let out := retry_loop generate formula_only retries page_1based attempts in
  exists after,
    attempts = generated (fst out) ++ after
    /\ match snd out with
       | Ok parsed =>
           exists before a,
             generated (fst out) = before ++ [a]
             /\ attempt_once generate formula_only a = Ok parsed
             /\ Forall (fun b => is_ok (attempt_once generate formula_only b) = false)
                  before
       | Raise _ =>
           Forall (fun b => is_ok (attempt_once generate formula_only b) = false)
             (generated (fst out))
       end.
Proof.
  cbn zeta. induction attempts as [|a rest IH]; simpl.
  - exists []. split; [reflexivity|constructor].
  - destruct (attempt_once generate formula_only a) as [parsed|e] eqn:Ea.
    + simpl. exists rest. split; [reflexivity|].
      exists [], a. split; [reflexivity|]. split; [exact Ea|constructor].
    + assert (Hfail : is_ok (attempt_once generate formula_only a) = false)
        by (rewrite Ea; reflexivity).
      destruct IH as (after & Hsplit & Hres).
      destruct (rate_limited e).
      * destruct (retry_loop generate formula_only retries page_1based rest)
          as [steps r]. simpl in *.
        exists after. split; [congruence|].
        destruct r as [parsed|e'].
        -- destruct Hres as (before & a' & Hg & Ha' & Hb).
           exists (a :: before), a'. rewrite Hg. split; [reflexivity|].
           split; [exact Ha'|constructor; assumption].
        -- constructor; assumption.
      * destruct (a =? retries - 1).
        -- simpl. exists rest. split; [reflexivity|]. constructor; [exact Hfail|constructor].
        -- destruct (retry_loop generate formula_only retries page_1based rest)
             as [steps r]. simpl in *.
           exists after. split; [congruence|].
           destruct r as [parsed|e'].
           ++ destruct Hres as (before & a' & Hg & Ha' & Hb).
              exists (a :: before), a'. rewrite Hg. split; [reflexivity|].
              split; [exact Ha'|constructor; assumption].
           ++ constructor; assumption.
Qed.

End Loop.

Lemma length_range n : Z.of_nat (List.length (range n)) = Z.max 0 n.
Proof. unfold range. rewrite length_map, length_seq. lia. Qed.

End VisionFacts.

Section VisionExtras.
Import Py Vision VisionFacts.

(** X20.  The retry loop of the asset extraction calls the model on the
    attempts 0, 1, 2, ... in order and at most [retries] times.  When it
    returns, the last call is the first one that succeeded, and the result
    is its response, reduced to the formula assets in formula-only mode.
    When it raises, every call it made had failed; with [retries <= 0] it
    raises without calling the model. *)
Theorem vision_retry_loop (generate : Z -> result (option VisionExtractResult))
    (page_1based retries : Z) (formula_only : bool) :
  let out := extract_page_assets_async generate page_1based retries formula_only in
  let calls := generated (fst out) in
  (exists after, range retries = calls ++ after)
  /\ Z.of_nat (List.length calls) <= Z.max 0 retries
  /\ (forall parsed, snd out = Ok parsed ->
        exists before a,
          calls = before ++ [a]
          /\ attempt_once generate formula_only a = Ok parsed
          /\ Forall (fun b => is_ok (attempt_once generate formula_only b) = false) before
          /\ (formula_only = true ->
              Forall (fun x => asset_type x = "formula") (assets parsed)))
  /\ (forall e, snd out = Raise e ->
        Forall (fun b => is_ok (attempt_once generate formula_only b) = false) calls)
  /\ (retries <= 0 -> fst out = [] /\ is_ok (snd out) = false).
Proof.
  cbn zeta. unfold extract_page_assets_async.
  pose proof (retry_loop_spec generate formula_only retries page_1based (range retries))
    as H. cbn zeta in H. destruct H as (after & Hsplit & Hres).
  split; [eauto|]. split; [|split; [|split]].
  - pose proof (length_range retries) as Hl. rewrite Hsplit in Hl.
    rewrite length_app in Hl. lia.
  - intros parsed Hp. rewrite Hp in Hres.
    destruct Hres as (before & a & Hg & Ha & Hb).
    exists before, a. split; [exact Hg|]. split; [exact Ha|]. split; [exact Hb|].
    intros ->. unfold attempt_once in Ha.
    destruct (generate a) as [[p|]|e]; try discriminate.
    injection Ha as <-. apply keep_formulas_only.
  - intros e He. rewrite He in Hres. exact Hres.
  - intros Hr. unfold range. replace (Z.to_nat retries) with 0%nat by lia.
    simpl. auto.
Qed.

End VisionExtras.

(** A model that is rate limited on the first attempt, answers nothing on
    the second and answers on the third. *)
Definition sample_generate (attempt : Z)
    : Py.result (option Vision.VisionExtractResult) :=
  if attempt =? 0 then Py.Raise (Py.Exception "429 Too Many Requests")
  else if attempt =? 1 then Py.Ok None
  else Py.Ok (Some {| Vision.doc_id := "vol1"; Vision.reading_id := "3";
                      Vision.page := 7;
                      Vision.assets :=
                        [ Vision.FormulaAsset "PV = FV / (1 + r)^n" "present value"
                            "discounting" 7;
                          Vision.TableAsset None ["Year"; "Rate"] [["1"; "2%"]] None 7 ] |}).

Example sample_extract :
  Vision.extract_page_assets_async sample_generate 7 5 true
  = ([ Vision.Generate 0; Vision.SleepBackoff 0; Vision.Generate 1;
       Vision.SleepOneSecond; Vision.Generate 2 ],
     Py.Ok {| Vision.doc_id := "vol1"; Vision.reading_id := "3"; Vision.page := 7;
              Vision.assets :=
                [ Vision.FormulaAsset "PV = FV / (1 + r)^n" "present value"
                    "discounting" 7 ] |}).
Proof. vm_compute. reflexivity. Qed.

(** ** Asset chunks: shape, skipped pages, and the reading of the command *)

Module VisionChunkFacts.
Import Py Models Vision VisionFacts VisionChunks.

Lemma extract_formula_only generate page_1based retries parsed :
  snd (extract_page_assets_async generate page_1based retries true) = Ok parsed ->
  Forall (fun a => asset_type a = "formula") (assets parsed).
Proof.
  unfold extract_page_assets_async. intros H.
  pose proof (retry_loop_spec generate true retries page_1based (range retries)) as Hs.
  cbn zeta in Hs. destruct Hs as (after & _ & Hres). rewrite H in Hres.
  destruct Hres as (before & a & _ & Ha & _).
  unfold attempt_once in Ha. destruct (generate a) as [[p|]|e]; try discriminate.
  injection Ha as <-. apply keep_formulas_only.
Qed.

Lemma formula_type a : asset_type a = "formula" -> asset_content_type a = Formula.
Proof. destruct a; simpl; intros H; try reflexivity; discriminate. Qed.

(** The schema's check of an asset chunk looks at the kind and the page
    only. *)
Definition accepted (kind : string) (page : Z) : bool :=
  (String.eqb kind "official" || String.eqb kind "schweser") && (1 <=? page).

Section WithServices.
Variable asset_json : Asset -> string.

Lemma _asset_to_chunk_cases doc_id reading_id source_path page asset kind :
  _asset_to_chunk asset_json doc_id reading_id source_path page asset kind
  = if accepted kind page
    then Ok {| chunk_id :=
                 Sha1.hexdigest
                   (doc_id +:+ "|p" +:+ str page +:+ "|" +:+ asset_type asset +:+ "|"
                    +:+ Sha1.hexdigest (asset_json asset));
               Models.doc_id := doc_id; kind := kind;
               Models.page := page; Models.reading_id := Some reading_id;
               section_path := [reading_id];
               content_type := asset_content_type asset;
               content := asset_content asset;
               span := {| start_char := 0; end_char := 0 |};
               content_hash := Sha1.hexdigest (asset_json asset);
               source_path := Some source_path;
               no_cut := true; bbox := None; page_size := None; block_ids := None;
               image_block_ids := None; image_bboxes := None |}
    else Raise (ValueError "validation error for Chunk").
Proof.
  unfold _asset_to_chunk, accepted, Schema.Chunk_valid, Schema.Span_valid. simpl.
  rewrite andb_true_r. reflexivity.
Qed.

(** What every chunk made of an asset of a page looks like. *)
Definition made_of (doc_id reading_id pdf_path : string) (p_num : Z) (png kind : string)
    (asset : Asset) (c : AssetChunk) : Prop :=
  Schema.Chunk_valid (chunk c) = true
  /\ Models.doc_id (chunk c) = doc_id /\ Models.kind (chunk c) = kind
  /\ Models.page (chunk c) = p_num
  /\ Models.reading_id (chunk c) = Some reading_id
  /\ section_path (chunk c) = [reading_id]
  /\ no_cut (chunk c) = true
  /\ span (chunk c) = {| start_char := 0; end_char := 0 |}
  /\ Models.source_path (chunk c) = Some pdf_path
  /\ image_ref c = Some png
  /\ extracted_struct c = Some asset
  /\ content_type (chunk c) = asset_content_type asset
  /\ content (chunk c) = asset_content asset
  /\ content_hash (chunk c) = Sha1.hexdigest (asset_json asset)
  /\ chunk_id (chunk c)
     = Sha1.hexdigest (doc_id +:+ "|p" +:+ str p_num +:+ "|" +:+ asset_type asset
                       +:+ "|" +:+ content_hash (chunk c)).

Lemma chunks_of_assets_ok doc_id reading_id pdf_path p_num png kind assets l :
  chunks_of_assets asset_json doc_id reading_id pdf_path p_num png kind assets = Ok l ->
  Forall2 (made_of doc_id reading_id pdf_path p_num png kind) assets l.
Proof.
  revert l. induction assets as [|a rest IH]; simpl; intros l H.
  - injection H as <-. constructor.
  - rewrite _asset_to_chunk_cases in H.
    destruct (accepted kind p_num) eqn:Hacc; [|discriminate]. simpl in H.
    destruct (chunks_of_assets asset_json doc_id reading_id pdf_path p_num png kind rest)
      as [more|e]; [|discriminate]. simpl in H. injection H as <-.
    constructor; [|apply IH; reflexivity].
    unfold made_of, Schema.Chunk_valid, Schema.Span_valid. simpl.
    unfold accepted in Hacc. rewrite Hacc. repeat split; reflexivity.
Qed.

Lemma chunks_of_assets_accepted doc_id reading_id pdf_path p_num png kind assets :
  accepted kind p_num = true ->
  exists l,
    chunks_of_assets asset_json doc_id reading_id pdf_path p_num png kind assets = Ok l.
Proof.
  intros Hacc. induction assets as [|a rest [l IH]]; simpl; [eauto|].
  rewrite _asset_to_chunk_cases, Hacc. simpl. rewrite IH. simpl. eauto.
Qed.

Lemma chunks_of_assets_refused doc_id reading_id pdf_path p_num png kind assets l :
  accepted kind p_num = false ->
  chunks_of_assets asset_json doc_id reading_id pdf_path p_num png kind assets = Ok l ->
  l = [].
Proof.
  intros Hacc. destruct assets as [|a rest]; simpl.
  - intros H. injection H as <-. reflexivity.
  - rewrite _asset_to_chunk_cases, Hacc. simpl. discriminate.
Qed.

Variable render_page_to_png : string -> Z -> string -> result unit.
Variable generate : string -> Z -> result (option VisionExtractResult).
Variable load_page_text : string -> Z -> option string.
Variable _is_formula_candidate : string -> bool.
Variable png_path : string -> string -> Z -> string.

(** The assets the extraction gives for a page, none when it raises. *)
Definition page_assets (assets_out_dir doc_id : string) (formula_only : bool)
    (p_num : Z) : list Asset :=
  match snd (extract_page_assets_async
               (generate (png_path assets_out_dir doc_id p_num)) p_num 5 formula_only)
  with
  | Ok result_ => assets result_
  | Raise _ => []
  end.

Lemma page_assets_formula assets_out_dir doc_id p_num :
  Forall (fun a => asset_type a = "formula")
    (page_assets assets_out_dir doc_id true p_num).
Proof.
  unfold page_assets.
  destruct (snd (extract_page_assets_async _ p_num 5 true)) as [r|e] eqn:E.
  - eapply extract_formula_only. exact E.
  - constructor.
Qed.

(** A page task gives nothing, or one chunk for each asset of the page. *)
Lemma _process_page_chunks pdf_path doc_id reading_id assets_out_dir kind formula_only
    p_num page_chunks :
  _process_page asset_json render_page_to_png generate png_path pdf_path doc_id
    reading_id assets_out_dir kind formula_only p_num = Some page_chunks ->
  is_ok (render_page_to_png pdf_path p_num (png_path assets_out_dir doc_id p_num)) = true
  /\ (page_chunks = []
      \/ Forall2 (made_of doc_id reading_id pdf_path p_num
                    (png_path assets_out_dir doc_id p_num) kind)
           (page_assets assets_out_dir doc_id formula_only p_num) page_chunks)
  /\ (accepted kind p_num = true ->
      Forall2 (made_of doc_id reading_id pdf_path p_num
                 (png_path assets_out_dir doc_id p_num) kind)
        (page_assets assets_out_dir doc_id formula_only p_num) page_chunks)
  /\ (accepted kind p_num = false -> page_chunks = []).
Proof.
  unfold _process_page, page_assets.
  destruct (render_page_to_png pdf_path p_num _) as [[]|e]; [|discriminate].
  intros H. injection H as <-. split; [reflexivity|].
  destruct (snd (extract_page_assets_async _ p_num 5 formula_only)) as [r|e]; simpl.
  - destruct (chunks_of_assets asset_json doc_id reading_id pdf_path p_num _ kind
                (assets r)) as [l|e] eqn:El.
    + pose proof (chunks_of_assets_ok _ _ _ _ _ _ _ _ El) as Hl.
      split; [right; exact Hl|]. split; [intros _; exact Hl|].
      intros Hacc. eapply chunks_of_assets_refused; eauto.
    + split; [left; reflexivity|]. split; [|reflexivity].
      intros Hacc.
      destruct (chunks_of_assets_accepted doc_id reading_id pdf_path p_num
                  (png_path assets_out_dir doc_id p_num) kind (assets r) Hacc)
        as [l Hl]. congruence.
  - split; [left; reflexivity|]. split; [intros _; constructor|reflexivity].
Qed.

Lemma _process_page_none pdf_path doc_id reading_id assets_out_dir kind formula_only
    p_num :
  _process_page asset_json render_page_to_png generate png_path pdf_path doc_id
    reading_id assets_out_dir kind formula_only p_num = None
  <-> is_ok (render_page_to_png pdf_path p_num (png_path assets_out_dir doc_id p_num))
      = false.
Proof.
  unfold _process_page.
  destruct (render_page_to_png pdf_path p_num _) as [[]|e]; simpl; split;
    intros H; try discriminate; reflexivity.
Qed.

Lemma gather_Forall2 {A B} (task : A -> option B) l results :
  gather task l = Some results -> Forall2 (fun a b => task a = Some b) l results.
Proof.
  revert results. induction l as [|a rest IH]; simpl; intros results H.
  - injection H as <-. constructor.
  - destruct (task a) as [b|] eqn:Ea; [|discriminate].
    destruct (gather task rest) as [more|]; [|discriminate].
    injection H as <-. constructor; auto.
Qed.

Lemma gather_none {A B} (task : A -> option B) l :
  gather task l = None <-> exists a, In a l /\ task a = None.
Proof.
  induction l as [|a rest IH]; simpl.
  - split; [discriminate|intros (a & [] & _)].
  - destruct (task a) as [b|] eqn:Ea.
    + destruct (gather task rest) as [more|].
      * split; [discriminate|]. intros (x & [<-|Hx] & Hn); [congruence|].
        assert (Hex : exists a0, In a0 rest /\ task a0 = None) by eauto.
        apply IH in Hex. discriminate.
      * split; [|reflexivity]. intros _.
        destruct (proj1 IH eq_refl) as (x & Hx & Hn). eauto.
    + split; [|reflexivity]. intros _. exists a. auto.
Qed.

Lemma candidate_pages_spec pdf_path pages kept :
  candidate_pages load_page_text _is_formula_candidate pdf_path pages = Some kept ->
  kept = List.filter
           (fun p => match load_page_text pdf_path p with
                     | Some text => _is_formula_candidate text
                     | None => false
                     end) pages
  /\ Forall (fun p => is_Some (load_page_text pdf_path p)) pages.
Proof.
  revert kept. induction pages as [|p rest IH]; simpl; intros kept H.
  - injection H as <-. split; [reflexivity|constructor].
  - destruct (load_page_text pdf_path p) as [text|] eqn:Et; [|discriminate].
    destruct (candidate_pages load_page_text _is_formula_candidate pdf_path rest)
      as [more|]; [|discriminate].
    destruct (IH more eq_refl) as [-> Hall].
    injection H as <-. split; [|constructor; eauto].
    destruct (_is_formula_candidate text); reflexivity.
Qed.

Lemma filter_sorted (f : Z -> bool) l :
  StronglySorted Z.lt l -> StronglySorted Z.lt (List.filter f l).
Proof.
  induction 1 as [|a l Hs IH Ha]; simpl; [constructor|].
  destruct (f a); [|exact IH]. constructor; [exact IH|].
  apply Forall_forall. intros x Hx. apply list_elem_of_In, filter_In in Hx.
  destruct Hx as [Hx _]. rewrite Forall_forall in Ha. apply Ha, list_elem_of_In, Hx.
Qed.

(** The pages the run works on. *)
Definition selected (pdf_path : string) (pages_range : list Z) (filter_mode : string)
    : option (list Z) :=
  if String.eqb filter_mode "formula-pages"
  then candidate_pages load_page_text _is_formula_candidate pdf_path pages_range
  else Some pages_range.

Lemma selected_sub pdf_path pages_range filter_mode pages :
  selected pdf_path pages_range filter_mode = Some pages ->
  Forall (fun p =>
            In p pages_range
            /\ (filter_mode = "formula-pages" ->
                exists text, load_page_text pdf_path p = Some text
                             /\ _is_formula_candidate text = true)) pages
  /\ (StronglySorted Z.lt pages_range -> StronglySorted Z.lt pages).
Proof.
  unfold selected. destruct (String.eqb_spec filter_mode "formula-pages") as [E|E].
  - intros H. apply candidate_pages_spec in H. destruct H as [-> _]. split.
    + apply Forall_forall. intros p Hp. apply list_elem_of_In, filter_In in Hp.
      destruct Hp as [Hin Hc]. split; [exact Hin|]. intros _.
      destruct (load_page_text pdf_path p) as [text|]; [eauto|discriminate].
    + apply filter_sorted.
  - intros H. injection H as <-. split; [|auto].
    apply Forall_forall. intros p Hp. apply list_elem_of_In in Hp.
    split; [exact Hp|]. intros; contradiction.
Qed.

Lemma process_vision_unfold pdf_path doc_id reading_id pages_range assets_out_dir kind
    formula_only filter_mode :
  process_vision_for_reading_async asset_json render_page_to_png generate
    load_page_text _is_formula_candidate png_path pdf_path doc_id reading_id
    pages_range assets_out_dir kind formula_only filter_mode
  = match selected pdf_path pages_range filter_mode with
    | Some pages =>
        match gather (_process_page asset_json render_page_to_png generate png_path
                        pdf_path doc_id reading_id assets_out_dir kind formula_only)
                pages with
        | Some results => Some (List.concat results)
        | None => None
        end
    | None => None
    end.
Proof.
  unfold process_vision_for_reading_async, selected.
  destruct (String.eqb filter_mode "formula-pages"); simpl.
  - destruct (candidate_pages _ _ pdf_path pages_range); reflexivity.
  - destruct (gather _ pages_range); reflexivity.
Qed.

End WithServices.

End VisionChunkFacts.

Section VisionChunkExtras.
Import Py Models Vision VisionFacts VisionChunks VisionChunkFacts.

Variable asset_json : Asset -> string.
Variable render_page_to_png : string -> Z -> string -> result unit.
Variable generate : string -> Z -> result (option VisionExtractResult).
Variable load_page_text : string -> Z -> option string.
Variable _is_formula_candidate : string -> bool.
Variable png_path : string -> string -> Z -> string.

(** X21.  Every chunk that a run of the asset extraction appends to the
    chunk stream is made of one asset extracted from one of the requested
    pages (a formula candidate page in the mode [formula-pages]): it passes
    the schema, is marked [no_cut], has the empty span, the content type,
    text and hash of its asset, the page's image as [image_ref], and the
    document, kind, reading and source of the run; in formula-only mode its
    content type is [formula]. *)
Theorem asset_chunks_shape (pdf_path doc_id reading_id : string) (pages_range : list Z)
    (assets_out_dir kind : string) (formula_only : bool) (filter_mode : string)
    (new_chunks : list AssetChunk) :
  process_vision_for_reading_async asset_json render_page_to_png generate
    load_page_text _is_formula_candidate png_path pdf_path doc_id reading_id
    pages_range assets_out_dir kind formula_only filter_mode = Some new_chunks ->
  Forall
    (fun c =>
       let p := Models.page (chunk c) in
       In p pages_range
       /\ (filter_mode = "formula-pages" ->
           exists text, load_page_text pdf_path p = Some text
                        /\ _is_formula_candidate text = true)
       /\ (exists asset,
             In asset (page_assets generate png_path assets_out_dir doc_id
                         formula_only p)
             /\ made_of asset_json doc_id reading_id pdf_path p
                  (png_path assets_out_dir doc_id p) kind asset c)
       /\ (formula_only = true -> content_type (chunk c) = Formula))
    new_chunks.
Proof.
  rewrite process_vision_unfold.
  destruct (selected load_page_text _is_formula_candidate pdf_path pages_range
              filter_mode) as [pages|] eqn:Hsel; [|discriminate].
  destruct (gather _ pages) as [results|] eqn:Hg; [|discriminate].
  intros H. injection H as <-.
  apply selected_sub in Hsel. destruct Hsel as [Hpages _].
  apply gather_Forall2 in Hg.
  induction Hg as [|p page_chunks pages results Hp Hg IH]; [constructor|].
  inversion Hpages as [|? ? [Hin Hcand] Hrest]; subst.
  simpl. apply Forall_app. split; [|apply IH; exact Hrest].
  apply _process_page_chunks in Hp. destruct Hp as (_ & [->|Hmade] & _); [constructor|].
  assert (Hall : forall assets,
            Forall2 (made_of asset_json doc_id reading_id pdf_path p
                       (png_path assets_out_dir doc_id p) kind) assets page_chunks ->
            Forall (fun c => exists asset, In asset assets
                               /\ made_of asset_json doc_id reading_id pdf_path p
                                    (png_path assets_out_dir doc_id p) kind asset c)
              page_chunks).
  { clear. intros assets H. induction H as [|a c assets l Hac H IH]; constructor.
    - exists a. split; [left; reflexivity|exact Hac].
    - eapply Forall_impl; [exact IH|]. simpl. intros c' (a' & Ha' & Hm). eauto. }
  eapply Forall_impl; [exact (Hall _ Hmade)|]. simpl.
  intros c (asset & Hasset & Hm).
  assert (Hpage : Models.page (chunk c) = p) by (destruct Hm as (_ & _ & _ & Hm & _); exact Hm).
  rewrite Hpage. split; [exact Hin|]. split; [exact Hcand|].
  split; [exists asset; split; assumption|].
  intros ->.
  pose proof (page_assets_formula generate png_path assets_out_dir doc_id p) as Hf.
  rewrite Forall_forall in Hf. apply list_elem_of_In in Hasset.
  specialize (Hf asset Hasset). simpl in Hf.
  destruct Hm as (_ & _ & _ & _ & _ & _ & _ & _ & _ & _ & _ & Hct & _).
  rewrite Hct. apply formula_type. exact Hf.
Qed.

(** X22.  A page whose extraction fails is skipped, and nothing else is:
    the run raises exactly when a page cannot be loaded for the filter or
    cannot be rendered; otherwise, for a kind the schema allows and pages
    from 1 on, the appended chunks are, page after page in the order of the
    request, one for each asset extracted (none for a page whose
    extraction raised); for any other kind the run appends nothing and
    reports nothing. *)
Theorem failed_pages_are_skipped (pdf_path doc_id reading_id : string)
    (pages_range : list Z) (assets_out_dir kind : string) (formula_only : bool)
    (filter_mode : string) :
  let run :=
    process_vision_for_reading_async asset_json render_page_to_png generate
      load_page_text _is_formula_candidate png_path pdf_path doc_id reading_id
      pages_range assets_out_dir kind formula_only filter_mode in
  match selected load_page_text _is_formula_candidate pdf_path pages_range filter_mode
  with
  | None => run = None
  | Some pages =>
      (run = None
       <-> exists p, In p pages
                     /\ is_ok (render_page_to_png pdf_path p
                                 (png_path assets_out_dir doc_id p)) = false)
      /\ forall new_chunks, run = Some new_chunks ->
           (kind = "official" \/ kind = "schweser" ->
            Forall (fun p => 1 <= p) pages ->
            Forall2
              (fun pa c =>
                 made_of asset_json doc_id reading_id pdf_path (fst pa)
                   (png_path assets_out_dir doc_id (fst pa)) kind (snd pa) c)
              (flat_map
                 (fun p => List.map (pair p)
                             (page_assets generate png_path assets_out_dir doc_id
                                formula_only p)) pages)
              new_chunks)
           /\ (kind <> "official" -> kind <> "schweser" -> new_chunks = [])
  end.
Proof.
  cbn zeta. rewrite process_vision_unfold.
  destruct (selected load_page_text _is_formula_candidate pdf_path pages_range
              filter_mode) as [pages|]; [|reflexivity].
  set (task := _process_page asset_json render_page_to_png generate png_path pdf_path
                 doc_id reading_id assets_out_dir kind formula_only).
  split.
  - destruct (gather task pages) as [results|] eqn:Hg.
    + split; [discriminate|]. intros (p & Hp & Hr).
      assert (Hex : exists a, In a pages /\ task a = None).
      { exists p. split; [exact Hp|]. apply _process_page_none. exact Hr. }
      apply gather_none in Hex. congruence.
    + split; [|reflexivity]. intros _. apply gather_none in Hg.
      destruct Hg as (p & Hp & Hn). exists p. split; [exact Hp|].
      apply _process_page_none in Hn. exact Hn.
  - intros new_chunks H.
    destruct (gather task pages) as [results|] eqn:Hg; [|discriminate].
    injection H as <-. apply gather_Forall2 in Hg. split.
    + intros Hkind Hpos.
      induction Hg as [|p page_chunks pages results Hp Hg IH]; [constructor|].
      inversion Hpos as [|? ? Hp1 Hrest]; subst. simpl.
      apply Forall2_app; [|apply IH; exact Hrest].
      apply _process_page_chunks in Hp. destruct Hp as (_ & _ & Hacc & _).
      assert (Ha : accepted kind p = true).
      { unfold accepted. apply andb_true_iff. split; [|apply Z.leb_le; exact Hp1].
        destruct Hkind as [->| ->]; reflexivity. }
      specialize (Hacc Ha). clear -Hacc.
      induction Hacc; simpl; constructor; auto.
    + intros H1 H2.
      assert (Ha : forall p, accepted kind p = false).
      { intros p. unfold accepted.
        destruct (String.eqb_spec kind "official"); [contradiction|].
        destruct (String.eqb_spec kind "schweser"); [contradiction|]. reflexivity. }
      induction Hg as [|p page_chunks pages results Hp Hg IH]; [reflexivity|].
      simpl. rewrite IH.
      apply _process_page_chunks in Hp. destruct Hp as (_ & _ & _ & Hnil).
      rewrite (Hnil (Ha p)). reflexivity.
Qed.

End VisionChunkExtras.

Module VisionCommandFacts.
Import Py Models Vision VisionFacts VisionChunks VisionChunkFacts.

Lemma range2_In a b p : In p (range2 a b) <-> a <= p < b.
Proof.
  unfold range2. rewrite in_map_iff. split.
  - intros (i & <- & Hi). apply in_seq in Hi. lia.
  - intros Hp. exists (Z.to_nat (p - a)). split; [lia|]. apply in_seq. lia.
Qed.

Lemma range2_sorted a b : StronglySorted Z.lt (range2 a b).
Proof.
  unfold range2. generalize (Z.to_nat (b - a)) as n. generalize 0%nat as s.
  intros s n. revert s. induction n as [|n IH]; intros s; simpl; constructor.
  - apply IH.
  - apply Forall_forall. intros x Hx. apply list_elem_of_In, in_map_iff in Hx.
    destruct Hx as (i & <- & Hi). apply in_seq in Hi. lia.
Qed.

Lemma concat_sorted {A} (f : A -> Z) pages (results : list (list A)) :
  StronglySorted Z.lt pages ->
  Forall2 (fun p cs => Forall (fun c => f c = p) cs) pages results ->
  StronglySorted Z.le (List.map f (List.concat results)).
Proof.
  intros Hs H. induction H as [|p cs pages results Hcs H IH]; simpl; [constructor|].
  inversion Hs as [|? ? Hs' Hlt]; subst. specialize (IH Hs').
  assert (Hlater : Forall (fun y => p < y) (List.map f (List.concat results))).
  { clear -H Hlt. induction H as [|q ds pages results Hds H IH]; simpl; [constructor|].
    inversion Hlt as [|? ? Hq Hlt']; subst.
    rewrite map_app. apply Forall_app. split; [|apply IH; exact Hlt'].
    apply Forall_forall. intros y Hy. apply list_elem_of_In, in_map_iff in Hy.
    destruct Hy as (c & <- & Hc). rewrite Forall_forall in Hds.
    rewrite (Hds c); [exact Hq|]. apply list_elem_of_In. exact Hc. }
  rewrite map_app. clear H Hs Hs' Hlt.
  induction Hcs as [|c cs Hc Hcs IHcs]; simpl; [exact IH|].
  constructor; [exact IHcs|]. apply Forall_app. split.
  - apply Forall_forall. intros y Hy. apply list_elem_of_In, in_map_iff in Hy.
    destruct Hy as (c' & <- & Hc'). rewrite Forall_forall in Hcs.
    rewrite Hc, (Hcs c'); [lia|]. apply list_elem_of_In. exact Hc'.
  - eapply Forall_impl; [exact Hlater|]. simpl. intros y Hy. lia.
Qed.

Section WithServices.
Variable asset_json : Asset -> string.
Variable render_page_to_png : string -> Z -> string -> result unit.
Variable generate : string -> Z -> result (option VisionExtractResult).
Variable load_page_text : string -> Z -> option string.
Variable _is_formula_candidate : string -> bool.
Variable png_path : string -> string -> Z -> string.

(** The chunks of a run carry the reading of the run and the page of their
    task; their pages are requested pages, in the order of the request. *)
Lemma process_vision_pages pdf_path doc_id reading_id pages_range assets_out_dir kind
    formula_only filter_mode new_chunks :
  process_vision_for_reading_async asset_json render_page_to_png generate
    load_page_text _is_formula_candidate png_path pdf_path doc_id reading_id
    pages_range assets_out_dir kind formula_only filter_mode = Some new_chunks ->
  Forall (fun c => In (Models.page (chunk c)) pages_range
                   /\ Models.reading_id (chunk c) = Some reading_id
                   /\ Models.doc_id (chunk c) = doc_id) new_chunks
  /\ (StronglySorted Z.lt pages_range ->
      StronglySorted Z.le (List.map (fun c => Models.page (chunk c)) new_chunks)).
Proof.
  rewrite process_vision_unfold.
  destruct (selected load_page_text _is_formula_candidate pdf_path pages_range
              filter_mode) as [pages|] eqn:Hsel; [|discriminate].
  destruct (gather _ pages) as [results|] eqn:Hg; [|discriminate].
  intros H. injection H as <-.
  apply selected_sub in Hsel. destruct Hsel as [Hpages Hsorted].
  apply gather_Forall2 in Hg.
  assert (Hres : Forall2
            (fun p cs => Forall (fun c => Models.page (chunk c) = p
                                          /\ Models.reading_id (chunk c) = Some reading_id
                                          /\ Models.doc_id (chunk c) = doc_id) cs)
            pages results).
  { eapply Forall2_impl; [exact Hg|]. simpl. intros p cs Hp.
    apply _process_page_chunks in Hp. destruct Hp as (_ & [->|Hm] & _); [constructor|].
    induction Hm as [|a c assets l Hac Hm IH]; constructor; [|exact IH].
    destruct Hac as (_ & Hd & _ & Hp & Hr & _). auto. }
  split.
  - clear Hg Hsorted.
    induction Hres as [|p cs pages results Hcs Hres IH]; simpl; [constructor|].
    inversion Hpages as [|? ? [Hin _] Hrest]; subst.
    apply Forall_app. split; [|apply IH; exact Hrest].
    eapply Forall_impl; [exact Hcs|]. simpl. intros c (-> & Hr & Hd). auto.
  - intros Hs. apply (concat_sorted _ pages); [apply Hsorted; exact Hs|].
    eapply Forall2_impl; [exact Hres|]. simpl. intros p cs Hcs.
    eapply Forall_impl; [exact Hcs|]. simpl. intros c (Hp & _). exact Hp.
Qed.

End WithServices.

End VisionCommandFacts.

Section VisionCommandExtras.
Import Py PyFacts StripFacts Models Chunker Retrieval ReadingMapFacts FindReadingFacts.
Import DigitFacts Vision VisionChunks VisionChunkFacts VisionCommandFacts.

Variable asset_json : Asset -> string.
Variable render_page_to_png : string -> Z -> string -> result unit.
Variable generate : string -> Z -> result (option VisionExtractResult).
Variable load_page_text : string -> Z -> option string.
Variable _is_formula_candidate : string -> bool.
Variable png_path : string -> string -> Z -> string.
Variable assets_path : string -> string.
Variable vision_assets_dir : string -> string -> string.

(** X23.  The [vision extract] command agrees with the chunkers on the
    reading of a page: on a reading map whose intervals for the document
    are chained, every chunk it appends lies on a page of the interval of
    the requested reading, carries the normalized reading id, and that id
    is the one [_find_reading_id] gives for the page; the appended chunks
    are in page order. *)
Theorem vision_command_reading (manifest : list ReadingMapBuilder.Document)
    (reading_map : gmap string (list ReadingInterval)) (doc reading : string)
    (formula_only : bool) (filter_mode : string) (n_pages : Z)
    (intervals : list ReadingInterval) (new_chunks : list AssetChunk) :
  reading_map !! doc = Some intervals ->
  chained n_pages intervals ->
  vision_extract asset_json render_page_to_png generate load_page_text
    _is_formula_candidate png_path assets_path vision_assets_dir manifest reading_map
    doc reading formula_only filter_mode = Ok (Some new_chunks) ->
  exists reading_norm iv,
    Cli._normalize_reading_id reading = Ok reading_norm
    /\ In iv intervals /\ ri_reading_id iv = reading_norm
    /\ Forall
         (fun c =>
            page_start iv <= Models.page (chunk c) <= page_end iv
            /\ Models.doc_id (chunk c) = doc
            /\ Models.reading_id (chunk c) = Some reading_norm
            /\ _find_reading_id reading_map doc (Models.page (chunk c))
               = Some reading_norm)
         new_chunks
    /\ StronglySorted Z.le (List.map (fun c => Models.page (chunk c)) new_chunks).
Proof.
  intros Hmap Hch. unfold vision_extract.
  destruct (List.find _ manifest) as [doc_entry|]; [|discriminate].
  destruct (Cli._normalize_reading_id reading) as [reading_norm|e]; [|discriminate].
  simpl bind. rewrite Hmap. simpl default.
  destruct (List.find _ intervals) as [iv|] eqn:Hfind; [|discriminate].
  intros H. injection H as H.
  apply find_some in Hfind. destruct Hfind as [Hin Heq]. apply String.eqb_eq in Heq.
  apply process_vision_pages in H. destruct H as [Hall Hsorted].
  exists reading_norm, iv. split; [reflexivity|]. split; [exact Hin|].
  split; [exact Heq|]. split; [|apply Hsorted, range2_sorted].
  eapply Forall_impl; [exact Hall|]. simpl. intros c (Hp & Hr & Hd).
  apply range2_In in Hp.
  assert (Hiv : page_start iv <= Models.page (chunk c) <= page_end iv) by lia.
  split; [exact Hiv|]. split; [exact Hd|]. split; [exact Hr|].
  unfold _find_reading_id. rewrite Hmap. simpl default.
  change (fun it => (page_start it <=? Models.page (chunk c))
                    && (Models.page (chunk c) <=? page_end it))
    with (holds (Models.page (chunk c))).
  rewrite (find_holds n_pages _ _ iv Hch Hin Hiv). simpl. rewrite Heq. reflexivity.
Qed.


End VisionCommandExtras.

(** A run of the command on the second reading of the sample map: every
    page is rendered, the model answers on the third attempt, and the
    serialization of an asset is stood for by its text. *)
Definition sample_png_path (assets_out_dir doc_id : string) (p_num : Z) : string :=
  assets_out_dir +:+ "/" +:+ doc_id +:+ "/page_" +:+ Py.str p_num +:+ ".png".

Definition sample_vision_extract (reading : string) (formula_only : bool)
    : Py.result (option (list VisionChunks.AssetChunk)) :=
  VisionChunks.vision_extract VisionChunks.asset_content (fun _ _ _ => Py.Ok tt)
    (fun _ => sample_generate) (fun _ _ => Some "PV = FV / (1 + r)^n")
    (fun _ => true) sample_png_path (fun path => "assets/" +:+ path)
    (fun doc reading_norm => "output/vision_assets/" +:+ doc +:+ "/" +:+ reading_norm)
    sample_manifest {[ "vol1" := sample_intervals ]} "vol1" reading formula_only "all".

Definition sample_asset_chunks : list VisionChunks.AssetChunk :=
  Eval vm_compute in
    match sample_vision_extract "Reading 2" true with
    | Py.Ok (Some new_chunks) => new_chunks
    | _ => []
    end.

Example sample_vision_run :
  sample_vision_extract "Reading 2" true = Py.Ok (Some sample_asset_chunks).
Proof. vm_compute. reflexivity. Qed.

Example sample_vision_pages :
  List.map (fun c => (Models.page (VisionChunks.chunk c),
                      Models.content (VisionChunks.chunk c),
                      VisionChunks.image_ref c)) sample_asset_chunks
  = [ (4, "Formula: discounting PV = FV / (1 + r)^n",
       Some "output/vision_assets/vol1/2/vol1/page_4.png");
      (5, "Formula: discounting PV = FV / (1 + r)^n",
       Some "output/vision_assets/vol1/2/vol1/page_5.png") ].
Proof. vm_compute. reflexivity. Qed.

Example sample_process_vision :
  VisionChunks.process_vision_for_reading_async VisionChunks.asset_content
    (fun _ _ _ => Py.Ok tt) (fun _ => sample_generate)
    (fun _ _ => Some "PV = FV / (1 + r)^n") (fun _ => true) sample_png_path
    "assets/vol1.pdf" "vol1" "2" (VisionChunks.range2 4 6)
    "output/vision_assets/vol1/2" "official" true "all"
  = Some sample_asset_chunks.
Proof. vm_compute. reflexivity. Qed.

Lemma asset_chunks_shape_witness :
  Forall (fun c => In (Models.page (VisionChunks.chunk c)) (VisionChunks.range2 4 6)
                   /\ Models.content_type (VisionChunks.chunk c) = Models.Formula)
    sample_asset_chunks.
Proof.
  eapply Forall_impl;
    [exact (asset_chunks_shape VisionChunks.asset_content (fun _ _ _ => Py.Ok tt)
              (fun _ => sample_generate) (fun _ _ => Some "PV = FV / (1 + r)^n")
              (fun _ => true) sample_png_path "assets/vol1.pdf" "vol1" "2"
              (VisionChunks.range2 4 6) "output/vision_assets/vol1/2" "official" true
              "all" sample_asset_chunks sample_process_vision)|].
  intros c (Hin & _ & _ & Hformula). exact (conj Hin (Hformula eq_refl)).
Defined.

Lemma vision_command_reading_witness :
  exists reading_norm iv,
    Cli._normalize_reading_id "Reading 2" = Py.Ok reading_norm
    /\ In iv sample_intervals /\ Models.ri_reading_id iv = reading_norm
    /\ Forall
         (fun c =>
            Models.page_start iv <= Models.page (VisionChunks.chunk c)
              <= Models.page_end iv
            /\ Models.doc_id (VisionChunks.chunk c) = "vol1"
            /\ Models.reading_id (VisionChunks.chunk c) = Some reading_norm
            /\ Chunker._find_reading_id {[ "vol1" := sample_intervals ]} "vol1"
                 (Models.page (VisionChunks.chunk c)) = Some reading_norm)
         sample_asset_chunks
    /\ StronglySorted Z.le
         (List.map (fun c => Models.page (VisionChunks.chunk c)) sample_asset_chunks).
Proof.
  refine (vision_command_reading VisionChunks.asset_content (fun _ _ _ => Py.Ok tt)
            (fun _ => sample_generate) (fun _ _ => Some "PV = FV / (1 + r)^n")
            (fun _ => true) sample_png_path (fun path => "assets/" +:+ path)
            (fun doc reading_norm =>
               "output/vision_assets/" +:+ doc +:+ "/" +:+ reading_norm)
            sample_manifest {[ "vol1" := sample_intervals ]} "vol1" "Reading 2" true
            "all" 5 sample_intervals sample_asset_chunks _ _ sample_vision_run).
  - reflexivity.
  - simpl. lia.
Defined.


(** ** The reading ids of the map are decimal numerals *)

Module ReadingIdFacts.
Import Py PyFacts StripFacts Models ReadingMapBuilder ReadingMapFacts ReadingMapMore.
Import DigitFacts.

(** The three patterns of [_normalize_reading_id]; their group 1 is
    [(\d+)]. *)
Definition id_patterns : list string :=
  [ "\bR\s*(\d+)\b"; "\bLearning\s+Module\s*(\d+)\b"; "\bReading\s*(\d+)\b" ].

(** What the regular-expression engine guarantees for these patterns: the
    group 1 of a match is a digit string. *)
Definition digit_groups (re_search : Regex) : Prop :=
  forall pattern s m,
    In pattern id_patterns -> re_search pattern s = Some m ->
    isdigit (group m 1) = true.

(** The decimal form of a natural number. *)
Definition canonical (rid : string) : Prop := exists n, 0 <= n /\ rid = str n.

Lemma isdigit_spec s : isdigit s = true -> digits_only s /\ s <> EmptyString.
Proof.
  unfold isdigit. intros H. apply andb_true_iff in H. destruct H as [Ht Hd].
  split; [|apply truthy_spec; exact Ht].
  unfold digits_only. apply Forall_forall. intros c Hc.
  rewrite forallb_forall in Hd. apply Hd, list_elem_of_In, Hc.
Qed.

Lemma renumber_canonical m rid :
  isdigit (group m 1) = true -> renumber m = Ok rid -> canonical rid.
Proof.
  intros Hd. apply isdigit_spec in Hd. destruct Hd as [Hd Hne].
  unfold renumber. rewrite (int_digits _ Hd Hne).
  destruct (digits_value_digits _ Hd 0 false ltac:(lia) (or_introl Hne))
    as (n & -> & Hn).
  intros H. injection H as <-. exists n. auto.
Qed.

Lemma canonical_fixed rid :
  canonical rid -> Cli._normalize_reading_id rid = Ok rid.
Proof.
  intros (n & Hn & ->). destruct (str_digits n Hn) as (Hd & Hne & Hint).
  unfold Cli._normalize_reading_id.
  rewrite (strip_digits _ Hd), (search_digits_all _ Hd Hne), Hint. reflexivity.
Qed.

Section WithCollaborators.
Variable re_search : Regex.
Variable extract_toc : string -> list (Z * string) -> option TocMapSchema.
Variable confirm_reading_start : string -> string -> option ReadingStartSchema.
Hypothesis Hgroups : digit_groups re_search.

Lemma _normalize_reading_id_canonical value fallback_idx rid :
  0 <= fallback_idx ->
  _normalize_reading_id re_search value fallback_idx = Ok rid -> canonical rid.
Proof.
  intros Hf. unfold _normalize_reading_id.
  assert (Hfb : forall r, Ok (str fallback_idx) = Ok r -> canonical r).
  { intros r H. injection H as <-. exists fallback_idx. auto. }
  destruct (truthy (default "" value)); [|apply Hfb].
  destruct (re_search "\bR\s*(\d+)\b" _) as [m|] eqn:E1.
  { apply renumber_canonical. eapply Hgroups; [|exact E1]. simpl. auto. }
  destruct (re_search "\bLearning\s+Module\s*(\d+)\b" _) as [m|] eqn:E2.
  { apply renumber_canonical. eapply Hgroups; [|exact E2]. simpl. auto. }
  destruct (re_search "\bReading\s*(\d+)\b" _) as [m|] eqn:E3.
  { apply renumber_canonical. eapply Hgroups; [|exact E3]. simpl. auto. }
  destruct (isdigit (strip (default "" value))) eqn:Ed; [|apply Hfb].
  apply renumber_canonical. exact Ed.
Qed.

Lemma toc_loop_ids n_pages entries :
  forall acc out,
    Forall (fun r => canonical (fst (fst r))) acc ->
    toc_loop re_search n_pages entries acc = Ok out ->
    Forall (fun r => canonical (fst (fst r))) out.
Proof.
  induction entries as [|entry rest IH]; intros acc out Hacc H; simpl in H.
  - injection H as <-. exact Hacc.
  - destruct (negb (truthy (strip (toc_reading_title entry)))); [eapply IH; eauto|].
    destruct (_normalize_reading_id re_search (toc_reading_id entry) _) as [rid|e] eqn:En;
      [|discriminate].
    simpl in H. eapply IH; [|exact H].
    apply Forall_app. split; [exact Hacc|].
    constructor; [|constructor]. simpl.
    eapply _normalize_reading_id_canonical; [|exact En]. lia.
Qed.

Lemma keep_paged_ids (l : list (string * string * option Z)) :
  Forall (fun r => canonical (fst (fst r))) l ->
  Forall (fun r => canonical (reading_id r)) (flat_map keep_paged l).
Proof.
  induction 1 as [|[[rid title] [p|]] l Hr Hl IH]; simpl; auto.
  destruct (p =? 0); simpl; auto.
Qed.

Lemma _normalize_toc_entries_ids entries n_pages out :
  _normalize_toc_entries re_search entries n_pages = Ok out ->
  Forall (fun r => canonical (reading_id r)) out.
Proof.
  unfold _normalize_toc_entries. intros H.
  destruct (toc_loop re_search n_pages entries []) as [l|e] eqn:E; [|discriminate].
  simpl in H. injection H as <-.
  apply keep_paged_ids. eapply toc_loop_ids; [|exact E]. constructor.
Qed.

Lemma scan_loop_ids use_llm llm_model pages :
  forall i acc out,
    Forall (fun r => canonical (reading_id r)) acc ->
    scan_loop re_search confirm_reading_start use_llm llm_model i pages acc = Ok out ->
    Forall (fun r => canonical (reading_id r)) out.
Proof.
  induction pages as [|text rest IH]; intros i acc out Hacc H; simpl in H.
  - injection H as <-. exact Hacc.
  - destruct (negb (truthy text)); [eapply IH; eauto|].
    destruct (negb (_is_candidate_page re_search text)); [eapply IH; eauto|].
    destruct use_llm.
    + destruct (confirm_reading_start llm_model text) as [parsed|];
        [|eapply IH; eauto].
      destruct (negb (is_reading_start parsed)); [eapply IH; eauto|].
      destruct (_normalize_reading_id re_search (rs_reading_id parsed) _) as [rid|e] eqn:En;
        [|discriminate].
      simpl in H. eapply IH; [|exact H].
      apply Forall_app. split; [exact Hacc|].
      constructor; [|constructor]. simpl.
      eapply _normalize_reading_id_canonical; [|exact En]. lia.
    + eapply IH; [|exact H].
      apply Forall_app. split; [exact Hacc|].
      constructor; [|constructor]. simpl.
      exists (Z.of_nat (List.length acc) + 1). split; [lia|reflexivity].
Qed.

Lemma close_intervals_ids (P : string -> Prop) n_pages l :
  Forall (fun r => P (reading_id r)) l ->
  Forall (fun a => P (ri_reading_id a)) (close_intervals n_pages l).
Proof. induction 1 as [|r l Hr Hl IH]; simpl; constructor; auto. Qed.

Lemma intervals_of_ids doc_id n_pages reading_starts intervals :
  Forall (fun r => canonical (reading_id r)) reading_starts ->
  intervals_of doc_id n_pages reading_starts = Ok intervals ->
  Forall (fun a => canonical (ri_reading_id a)) intervals.
Proof.
  intros Hs. unfold intervals_of.
  set (cleaned := clean 0 _).
  assert (Hc : Forall (fun r => canonical (reading_id r)) cleaned).
  { unfold cleaned. apply clean_Forall, sorted_by_start_Forall, dedup_Forall. exact Hs. }
  destruct cleaned as [|r rest]; [discriminate|].
  intros H; injection H as <-.
  exact (close_intervals_ids canonical n_pages (r :: rest) Hc).
Qed.

Lemma build_reading_map_for_doc_ids manifest pdf persisted doc_id use_llm llm_model
    max_pages toc_pages data :
  build_reading_map_for_doc re_search extract_toc confirm_reading_start manifest
    pdf persisted doc_id use_llm llm_model max_pages toc_pages = Ok data ->
  exists intervals,
    data !! doc_id = Some intervals
    /\ Forall (fun a => canonical (ri_reading_id a)) intervals.
Proof.
  unfold build_reading_map_for_doc.
  destruct (List.find _ manifest) as [doc_entry|]; [|discriminate].
  destruct (pdf (path doc_entry)) as [pages|]; [|discriminate].
  set (n_pages := Z.of_nat (List.length pages)).
  set (scan_pages := match max_pages with
                     | Some m => if m =? 0 then n_pages else py_min n_pages m
                     | None => n_pages
                     end).
  set (from_toc := if use_llm then _ else []).
  assert (Htoc : Forall (fun r => canonical (reading_id r)) from_toc).
  { unfold from_toc. destruct use_llm; [|constructor].
    destruct (extract_toc llm_model _) as [toc_parsed|]; [|constructor].
    destruct (entries toc_parsed) as [|e es]; [constructor|].
    destruct (_normalize_toc_entries re_search (e :: es) n_pages) as [rs|err] eqn:En;
      [|constructor].
    eapply _normalize_toc_entries_ids. exact En. }
  set (starts := match from_toc with
                 | [] => scan_loop re_search confirm_reading_start use_llm llm_model 0
                           (firstn (Z.to_nat scan_pages) pages) []
                 | _ :: _ => Ok from_toc
                 end).
  assert (Hstarts : forall rs, starts = Ok rs ->
                      Forall (fun r => canonical (reading_id r)) rs).
  { intros rs Hrs. unfold starts in Hrs.
    destruct from_toc as [|x from_toc'] eqn:Eft.
    - eapply scan_loop_ids; [|exact Hrs]. constructor.
    - injection Hrs as <-. exact Htoc. }
  destruct starts as [reading_starts|e] eqn:Es; [|discriminate].
  simpl.
  destruct (intervals_of doc_id n_pages reading_starts) as [intervals|e] eqn:E;
    [|discriminate].
  simpl. intros H; injection H as <-.
  exists intervals. split; [unfold merge_into; apply lookup_insert_eq|].
  eapply intervals_of_ids; [|exact E]. apply Hstarts. reflexivity.
Qed.

End WithCollaborators.

End ReadingIdFacts.

Section ReadingIdExtras.
Import Py Models ReadingMapBuilder ReadingIdFacts.
Variable re_search : Regex.
Variable extract_toc : string -> list (Z * string) -> option TocMapSchema.
Variable confirm_reading_start : string -> string -> option ReadingStartSchema.

(** X25.  With a regular-expression engine whose group [(\d+)] is a digit
    string, every reading id that [build_reading_map_for_doc] stores for
    the document is the decimal form [str(n)] of a number [n >= 0],
    whatever the model answered; so the command line's normalization
    leaves it as it is, and a request normalized to [str(n)] names it. *)
Theorem reading_ids_are_numerals (manifest : list Document)
    (pdf : string -> option (list string))
    (persisted : option (gmap string (list ReadingInterval)))
    (doc_id : string) (use_llm : bool) (llm_model : string)
    (max_pages : option Z) (toc_pages : Z)
    (data : gmap string (list ReadingInterval)) :
  digit_groups re_search ->
  build_reading_map_for_doc re_search extract_toc confirm_reading_start manifest pdf
    persisted doc_id use_llm llm_model max_pages toc_pages = Ok data ->
  exists intervals,
    data !! doc_id = Some intervals
    /\ Forall (fun a =>
                 (exists n, 0 <= n /\ ri_reading_id a = str n)
                 /\ Cli._normalize_reading_id (ri_reading_id a) = Ok (ri_reading_id a))
         intervals.
Proof.
  intros Hg H.
  destruct (build_reading_map_for_doc_ids re_search extract_toc confirm_reading_start
              Hg _ _ _ _ _ _ _ _ _ H) as (intervals & Hd & Hall).
  exists intervals. split; [exact Hd|].
  eapply Forall_impl; [exact Hall|]. simpl. intros a Ha.
  split; [exact Ha|]. apply canonical_fixed. exact Ha.
Qed.

End ReadingIdExtras.

(** A document whose second and fourth pages open readings that the model
    names "Reading 03" and "Learning Module 4". *)
Definition sample_id_regex : Py.Regex :=
  fun pattern s =>
    if String.eqb pattern "\bLearning\s+Outcomes\b" && Py.contains "Learning Outcomes" s
    then Some ["Learning Outcomes"]
    else if String.eqb pattern "\bReading\s*(\d+)\b" && String.eqb s "Reading 03"
    then Some ["Reading 03"; "03"]
    else if String.eqb pattern "\bLearning\s+Module\s*(\d+)\b"
            && String.eqb s "Learning Module 4"
    then Some ["Learning Module 4"; "4"]
    else None.

Definition sample_confirm (llm_model text : string)
    : option ReadingMapBuilder.ReadingStartSchema :=
  Some {| ReadingMapBuilder.is_reading_start := true;
          ReadingMapBuilder.rs_reading_id :=
            Some (if Py.contains "rates" text then "Reading 03"
                  else "Learning Module 4");
          ReadingMapBuilder.rs_reading_title := Some "" |}.

Lemma sample_id_regex_groups : ReadingIdFacts.digit_groups sample_id_regex.
Proof.
  intros pattern s m Hp H. unfold sample_id_regex in H.
  destruct (String.eqb pattern "\bLearning\s+Outcomes\b" && _) eqn:E1.
  - apply andb_true_iff in E1. destruct E1 as [E1 _]. apply String.eqb_eq in E1.
    subst pattern. simpl in Hp. destruct Hp as [Hp|[Hp|[Hp|[]]]]; discriminate.
  - destruct (String.eqb pattern "\bReading\s*(\d+)\b" && _).
    + injection H as <-. reflexivity.
    + destruct (String.eqb pattern "\bLearning\s+Module\s*(\d+)\b" && _);
        [|discriminate].
      injection H as <-. reflexivity.
Qed.

Example sample_id_build :
  ReadingMapBuilder.build_reading_map_for_doc sample_id_regex (fun _ _ => None)
    sample_confirm sample_manifest sample_pdf None "vol1" true
    "gemini-3-flash-preview" None 15
  = Py.Ok {[ "vol1" :=
               [ {| Models.ri_reading_id := "3"; Models.ri_reading_title := "";
                    Models.page_start := 2; Models.page_end := 3 |};
                 {| Models.ri_reading_id := "4"; Models.ri_reading_title := "";
                    Models.page_start := 4; Models.page_end := 5 |} ] ]}.
Proof. vm_compute. reflexivity. Qed.

Lemma reading_ids_are_numerals_witness :
  exists intervals,
    ({[ "vol1" :=
          [ {| Models.ri_reading_id := "3"; Models.ri_reading_title := "";
               Models.page_start := 2; Models.page_end := 3 |};
            {| Models.ri_reading_id := "4"; Models.ri_reading_title := "";
               Models.page_start := 4; Models.page_end := 5 |} ] ]}
       : gmap string (list Models.ReadingInterval)) !! "vol1" = Some intervals
    /\ Forall (fun a =>
                 (exists n, 0 <= n /\ Models.ri_reading_id a = Py.str n)
                 /\ Cli._normalize_reading_id (Models.ri_reading_id a)
                    = Py.Ok (Models.ri_reading_id a))
         intervals.
Proof.
  exact (reading_ids_are_numerals sample_id_regex (fun _ _ => None) sample_confirm
           sample_manifest sample_pdf None "vol1" true "gemini-3-flash-preview" None 15
           _ sample_id_regex_groups sample_id_build).
Defined.

(** ** From the reading map to the reading's chunks *)

Module ReadingChunksFacts.
Import Py PyFacts StripFacts Models Chunker ReadingMapFacts FindReadingFacts StreamFacts.
Import DigitFacts.



Section Stream.
Variable re_search : Regex.


End Stream.

End ReadingChunksFacts.

Section ReadingChunksExtras.
Import Py PyFacts StripFacts Models Chunker Retrieval ReadingMapFacts FindReadingFacts.
Import DigitFacts ReadingChunksFacts.


End ReadingChunksExtras.


Example sample_reading_chunks :
  Retrieval.load_chunks_for_reading sample_stream "1" = Py.Ok sample_stream.
Proof. vm_compute. reflexivity. Qed.

(** ** The size of the query embeddings *)

Module QueryFacts.
Import Py Models Retrieval.

Section WithEngine.
Variable Collection : Type.
Variable get_collection : string -> string -> result Collection.
Variable col_query : Collection -> list Q -> Z -> option string -> result QueryResult.
Variable embed_content : string -> result (list Q).
Variable path_exists : string -> bool.

(** The query was embedded as a vector of the size of the index. *)
Definition embedded (q : string) : Prop :=
  exists q_vec, embed_content q = Ok q_vec /\ Z.of_nat (List.length q_vec) = 768.

Lemma compute_query_embedding_ok q q_vec :
  compute_query_embedding embed_content q = Ok q_vec ->
  embed_content q = Ok q_vec /\ Z.of_nat (List.length q_vec) = 768.
Proof.
  unfold compute_query_embedding.
  destruct (embed_content q) as [val|e]; [|discriminate]. simpl.
  destruct (Z.eqb_spec (Z.of_nat (List.length val)) 768) as [E|E]; simpl;
    [|discriminate].
  intros H. injection H as <-. auto.
Qed.

Lemma chroma_query_ok chroma_dir q k where_ hits :
  chroma_query Collection get_collection col_query embed_content chroma_dir q k where_
    = Ok hits ->
  exists col q_vec res,
    get_collection chroma_dir "cfa_chunks" = Ok col
    /\ embed_content q = Ok q_vec /\ Z.of_nat (List.length q_vec) = 768
    /\ col_query col q_vec k where_ = Ok res
    /\ hits = hits_of (ids res) (distances res) (metadatas res) (documents res).
Proof.
  unfold chroma_query.
  destruct (get_collection chroma_dir "cfa_chunks") as [col|e]; [|discriminate].
  simpl bind.
  destruct (compute_query_embedding embed_content q) as [q_vec|e] eqn:Eq;
    [|discriminate].
  apply compute_query_embedding_ok in Eq. destruct Eq as [Eq Hlen]. simpl bind.
  destruct (col_query col q_vec k where_) as [res|e] eqn:Er; [|discriminate].
  simpl. intros H. injection H as <-.
  exists col, q_vec, res. auto.
Qed.

Lemma query_with_fallback_ok doc_id chroma_dir unified q hits :
  query_with_fallback Collection get_collection col_query embed_content path_exists
    doc_id chroma_dir unified q = Ok hits ->
  embedded q.
Proof.
  unfold query_with_fallback.
  destruct (chroma_query _ _ _ _ chroma_dir q 12 None) as [h|e] eqn:E1.
  - intros _. apply chroma_query_ok in E1.
    destruct E1 as (col & q_vec & res & _ & He & Hl & _). exists q_vec. auto.
  - destruct (_ && _); [|discriminate]. intros E2. apply chroma_query_ok in E2.
    destruct E2 as (col & q_vec & res & _ & He & Hl & _). exists q_vec. auto.
Qed.

End WithEngine.

End QueryFacts.

Section QueryExtras.
Import Py Models Retrieval RetrievalMore QueryFacts.
Variable Collection : Type.
Variable get_collection : string -> string -> result Collection.
Variable list_collections : string -> result (list string).
Variable col_query : Collection -> list Q -> Z -> option string -> result QueryResult.
Variable embed_content : string -> result (list Q).
Variable path_exists : string -> bool.

(** X27.  No result in a packet comes from a query embedding of the wrong
    size: in a packet that is built, each of the three same-document
    queries, and each cross-document query that has hits, was embedded as a
    vector of length 768.  An embedding of another size fails the
    same-document queries, and with them the packet, and leaves a
    cross-document query without hits. *)
Theorem packet_queries_are_embedded (now doc_id reading_id : string)
    (chunks_file : option (list Chunk)) (chroma_dir : string) (cross_ref : bool)
    (unified_chroma_dir : option string) (packet : EvidencePacket) :
  build_evidence_packet Collection get_collection list_collections col_query
    embed_content path_exists now doc_id reading_id chunks_file chroma_dir cross_ref
    unified_chroma_dir = Ok packet ->
  Forall (fun q => embedded embed_content q)
    [ doc_id +:+ " " +:+ reading_id +:+ " key concepts";
      reading_id +:+ " exam traps common mistakes";
      reading_id +:+ " formula intuition example" ]
  /\ Forall (fun t => k t = 12 \/ hits t <> [] -> embedded embed_content (query t))
       (top_k packet).
Proof.
  unfold build_evidence_packet.
  destruct chunks_file as [lines|]; [|discriminate].
  destruct (load_chunks_for_reading lines reading_id) as [fulltext|e]; [|discriminate].
  unfold bind at 1. cbv beta iota zeta.
  destruct fulltext as [|c cs]; [discriminate|].
  destruct (same_book_queries _ _ _ _ _ _ _ _ _ []) as [same|e] eqn:Es; [|discriminate].
  simpl. intros H; injection H as <-. simpl.
  apply same_book_queries_ok in Es. destruct Es as (added & -> & Hq & Hf).
  simpl.
  assert (Hsame : Forall (fun t => embedded embed_content (query t)) added).
  { eapply Forall_impl; [exact Hf|]. simpl. intros t [_ Ht].
    eapply query_with_fallback_ok. exact Ht. }
  split.
  - rewrite <- Hq. clear -Hsame. induction Hsame; simpl; constructor; auto.
  - apply Forall_app. split.
    + eapply Forall_impl; [exact Hsame|]. simpl. auto.
    + unfold cross_book_queries.
      destruct (cross_ref && _); [|constructor].
      destruct (negb _); [constructor|].
      apply Forall_forall. intros t Ht. apply list_elem_of_In, in_map_iff in Ht.
      destruct Ht as (q & <- & _). simpl. intros [Hk|Hh]; [discriminate|].
      destruct (chroma_query _ _ _ _ _ q 8 None) as [h|e] eqn:E; [|contradiction].
      apply chroma_query_ok in E.
      destruct E as (col & q_vec & res & _ & He & Hl & _). exists q_vec. auto.
Qed.

End QueryExtras.

Lemma packet_queries_are_embedded_witness :
  Forall (fun q => QueryFacts.embedded sample_embed q)
    [ "vol1 3 key concepts"; "3 exam traps common mistakes";
      "3 formula intuition example" ].
Proof.
  destruct (Retrieval.build_evidence_packet unit sample_get_collection
              (fun _ => Py.Ok []) sample_col_query sample_embed sample_exists
              "20261104T120000" "vol1" "3" (Some [chunk_of_reading_3]) "index/vol1"
              true (Some "index/unified")) as [packet|e] eqn:E.
  - exact (proj1 (packet_queries_are_embedded unit sample_get_collection
                    (fun _ => Py.Ok []) sample_col_query sample_embed sample_exists
                    _ _ _ _ _ _ _ _ E)).
  - exfalso. revert E. vm_compute. discriminate.
Defined.

(** ** The DeepSeek agent: the retry protocol *)

Module AgentFacts.
Import Py Agents.

Section WithApi.
Variable Dump : Type.
Variable create : list Message -> result string.
Variable model_validate_json : string -> result Dump.
Variable agent : DeepSeekAgent.







End WithApi.

End AgentFacts.

Section AgentExtras.
Import Py Agents AgentFacts.
Variable Dump : Type.
Variable create : list Message -> result string.
Variable model_validate_json : string -> result Dump.


End AgentExtras.

(** An agent with a schema and two retries, and an API that first answers
    with text that is not JSON and then with fenced JSON. *)
Definition sample_agent : Agents.DeepSeekAgent :=
  {| Agents.output_schema := true; Agents.output_key := Some "translated_script";
     Agents.raw_output_key := None; Agents.max_retries := 2;
     Agents.retry_hint := "Return ONLY valid JSON.";
     Agents.retry_include_last_output := true; Agents.retry_max_chars := 4000;
     Agents.save_raw_always := false |}.

Definition sample_create (messages : list Agents.Message) : Py.result string :=
  if (List.length messages <=? 1)%nat then Py.Ok "Sure, here it is"
  else Py.Ok ("```json" +:+ Chunker.NL +:+ "{}" +:+ Chunker.NL +:+ "```").

Definition sample_validate (content : string) : Py.result unit :=
  if String.eqb content "{}" then Py.Ok tt
  else Py.Raise (Py.ValueError "Invalid JSON").

Example sample_agent_run :
  Agents._run_async_impl unit sample_create sample_validate sample_agent "Translate." ∅
  = ( [ [ {| Agents.role := "user"; Agents.message_content := "Translate." |} ];
        [ {| Agents.role := "user"; Agents.message_content := "Translate." |};
          {| Agents.role := "assistant";
             Agents.message_content := "Sure, here it is" |};
          {| Agents.role := "user";
             Agents.message_content :=
               "Return ONLY valid JSON." +:+ Chunker.NL +:+ "Error: Invalid JSON"
               +:+ Chunker.NL +:+ "Fix the JSON above and output ONLY JSON." |} ] ],
      ( {[ "translated_script" := Agents.Dict tt ]}, Agents.Yielded (Agents.Dict tt) ) ).
Proof. vm_compute. reflexivity. Qed.

(** ** The per-scene translator: the scenes of the result *)

Module TranslatorFacts.
Import Py StripFacts Translator.

Section WithApi.
Variable Quiz : Type.
Variable create : string -> result string.
Variable base_prompt : string -> string -> string -> string -> string -> string.
Variable smooth_prompt : string -> string -> string -> string -> string.
Variable ratio_ok : Z -> Z -> bool.











End WithApi.

End TranslatorFacts.

Section TranslatorExtras.
Import Py Translator TranslatorFacts.
Variable Quiz : Type.
Variable create : string -> result string.
Variable base_prompt : string -> string -> string -> string -> string -> string.
Variable smooth_prompt : string -> string -> string -> string -> string.
Variable ratio_ok : Z -> Z -> bool.


End TranslatorExtras.

Example splitlines_examples :
  List.map Translator.splitlines
    [ ""; "a"; "a" +:+ Chunker.NL; Chunker.NL; "a" +:+ Chunker.NL +:+ Chunker.NL +:+ "b";
      String "a" (String "013" (String "010" (String "b" (String "013" EmptyString)))) ]
  = [ []; ["a"]; ["a"]; [""]; ["a"; ""; "b"]; ["a"; "b"] ].
Proof. vm_compute. reflexivity. Qed.









